(** * Workbook analysis scripts: model and verified properties

    The repository holds four stand-alone Python scripts that open a
    spreadsheet workbook and print a JSON summary of it:

      - [analyze_excel.py]               ([Module AnalyzeExcel])
      - [analyze_excel_final.py]         ([Module AnalyzeFinal])
      - [analyze_excel_comprehensive.py] ([Module Comprehensive])
      - [analyze_excel_detailed.py]      ([Module Detailed])

    Each module is a shallow embedding of its script: Python values are
    an inductive type, a worksheet is a record with its extents and its
    cell function, a loop over [range(a, b)] is a recursion over the list
    of indices that carries the variables the loop assigns, exceptions
    are an error monad, and what the interpreter or an external library
    decides (the iteration order of a [set], the text of a float, what
    [pandas] computes for a column, whether a file can be opened) is a
    parameter. The properties follow the definitions. *)

From Stdlib Require Import ZArith PrimFloat.
From stdpp Require Import base decidable option list strings pretty.

Open Scope string_scope.
Open Scope list_scope.
Open Scope nat_scope.

(** ** Python values and exceptions *)

(** [datetime.datetime], as openpyxl returns it for a date cell. *)
Record datetime := DateTime {
  dt_year : nat; dt_month : nat; dt_day : nat;
  dt_hour : nat; dt_minute : nat; dt_second : nat; dt_microsecond : nat
}.

(** [datetime.time], as openpyxl returns it for a cell formatted as a
    time of day. *)
Record time_of_day := TimeOfDay {
  t_hour : nat; t_minute : nat; t_second : nat; t_microsecond : nat
}.

(** [datetime.timedelta], as openpyxl returns it for a cell formatted as a
    duration: days, seconds below 86400 and microseconds below 1000000. *)
Record timedelta := TimeDelta {
  td_days : Z; td_seconds : nat; td_microseconds : nat
}.

(** The value of a cell: [None] for an empty cell, else text, a number, a
    boolean, a date, a time of day or a duration. *)
Inductive value :=
| VNone
| VBool (b : bool)
| VInt (n : Z)
| VFloat (x : float)
| VStr (s : string)
| VDateTime (t : datetime)
| VTime (t : time_of_day)
| VTimedelta (d : timedelta).

(** [v is not None] *)
Definition is_not_none (v : value) : bool :=
  match v with VNone => false | _ => true end.

(** [type(v).__name__] *)
Definition type_name (v : value) : string :=
  match v with
  | VNone => "NoneType"
  | VBool _ => "bool"
  | VInt _ => "int"
  | VFloat _ => "float"
  | VStr _ => "str"
  | VDateTime _ => "datetime"
  | VTime _ => "time"
  | VTimedelta _ => "timedelta"
  end.

(** The name of the type with its module, as the interpreter writes it in
    the message of an [AttributeError]. *)
Definition qualified_type_name (v : value) : string :=
  match v with
  | VDateTime _ | VTime _ | VTimedelta _ => "datetime." +:+ type_name v
  | _ => type_name v
  end.

(** [bool(v)]: the truth value Python's [or] tests. *)
Definition truthy (v : value) : bool :=
  match v with
  | VNone => false
  | VBool b => b
  | VInt n => negb (n =? 0)%Z
  | VFloat x => negb (PrimFloat.eqb x 0%float)
  | VStr s => negb (String.eqb s "")
  | VDateTime _ => true
  | VTime _ => true
  | VTimedelta d =>
      negb ((td_days d =? 0)%Z && (td_seconds d =? 0) && (td_microseconds d =? 0))
  end.

(** [a or b] *)
Definition py_or (a b : value) : value := if truthy a then a else b.

(** The exceptions of the scripts and of the libraries they call: all
    are subclasses of [Exception]. *)
Inductive exn :=
| KeyError (key : string)
| ValueError (msg : string)
| IndexError (msg : string)
| TypeError (msg : string)
| AttributeError (msg : string)
| OSError (msg : string)
| BadZipFile (msg : string).

(** [str(e)] *)
Definition exn_str (e : exn) : string :=
  match e with
  | KeyError k => "'" +:+ k +:+ "'"
  | ValueError m | IndexError m | TypeError m | AttributeError m | OSError m
  | BadZipFile m => m
  end.

(** A computation that returns or raises. *)
Inductive result (A : Type) :=
| Ok (a : A)
| Raise (e : exn).
Arguments Ok {A} a.
Arguments Raise {A} e.

Definition bind {A B} (m : result A) (k : A → result B) : result B :=
  match m with Ok a => k a | Raise e => Raise e end.

Notation "x <- m ;; k" := (bind m (λ x, k))
  (at level 100, m at next level, right associativity).

(** A list comprehension [[f x for x in l]] whose body may raise. *)
Fixpoint for_each {A B} (f : A → result B) (l : list A) : result (list B) :=
  match l with
  | [] => Ok []
  | x :: l' => y <- f x ;; ys <- for_each f l' ;; Ok (y :: ys)
  end.

(** [range(a, b)] *)
Definition py_range (a b : nat) : list nat := seq a (b - a).

(** [l[i]] for [i >= 0] *)
Definition py_index {A} (l : list A) (i : nat) : result A :=
  match l !! i with
  | Some x => Ok x
  | None => Raise (IndexError "list index out of range")
  end.

(** [any(p(x) for x in l)] *)
Definition py_any {A} (p : A → bool) (l : list A) : bool := existsb p l.

(** ** Sets of strings

    A Python [set] of strings, kept as the list of its members without
    repetition in the order they were added. The order in which the
    interpreter iterates over it ([list(s)]) depends on the hashes of the
    members, which change from one process to the next; it is the
    parameter [set_iter] of the functions that need it. *)
Module PySet.

Definition t := list string.

Definition empty : t := [].

(** [s.add(x)] *)
Definition add (x : string) (s : t) : t :=
  if decide (x ∈ s) then s else s ++ [x].

(** [bool(s)] *)
Definition nonempty (s : t) : bool :=
  match s with [] => false | _ => true end.

(** What every iteration order satisfies: [list(s)] has the members of
    [s], each once. *)
Definition iter_ok (set_iter : t → list string) : Prop :=
  ∀ s : t, NoDup s → set_iter s ≡ₚ s.

End PySet.

(** ** Worksheets and workbooks *)

(** An openpyxl worksheet: its extents and the value of each cell. *)
Record worksheet := Worksheet {
  max_row : nat;
  max_column : nat;
  cells : nat → nat → value
}.

(** [ws.cell(row, col)] creates the cell when the sheet does not hold it,
    and [ws.max_row] is the largest row that holds a cell: after the cells
    of row [row] have been read over the columns of the sheet, the sheet
    has at least [row] rows. The scripts read a row beyond the last one
    only at a fixed header row ([analyze_excel_final.py] lines 26 and 64,
    [analyze_excel_detailed.py] line 56); every other read lies within the
    extents and leaves them as they are. *)
Definition row_read (ws : worksheet) (row : nat) : worksheet :=
  if max_column ws =? 0 then ws
  else {| max_row := max (max_row ws) row;
          max_column := max_column ws;
          cells := cells ws |}.

(** [ws.cell(row, col).value]; openpyxl refuses an index below 1. *)
Definition cell_value (ws : worksheet) (row col : nat) : result value :=
  if (row <? 1) || (col <? 1)
  then Raise (ValueError "Row or column values must be at least 1")
  else Ok (cells ws row col).

(** [[ws.cell(row, col).value for col in range(1, stop)]] *)
Definition row_data (ws : worksheet) (row stop : nat) : result (list value) :=
  for_each (cell_value ws row) (py_range 1 stop).

(** A workbook: its sheets by name, in file order. *)
Definition workbook := list (string * worksheet).

(** [wb.sheetnames] *)
Definition sheetnames (wb : workbook) : list string := wb.*1.

(** [wb[name]] *)
Fixpoint get_sheet (wb : workbook) (name : string) : result worksheet :=
  match wb with
  | [] => Raise (KeyError ("Worksheet " +:+ name +:+ " does not exist."))
  | (n, ws) :: wb' => if String.eqb n name then Ok ws else get_sheet wb' name
  end.

(** ** [json.dumps]

    The objects the scripts serialise: cell values, lists and
    dictionaries in insertion order. Text is a string of characters with
    code points below 256. *)
#[local] Set Warnings "-register-all".
Inductive pyobj :=
| OVal (v : value)
| OList (items : list pyobj)
| ODict (entries : list (value * pyobj)).

(** A dictionary entry with a text key. *)
Definition field (key : string) (o : pyobj) : value * pyobj := (VStr key, o).

Module Json.

Definition quote : string := String (Ascii.ascii_of_nat 34) "".
Definition newline : string := String (Ascii.ascii_of_nat 10) "".

(** [s * n] *)
Fixpoint repeat_str (s : string) (n : nat) : string :=
  match n with 0 => "" | S n' => s +:+ repeat_str s n' end.

Definition hex_digit (n : nat) : string :=
  match n with
  | 0 => "0" | 1 => "1" | 2 => "2" | 3 => "3" | 4 => "4" | 5 => "5"
  | 6 => "6" | 7 => "7" | 8 => "8" | 9 => "9" | 10 => "a" | 11 => "b"
  | 12 => "c" | 13 => "d" | 14 => "e" | _ => "f"
  end.

(** ['\\u{0:04x}'.format(n)] for [n < 256] *)
Definition u_escape (n : nat) : string :=
  "\u00" +:+ hex_digit (n / 16) +:+ hex_digit (n mod 16).

(** The replacement of one character inside a JSON string. With
    [ensure_ascii] everything outside [' ' .. '~'] is escaped, without it
    only the control characters below 32 are. *)
Definition escape_char (ensure_ascii : bool) (c : Ascii.ascii) : string :=
  let n := Ascii.nat_of_ascii c in
  if n =? 34 then "\" +:+ quote
  else if n =? 92 then "\\"
  else if n =? 10 then "\n"
  else if n =? 13 then "\r"
  else if n =? 9 then "\t"
  else if n =? 8 then "\b"
  else if n =? 12 then "\f"
  else if n <? 32 then u_escape n
  else if ensure_ascii && (126 <? n) then u_escape n
  else String c "".

Fixpoint escape (ensure_ascii : bool) (s : string) : string :=
  match s with
  | EmptyString => ""
  | String c s' => escape_char ensure_ascii c +:+ escape ensure_ascii s'
  end.

Definition encode_str (ensure_ascii : bool) (s : string) : string :=
  quote +:+ escape ensure_ascii s +:+ quote.

(** ['%0*d' % (width, n)] *)
Definition zero_pad (width n : nat) : string :=
  let s := pretty n in
  repeat_str "0" (width - String.length s) +:+ s.

(** [str(t)] for a [datetime] *)
Definition datetime_str (t : datetime) : string :=
  zero_pad 4 (dt_year t) +:+ "-" +:+ zero_pad 2 (dt_month t) +:+ "-" +:+
  zero_pad 2 (dt_day t) +:+ " " +:+ zero_pad 2 (dt_hour t) +:+ ":" +:+
  zero_pad 2 (dt_minute t) +:+ ":" +:+ zero_pad 2 (dt_second t) +:+
  (if dt_microsecond t =? 0 then ""
   else "." +:+ zero_pad 6 (dt_microsecond t)).

(** [str(t)] for a [time] *)
Definition time_str (t : time_of_day) : string :=
  zero_pad 2 (t_hour t) +:+ ":" +:+ zero_pad 2 (t_minute t) +:+ ":" +:+
  zero_pad 2 (t_second t) +:+
  (if t_microsecond t =? 0 then ""
   else "." +:+ zero_pad 6 (t_microsecond t)).

(** [str(d)] for a [timedelta] *)
Definition timedelta_str (d : timedelta) : string :=
  let mm := td_seconds d / 60 in
  let ss := td_seconds d mod 60 in
  let hh := mm / 60 in
  let mm := mm mod 60 in
  (if (td_days d =? 0)%Z then ""
   else pretty (td_days d) +:+ " day" +:+
        (if (Z.abs (td_days d) =? 1)%Z then "" else "s") +:+ ", ") +:+
  pretty hh +:+ ":" +:+ zero_pad 2 mm +:+ ":" +:+ zero_pad 2 ss +:+
  (if td_microseconds d =? 0 then ""
   else "." +:+ zero_pad 6 (td_microseconds d)).

Section Dumps.

(** [float.__repr__], with [NaN], [Infinity] and [-Infinity] for the
    values JSON has no number for. *)
Variable float_repr : float → string.

(** [default=str] was given. *)
Variable default_str : bool.

Variable ensure_ascii : bool.

Definition encode_value (v : value) : result string :=
  match v with
  | VNone => Ok "null"
  | VBool true => Ok "true"
  | VBool false => Ok "false"
  | VInt n => Ok (pretty n)
  | VFloat x => Ok (float_repr x)
  | VStr s => Ok (encode_str ensure_ascii s)
  | VDateTime t =>
      if default_str
      then Ok (encode_str ensure_ascii (datetime_str t))
      else Raise (TypeError "Object of type datetime is not JSON serializable")
  | VTime t =>
      if default_str
      then Ok (encode_str ensure_ascii (time_str t))
      else Raise (TypeError "Object of type time is not JSON serializable")
  | VTimedelta d =>
      if default_str
      then Ok (encode_str ensure_ascii (timedelta_str d))
      else Raise (TypeError "Object of type timedelta is not JSON serializable")
  end.

(** The text of a dictionary key; [default] is not consulted for keys. *)
Definition encode_key (k : value) : result string :=
  match k with
  | VStr s => Ok s
  | VNone => Ok "null"
  | VBool true => Ok "true"
  | VBool false => Ok "false"
  | VInt n => Ok (pretty n)
  | VFloat x => Ok (float_repr x)
  | VDateTime _ =>
      Raise (TypeError "keys must be str, int, float, bool or None, not datetime")
  | VTime _ =>
      Raise (TypeError "keys must be str, int, float, bool or None, not time")
  | VTimedelta _ =>
      Raise (TypeError "keys must be str, int, float, bool or None, not timedelta")
  end.

(** Line break and indentation at nesting depth [level], for [indent=2]. *)
Definition newline_indent (level : nat) : string :=
  newline +:+ repeat_str " " (2 * level).

(** [sep.join(chunks)] *)
Fixpoint join (sep : string) (chunks : list string) : string :=
  match chunks with
  | [] => ""
  | [c] => c
  | c :: rest => c +:+ sep +:+ join sep rest
  end.

Definition bracket (opening closing : string) (level : nat)
    (chunks : list string) : string :=
  match chunks with
  | [] => opening +:+ closing
  | _ => opening +:+ newline_indent (level + 1) +:+
         join ("," +:+ newline_indent (level + 1)) chunks +:+
         newline_indent level +:+ closing
  end.

Fixpoint encode (level : nat) (o : pyobj) : result string :=
  match o with
  | OVal v => encode_value v
  | OList items =>
      chunks <- for_each (encode (level + 1)) items ;;
      Ok (bracket "[" "]" level chunks)
  | ODict entries =>
      chunks <- for_each
        (λ kv, k <- encode_key kv.1 ;;
               s <- encode (level + 1) kv.2 ;;
               Ok (encode_str ensure_ascii k +:+ ": " +:+ s)) entries ;;
      Ok (bracket "{" "}" level chunks)
  end.

(** [json.dumps(o, indent=2, ...)] *)
Definition dumps (o : pyobj) : result string := encode 0 o.

End Dumps.

End Json.

(** ** [analyze_excel.py] *)
Module AnalyzeExcel.

(** An entry of [result["column_types"]]. *)
Record column_type := ColumnType {
  column : value;
  types : list string
}.

(** The dictionary [analyze_sheet] returns. *)
Record sheet_info := SheetInfo {
  sheet_name : string;
  total_rows : nat;
  total_columns : nat;
  headers : list value;
  sample_rows : list (list value);
  column_types : list column_type
}.

(** The header search (lines 27-33), over the rows still to visit; it
    carries [result["headers"]] and [header_row_idx] and stops at the
    first row with a cell that is not [None] ([break]). *)
Fixpoint header_loop (ws : worksheet) (rows : list nat)
    (hdrs : list value) (header_row_idx : nat) : result (list value * nat) :=
  match rows with
  | [] => Ok (hdrs, header_row_idx)
  | row_idx :: rows' =>
      rd <- row_data ws row_idx (max_column ws + 1) ;;
      if py_any is_not_none rd
      then Ok (rd, row_idx)
      else header_loop ws rows' hdrs header_row_idx
  end.

(** Lines 27-33 with the literal bound of the range as [stop]: the
    script has [stop = 10]. *)
Definition locate_header (ws : worksheet) (stop : nat) : result (list value * nat) :=
  header_loop ws (py_range 1 (min stop (max_row ws + 1))) [] 1.

(** The sample loop (lines 36-39). *)
Fixpoint sample_loop (ws : worksheet) (rows : list nat)
    (acc : list (list value)) : result (list (list value)) :=
  match rows with
  | [] => Ok acc
  | row_idx :: rows' =>
      rd <- row_data ws row_idx (max_column ws + 1) ;;
      sample_loop ws rows' (if py_any is_not_none rd then acc ++ [rd] else acc)
  end.

(** The inner loop of the type inference (lines 45-48). *)
Fixpoint types_loop (ws : worksheet) (col_idx : nat) (rows : list nat)
    (col_types : PySet.t) : result PySet.t :=
  match rows with
  | [] => Ok col_types
  | row_idx :: rows' =>
      cell_val <- cell_value ws row_idx col_idx ;;
      types_loop ws col_idx rows'
        (if is_not_none cell_val
         then PySet.add (type_name cell_val) col_types
         else col_types)
  end.

Section Script.

(** The iteration order of the interpreter's sets in this run. *)
Variable set_iter : PySet.t → list string.

(** The interpreter's text of a float. *)
Variable float_repr : float → string.

(** The body of the loop over the columns (lines 43-52). *)
Definition column_type_of (ws : worksheet) (header_row_idx col_idx : nat)
    : result column_type :=
  header_val <- cell_value ws header_row_idx col_idx ;;
  let col_name := py_or header_val (VStr ("Column_" +:+ pretty col_idx)) in
  col_types <- types_loop ws col_idx
      (py_range (header_row_idx + 1) (min (header_row_idx + 20) (max_row ws + 1)))
      PySet.empty ;;
  Ok {| column := col_name;
        types := if PySet.nonempty col_types
                 then set_iter col_types
                 else ["Empty/None"] |}.

(** [analyze_sheet(sheet_name, max_data_rows)] (lines 15-54), on the
    workbook the script has loaded. *)
Definition analyze_sheet (wb : workbook) (name : string) (max_data_rows : nat)
    : result sheet_info :=
  ws <- get_sheet wb name ;;
  found <- locate_header ws 10 ;;
  let hdrs := found.1 in
  let header_row_idx := found.2 in
  samples <- sample_loop ws
      (py_range (header_row_idx + 1)
         (min (header_row_idx + 1 + max_data_rows) (max_row ws + 1))) [] ;;
  cts <- for_each (column_type_of ws header_row_idx)
      (py_range 1 (max_column ws + 1)) ;;
  Ok {| sheet_name := name;
        total_rows := max_row ws;
        total_columns := max_column ws;
        headers := hdrs;
        sample_rows := samples;
        column_types := cts |}.

(** An entry of ["columns"] in the final response. *)
Record column_entry := ColumnEntry {
  name : value;
  data_type : string;
  description : string
}.

Record sheet_summary := SheetSummary {
  columns : list column_entry;
  summary_sample_rows : list (list value);
  summary_total_rows : nat;
  key_purpose : string
}.

Record response := Response {
  sheets : list string;
  msme_sheet : sheet_summary;
  charter_sheet : sheet_summary
}.

(** The element of the ["columns"] comprehension (lines 74-78) at
    index [i]. *)
Definition column_entry_of (info : sheet_info) (i : nat) : result column_entry :=
  nm <- (if i <? length (headers info)
         then py_index (headers info) i
         else Ok (VStr ("Column_" +:+ pretty (i + 1)))) ;;
  dt <- (if i <? length (column_types info)
         then ct <- py_index (column_types info) i ;;
              match types ct with
              | [] => Ok "Unknown"
              | _ => py_index (types ct) 0
              end
         else Ok "Unknown") ;;
  Ok {| name := nm; data_type := dt; description := "" |}.

(** One of the two sheet entries of [response] (lines 72-84, 85-97). *)
Definition summarize (info : sheet_info) (purpose : string) : result sheet_summary :=
  cols <- for_each (column_entry_of info) (py_range 0 (length (headers info))) ;;
  Ok {| columns := cols;
        summary_sample_rows := take 3 (sample_rows info);
        summary_total_rows := total_rows info;
        key_purpose := purpose |}.

(** What the script computes, in the order it does (lines 60-98). *)
Definition build_response (wb : workbook)
    : result (sheet_info * sheet_info * response) :=
  msme_info <- analyze_sheet wb "msme" 3 ;;
  charter_info <- analyze_sheet wb "charter" 3 ;;
  msme <- summarize msme_info
            "Information about incentive schemes for MSMEs in Tamil Nadu" ;;
  charter <- summarize charter_info
            "Government schemes and programs charter information" ;;
  Ok (msme_info, charter_info,
      {| sheets := sheetnames wb; msme_sheet := msme; charter_sheet := charter |}).

Definition int_obj (n : nat) : pyobj := OVal (VInt (Z.of_nat n)).
Definition str_obj (s : string) : pyobj := OVal (VStr s).
Definition row_obj (row : list value) : pyobj := OList (OVal <$> row).

(** The dictionaries above as the objects handed to [json.dumps]. *)
Definition column_type_obj (ct : column_type) : pyobj :=
  ODict [field "column" (OVal (column ct));
         field "types" (OList (str_obj <$> types ct))].

Definition sheet_info_obj (info : sheet_info) : pyobj :=
  ODict [field "sheet_name" (str_obj (sheet_name info));
         field "total_rows" (int_obj (total_rows info));
         field "total_columns" (int_obj (total_columns info));
         field "headers" (row_obj (headers info));
         field "sample_rows" (OList (row_obj <$> sample_rows info));
         field "column_types" (OList (column_type_obj <$> column_types info))].

Definition column_entry_obj (c : column_entry) : pyobj :=
  ODict [field "name" (OVal (name c));
         field "data_type" (str_obj (data_type c));
         field "description" (str_obj (description c))].

Definition sheet_summary_obj (s : sheet_summary) : pyobj :=
  ODict [field "columns" (OList (column_entry_obj <$> columns s));
         field "sample_rows" (OList (row_obj <$> summary_sample_rows s));
         field "total_rows" (int_obj (summary_total_rows s));
         field "key_purpose" (str_obj (key_purpose s))].

Definition response_obj (r : response) : pyobj :=
  ODict [field "sheets" (OList (str_obj <$> sheets r));
         field "msme_sheet" (sheet_summary_obj (msme_sheet r));
         field "charter_sheet" (sheet_summary_obj (charter_sheet r))].

Definition rule : string := Json.repeat_str "=" 80.

(** The whole script on a loaded workbook: the texts it prints, one per
    call of [print], when it runs to its end. *)
Definition main (wb : workbook) : result (list string) :=
  all_sheets <- Json.dumps float_repr false true (OList (str_obj <$> sheetnames wb)) ;;
  msme_info <- analyze_sheet wb "msme" 3 ;;
  msme_text <- Json.dumps float_repr true true (sheet_info_obj msme_info) ;;
  charter_info <- analyze_sheet wb "charter" 3 ;;
  charter_text <- Json.dumps float_repr true true (sheet_info_obj charter_info) ;;
  msme <- summarize msme_info
            "Information about incentive schemes for MSMEs in Tamil Nadu" ;;
  charter <- summarize charter_info
            "Government schemes and programs charter information" ;;
  final <- Json.dumps float_repr true true
             (response_obj {| sheets := sheetnames wb;
                              msme_sheet := msme;
                              charter_sheet := charter |}) ;;
  Ok ["ALL SHEETS: " +:+ all_sheets +:+ Json.newline;
      rule; "ANALYZING MSME SHEET"; rule; msme_text;
      Json.newline +:+ rule; "ANALYZING CHARTER SHEET"; rule; charter_text;
      Json.newline +:+ rule; "FINAL JSON RESPONSE"; rule; final].

End Script.

End AnalyzeExcel.

(** ** [analyze_excel_final.py] *)
Module AnalyzeFinal.

(** The header collection (lines 24-28 and 62-66): the cells of the
    header row that are not [None], in column order. *)
Fixpoint headers_loop (ws : worksheet) (header_row : nat) (cols : list nat)
    (hdrs : list value) : result (list value) :=
  match cols with
  | [] => Ok hdrs
  | col :: cols' =>
      header_val <- cell_value ws header_row col ;;
      headers_loop ws header_row cols'
        (if is_not_none header_val then hdrs ++ [header_val] else hdrs)
  end.

Definition collect_headers (ws : worksheet) (header_row : nat) : result (list value) :=
  headers_loop ws header_row (py_range 1 (max_column ws + 1)) [].

(** The sample rows (lines 31-39 and 69-77): of the listed rows, those
    within the sheet that have a value in the first [len(headers)]
    columns, cut to these columns. *)
Fixpoint samples_loop (ws : worksheet) (n_headers : nat) (rows : list nat)
    (samples : list (list value)) : result (list (list value)) :=
  match rows with
  | [] => Ok samples
  | row_idx :: rows' =>
      if row_idx <=? max_row ws
      then rd <- row_data ws row_idx (n_headers + 1) ;;
           samples_loop ws n_headers rows'
             (if py_any is_not_none rd then samples ++ [rd] else samples)
      else samples_loop ws n_headers rows' samples
  end.

(** The count of data rows (lines 42-46 and 80-84). *)
Fixpoint count_loop (ws : worksheet) (rows : list nat) (count : nat) : result nat :=
  match rows with
  | [] => Ok count
  | row_idx :: rows' =>
      rd <- row_data ws row_idx (max_column ws + 1) ;;
      count_loop ws rows' (if py_any is_not_none rd then count + 1 else count)
  end.

Record column_entry := ColumnEntry {
  name : value;
  data_type : string;
  description : string
}.

Record sheet_summary := SheetSummary {
  sheet_name : string;
  title : value;
  columns : list column_entry;
  sample_rows : list (list value);
  total_rows : nat;
  total_columns : nat;
  key_purpose : string
}.

Record response := Response {
  sheets : list string;
  msme_sheet : sheet_summary;
  charter_sheet : sheet_summary
}.

(** The ["columns"] comprehension (lines 95-102 and 111-118). *)
Definition column_entry_of (hdrs : list value) (dtype : string)
    (descr : nat → string) (i : nat) : result column_entry :=
  nm <- (if i <? length hdrs
         then py_index hdrs i
         else Ok (VStr ("Column_" +:+ pretty (i + 1)))) ;;
  Ok {| name := nm; data_type := dtype; description := descr i |}.

Definition columns_of (hdrs : list value) (dtype : string)
    (descr : nat → string) : result (list column_entry) :=
  for_each (column_entry_of hdrs dtype descr) (py_range 0 (length hdrs)).

(** What the script fixes for each of its two sheets by inspection of
    the file. *)
Record layout := Layout {
  header_row : nat;
  data_start : nat;
  sample_idx : list nat;
  col_data_type : string;
  col_description : nat → string;
  purpose : string
}.

Definition msme_layout : layout :=
  {| header_row := 2;
     data_start := 3;
     sample_idx := [3; 5; 10];
     col_data_type := "string (with various content types)";
     col_description := λ _,
       "Each column represents a different aspect of the MSME incentive scheme";
     purpose := "Contains information about incentive schemes available to Micro, Small and Medium Enterprises in Tamil Nadu, including infrastructure support, capital subsidies, employment schemes, and eligibility criteria" |}.

Definition charter_layout : layout :=
  {| header_row := 3;
     data_start := 4;
     sample_idx := [4; 6; 8];
     col_data_type := "string (text descriptions)";
     col_description := λ i, "Column " +:+ pretty (i + 1) +:+ " of charter sheet";
     purpose := "Contains a charter/directory of government schemes and programs organized by department (Agriculture, Cooperatives, etc.) including welfare schemes, eligibility conditions, and officer contacts for farmers and other beneficiaries" |}.

(** What the script gathers from one sheet (lines 16-46 for "msme",
    51-84 for "charter"): title, headers, samples, number of data rows. *)
Record gathered := Gathered {
  g_title : value;
  g_headers : list value;
  g_samples : list (list value);
  g_data_rows : nat
}.

(** The read of the header row may leave the sheet with that row as its
    last one ([row_read]); the rows sampled and counted after it lie
    below the header row, where the extents of the sheet as it was loaded
    decide the same. *)
Definition gather (wb : workbook) (name : string) (lay : layout) : result gathered :=
  ws <- get_sheet wb name ;;
  ttl <- cell_value ws 1 1 ;;
  hdrs <- collect_headers ws (header_row lay) ;;
  samples <- samples_loop ws (length hdrs) (sample_idx lay) [] ;;
  count <- count_loop ws (py_range (data_start lay) (max_row ws + 1)) 0 ;;
  Ok {| g_title := ttl; g_headers := hdrs; g_samples := samples;
        g_data_rows := count |}.

(** One sheet entry of [response] (lines 92-107 and 108-123). *)
Definition summarize (name : string) (lay : layout) (g : gathered)
    : result sheet_summary :=
  cols <- columns_of (g_headers g) (col_data_type lay) (col_description lay) ;;
  Ok {| sheet_name := name;
        title := g_title g;
        columns := cols;
        sample_rows := take 2 (g_samples g);
        total_rows := g_data_rows g;
        total_columns := length (g_headers g);
        key_purpose := purpose lay |}.

Definition build_response (wb : workbook) : result response :=
  msme <- gather wb "msme" msme_layout ;;
  charter <- gather wb "charter" charter_layout ;;
  msme_entry <- summarize "msme" msme_layout msme ;;
  charter_entry <- summarize "charter" charter_layout charter ;;
  Ok {| sheets := sheetnames wb;
        msme_sheet := msme_entry;
        charter_sheet := charter_entry |}.

Definition int_obj (n : nat) : pyobj := OVal (VInt (Z.of_nat n)).
Definition str_obj (s : string) : pyobj := OVal (VStr s).
Definition row_obj (row : list value) : pyobj := OList (OVal <$> row).

Definition column_entry_obj (c : column_entry) : pyobj :=
  ODict [field "name" (OVal (name c));
         field "data_type" (str_obj (data_type c));
         field "description" (str_obj (description c))].

Definition sheet_summary_obj (s : sheet_summary) : pyobj :=
  ODict [field "sheet_name" (str_obj (sheet_name s));
         field "title" (OVal (title s));
         field "columns" (OList (column_entry_obj <$> columns s));
         field "sample_rows" (OList (row_obj <$> sample_rows s));
         field "total_rows" (int_obj (total_rows s));
         field "total_columns" (int_obj (total_columns s));
         field "key_purpose" (str_obj (key_purpose s))].

Definition relationships_obj : pyobj :=
  ODict [field "description" (str_obj "Both sheets document government schemes and benefits");
         field "msme_focus" (str_obj "Financial incentives for enterprise development");
         field "charter_focus" (str_obj "Welfare schemes and eligibility for farmer benefits");
         field "common_purpose" (str_obj "Support economic development and farmer welfare in Tamil Nadu")].

Definition response_obj (r : response) : pyobj :=
  ODict [field "sheets" (OList (str_obj <$> sheets r));
         field "msme_sheet" (sheet_summary_obj (msme_sheet r));
         field "charter_sheet" (sheet_summary_obj (charter_sheet r));
         field "relationships" (relationships_obj)].

(** The whole script: the text it prints when it runs to its end
    (line 132 has no [default]). *)
Definition main (float_repr : float → string) (wb : workbook) : result string :=
  r <- build_response wb ;;
  Json.dumps float_repr false true (response_obj r).

End AnalyzeFinal.

(** ** [analyze_excel_comprehensive.py] *)
Module Comprehensive.

Definition excel_path : string :=
  "c:\Users\Zenith Joshua\Desktop\vict\my-app\data\Farms Stock Report.xlsx".

Definition output_path : string :=
  "c:\Users\Zenith Joshua\Desktop\vict\excel_analysis.json".

(** *** Text operations *)

(** [str.lower] on one character with a code point below 256: the
    letters [A-Z] and the capital letters of Latin-1 move down by 32. *)
Definition lower_char (c : Ascii.ascii) : Ascii.ascii :=
  let n := Ascii.nat_of_ascii c in
  if ((65 <=? n) && (n <=? 90)) ||
     ((192 <=? n) && (n <=? 222) && negb (n =? 215))
  then Ascii.ascii_of_nat (n + 32)
  else c.

(** [s.lower()] *)
Fixpoint lower (s : string) : string :=
  match s with
  | EmptyString => EmptyString
  | String c s' => String (lower_char c) (lower s')
  end.

(** [needle in hay] *)
Fixpoint contains (needle hay : string) : bool :=
  String.prefix needle hay ||
  match hay with
  | EmptyString => false
  | String _ hay' => contains needle hay'
  end.

(** *** What pandas reports *)

(** The column [df[col]], by what the script asks of it. *)
Record series := Series {
  dtype : string;                 (* [str(df[col].dtype)] *)
  nunique : nat;                  (* [df[col].nunique()] *)
  unique_head : list string;      (* [[str(v) for v in df[col].unique()[:10].tolist()]] *)
  notna_any : bool;               (* [df[col].notna().any()] *)
  float_min : result float;       (* [float(df[col].min())] *)
  float_max : result float;       (* [float(df[col].max())] *)
  float_mean : result float;      (* [float(df[col].mean())] *)
  notna_sum : nat                 (* [int(df[col].notna().sum())] *)
}.

(** A dataframe as [read_excel] returns it: its rows, and its columns by
    label in order. The labels of such a frame are pairwise distinct
    ([read_excel] renames repeated ones), so a dictionary filled by one
    assignment per column in order is the list of these assignments. *)
Record dataframe := DataFrame {
  df_rows : list (list value);
  df_columns : list (value * series)
}.

(** *** The analysis of one sheet *)

Definition location_keywords : list string :=
  ["location"; "place"; "area"; "region"; "district"; "state"; "address"].
Definition crop_keywords : list string :=
  ["crop"; "variety"; "seed"; "seedling"; "type"; "name"].
Definition stock_keywords : list string :=
  ["stock"; "quantity"; "qty"; "count"; "amount"; "units"].
Definition outlet_keywords : list string :=
  ["outlet"; "store"; "shop"; "seller"; "vendor"].

(** [any(keyword in col_lower for keyword in keywords)] *)
Definition matches (keywords : list string) (col_lower : string) : bool :=
  py_any (λ keyword, contains keyword col_lower) keywords.

(** [col.lower()] for a column label: only text has the method. *)
Definition label_lower (col : value) : result string :=
  match col with
  | VStr s => Ok (lower s)
  | v => Raise (AttributeError
           ("'" +:+ qualified_type_name v +:+
            "' object has no attribute 'lower'"))
  end.

(** An entry of [patterns]. *)
Inductive pattern :=
| Categorical (unique_count : nat) (sample_values : list string)
| Numeric (vmin vmax vmean : value) (non_null_count : nat).

(** What the loop over the columns (lines 64-94) builds up. *)
Record columns_state := ColumnsState {
  patterns : list (value * pattern);
  location_cols : list value;
  crop_cols : list value;
  stock_cols : list value;
  outlet_cols : list value
}.

(** [float(x) if df[col].notna().any() else None] *)
Definition stat (s : series) (x : result float) : result value :=
  if notna_any s then v <- x ;; Ok (VFloat v) else Ok VNone.

(** The body of the loop over the columns (lines 65-94). *)
Definition column_step (col : value) (s : series) (st : columns_state)
    : result columns_state :=
  col_lower <- label_lower col ;;
  let location := if matches location_keywords col_lower
                  then location_cols st ++ [col] else location_cols st in
  let crop := if matches crop_keywords col_lower
              then crop_cols st ++ [col] else crop_cols st in
  let stock := if matches stock_keywords col_lower
               then stock_cols st ++ [col] else stock_cols st in
  let outlet := if matches outlet_keywords col_lower
                then outlet_cols st ++ [col] else outlet_cols st in
  pat <- (if String.eqb (dtype s) "object"
          then Ok (Categorical (nunique s) (unique_head s))
          else vmin <- stat s (float_min s) ;;
               vmax <- stat s (float_max s) ;;
               vmean <- stat s (float_mean s) ;;
               Ok (Numeric vmin vmax vmean (notna_sum s))) ;;
  Ok {| patterns := patterns st ++ [(col, pat)];
        location_cols := location; crop_cols := crop;
        stock_cols := stock; outlet_cols := outlet |}.

Fixpoint columns_loop (cols : list (value * series)) (st : columns_state)
    : result columns_state :=
  match cols with
  | [] => Ok st
  | (col, s) :: cols' => st' <- column_step col s st ;; columns_loop cols' st'
  end.

(** The dictionary [sheet_analysis] (lines 96-111). *)
Record sheet_analysis := SheetAnalysis {
  rows : nat;
  columns : nat;
  column_names : list value;
  data_types : list (value * string);
  sample_rows : list (list value);
  sheet_patterns : list (value * pattern);
  location_fields : list value;
  crop_fields : list value;
  stock_fields : list value;
  outlet_fields : list value
}.

(** Lines 41-111 on the dataframe of a sheet, without what they print. *)
Definition analyze_df (df : dataframe) : result sheet_analysis :=
  let dtype_info := (λ cs, (cs.1, dtype cs.2)) <$> df_columns df in
  st <- columns_loop (df_columns df)
          {| patterns := []; location_cols := []; crop_cols := [];
             stock_cols := []; outlet_cols := [] |} ;;
  Ok {| rows := length (df_rows df);
        columns := length (df_columns df);
        column_names := (df_columns df).*1;
        data_types := dtype_info;
        sample_rows := take 5 (df_rows df);
        sheet_patterns := patterns st;
        location_fields := location_cols st;
        crop_fields := crop_cols st;
        stock_fields := stock_cols st;
        outlet_fields := outlet_cols st |}.

(** *** The objects serialised *)

Definition int_obj (n : nat) : pyobj := OVal (VInt (Z.of_nat n)).
Definition str_obj (s : string) : pyobj := OVal (VStr s).
Definition row_obj (row : list value) : pyobj := OList (OVal <$> row).

Definition pattern_obj (p : pattern) : pyobj :=
  match p with
  | Categorical n vals =>
      ODict [field "type" (str_obj "categorical");
             field "unique_count" (int_obj n);
             field "sample_values" (OList (str_obj <$> vals))]
  | Numeric vmin vmax vmean n =>
      ODict [field "type" (str_obj "numeric");
             field "min" (OVal vmin);
             field "max" (OVal vmax);
             field "mean" (OVal vmean);
             field "non_null_count" (int_obj n)]
  end.

Definition sheet_analysis_obj (a : sheet_analysis) : pyobj :=
  ODict [field "dimensions"
           (ODict [field "rows" (int_obj (rows a));
                   field "columns" (int_obj (columns a))]);
         field "column_names" (row_obj (column_names a));
         field "data_types"
           (ODict ((λ kv, (kv.1, str_obj kv.2)) <$> data_types a));
         field "sample_rows" (OList (row_obj <$> sample_rows a));
         field "patterns"
           (ODict ((λ kv, (kv.1, pattern_obj kv.2)) <$> sheet_patterns a));
         field "identified_fields"
           (ODict [field "location_fields" (row_obj (location_fields a));
                   field "crop_fields" (row_obj (crop_fields a));
                   field "stock_fields" (row_obj (stock_fields a));
                   field "outlet_fields" (row_obj (outlet_fields a))])].

(** The value of [analysis["sheets"][sheet_name]]: the analysis, or the
    text of the exception under the key ["error"]. *)
Inductive sheet_entry :=
| Analysed (a : sheet_analysis)
| Failed (error : string).

Definition sheet_entry_obj (e : sheet_entry) : pyobj :=
  match e with
  | Analysed a => sheet_analysis_obj a
  | Failed msg => ODict [field "error" (str_obj msg)]
  end.

(** *** The dictionary [analysis["sheets"]] *)

(** A dictionary with text keys, in insertion order. *)
Definition sheets_dict := list (string * sheet_entry).

(** [d[key] = e]: a key already there keeps its place. *)
Fixpoint dict_set (key : string) (e : sheet_entry) (d : sheets_dict) : sheets_dict :=
  match d with
  | [] => [(key, e)]
  | (k, e') :: d' =>
      if String.eqb k key then (k, e) :: d' else (k, e') :: dict_set key e d'
  end.

Fixpoint dict_get (key : string) (d : sheets_dict) : option sheet_entry :=
  match d with
  | [] => None
  | (k, e) :: d' => if String.eqb k key then Some e else dict_get key d'
  end.

(** *** The run *)

(** What the script finds outside itself. *)
Record world := World {
  path_exists : bool;                       (* [Path(excel_path).exists()] *)
  load_workbook : result (list string);     (* the sheet names of the workbook loaded *)
  read_excel : string → result dataframe;   (* [pd.read_excel(excel_path, sheet_name=...)] *)
  open_output : result unit                 (* [open(output_path, 'w', encoding='utf-8')] *)
}.

(** The file at [output_path] after the run. *)
Inductive file_state :=
| Untouched                   (* never opened *)
| Incomplete                  (* opened for writing, the dump did not finish *)
| Complete (text : string).

Record outcome := Outcome {
  stdout : list string;
  exit_status : nat;
  output_file : file_state
}.

(** What the loop over the sheets carries: the texts printed so far and
    [analysis["sheets"]]. *)
Record run_state := RunState {
  printed : list string;
  sheets : sheets_dict
}.

Section Script.

Variable float_repr : float → string.

(** The text of a list or dictionary inside an f-string. *)
Variable py_repr : pyobj → string.

Definition print (texts : list string) (st : run_state) : run_state :=
  {| printed := printed st ++ texts; sheets := sheets st |}.

(** The [except Exception as e] clause (lines 125-127). *)
Definition on_error (name : string) (e : exn) (st : run_state) : run_state :=
  {| printed := printed st ++ ["  Error analyzing sheet: " +:+ exn_str e];
     sheets := dict_set name (Failed (exn_str e)) (sheets st) |}.

(** What the [try] block prints before the loop over the columns
    (lines 44-52). *)
Definition print_shape (df : dataframe) : list string :=
  ["  Dimensions: " +:+ pretty (length (df_rows df)) +:+ " rows " +:+
     String (Ascii.ascii_of_nat 215) "" +:+ " " +:+
     pretty (length (df_columns df)) +:+ " columns";
   "  Columns: " +:+ py_repr (row_obj (df_columns df).*1);
   "  Data types: " +:+
     py_repr (ODict ((λ cs, (cs.1, str_obj (dtype cs.2))) <$> df_columns df))].

(** What it prints after the analysis (lines 115-123). *)
Definition print_analysis (a : sheet_analysis) : list string :=
  ["  Sample data (first 5 rows):"] ++
  imap (λ i row, "    Row " +:+ pretty (i + 1) +:+ ": " +:+ py_repr (row_obj row))
       (take 5 (sample_rows a)) ++
  [Json.newline +:+ "  Identified field types:";
   "    Location fields: " +:+ py_repr (row_obj (location_fields a));
   "    Crop/Variety fields: " +:+ py_repr (row_obj (crop_fields a));
   "    Stock/Quantity fields: " +:+ py_repr (row_obj (stock_fields a));
   "    Outlet/Store fields: " +:+ py_repr (row_obj (outlet_fields a))].

(** The body of the loop over the sheets (lines 33-127). *)
Definition sheet_step (w : world) (name : string) (st : run_state) : run_state :=
  let st := print [Json.newline +:+ "Analyzing sheet: " +:+ name;
                   Json.repeat_str "-" 80] st in
  match read_excel w name with
  | Raise e => on_error name e st
  | Ok df =>
      let st := print (print_shape df) st in
      match analyze_df df with
      | Raise e => on_error name e st
      | Ok a =>
          print (print_analysis a)
            {| printed := printed st;
               sheets := dict_set name (Analysed a) (sheets st) |}
      end
  end.

Fixpoint sheets_loop (w : world) (names : list string) (st : run_state) : run_state :=
  match names with
  | [] => st
  | name :: names' => sheets_loop w names' (sheet_step w name st)
  end.

(** The dictionary [analysis] (lines 25-29) once the loop has run. *)
Definition analysis_obj (sheet_names : list string) (d : sheets_dict) : pyobj :=
  ODict [field "file_path" (str_obj excel_path);
         field "sheet_names" (OList (str_obj <$> sheet_names));
         field "sheets" (ODict ((λ kv, (VStr kv.1, sheet_entry_obj kv.2)) <$> d))].

(** The state after the loop over the sheets of a loaded workbook. *)
Definition run_sheets (w : world) (sheet_names : list string) : run_state :=
  sheets_loop w sheet_names
    {| printed := ["Excel File Analysis"; Json.repeat_str "=" 80;
                   "File: " +:+ excel_path;
                   "Sheet names: " +:+ py_repr (OList (str_obj <$> sheet_names))
                     +:+ Json.newline];
       sheets := [] |}.

(** The whole script. An exception nobody catches ends the process with
    status 1. *)
Definition main (w : world) : outcome :=
  if negb (path_exists w)
  then {| stdout := ["Error: File not found at " +:+ excel_path];
          exit_status := 1;
          output_file := Untouched |}
  else
    match load_workbook w with
    | Raise _ => {| stdout := []; exit_status := 1; output_file := Untouched |}
    | Ok sheet_names =>
        let st := run_sheets w sheet_names in
        match open_output w with
        | Raise _ => {| stdout := printed st; exit_status := 1;
                        output_file := Untouched |}
        | Ok _ =>
            match Json.dumps float_repr false false
                    (analysis_obj sheet_names (sheets st)) with
            | Raise _ => {| stdout := printed st; exit_status := 1;
                            output_file := Incomplete |}
            | Ok text =>
                {| stdout := printed st ++
                     [Json.newline +:+ Json.repeat_str "=" 80;
                      "Analysis saved to: " +:+ output_path;
                      Json.newline +:+ "JSON Analysis Output:";
                      text];
                   exit_status := 0;
                   output_file := Complete text |}
            end
        end
    end.

End Script.

End Comprehensive.

(** ** [analyze_excel_detailed.py] *)
Module Detailed.

(** [s[:n]] *)
Fixpoint str_take (n : nat) (s : string) : string :=
  match n, s with
  | S n', String c s' => String c (str_take n' s')
  | _, _ => EmptyString
  end.

(** [sum(1 for v in row_data if v is not None)] *)
Fixpoint count_not_none (l : list value) : nat :=
  match l with
  | [] => 0
  | v :: l' => (if is_not_none v then 1 else 0) + count_not_none l'
  end.

(** An entry of [result["row_breakdown"]]. *)
Record row_entry := RowEntry {
  row : nat;
  non_empty_cols : nat;
  data_sample : list value
}.

(** The dictionary [analyze_sheet_detailed] returns. *)
Record sheet_detail := SheetDetail {
  sheet_name : string;
  total_rows : nat;
  total_columns : nat;
  row_breakdown : list row_entry
}.

(** [any(ws.cell(row, col).value for row in rows)] (lines 92 and 100):
    the cells are tested for truth, and the search stops at the first
    one that is true. *)
Fixpoint any_truthy_cell (ws : worksheet) (col : nat) (rows : list nat) : result bool :=
  match rows with
  | [] => Ok false
  | r :: rows' =>
      v <- cell_value ws r col ;;
      if truthy v then Ok true else any_truthy_cell ws col rows'
  end.

(** [sum(1 for col in cols if any(...))] (lines 92 and 100). *)
Fixpoint count_columns (ws : worksheet) (cols : list nat) (count : nat) : result nat :=
  match cols with
  | [] => Ok count
  | col :: cols' =>
      hit <- any_truthy_cell ws col (py_range 3 (min 10 (max_row ws))) ;;
      count_columns ws cols' (if hit then count + 1 else count)
  end.

(** The value of ["actual_column_count_with_data"]. *)
Definition column_count_with_data (ws : worksheet) : result nat :=
  count_columns ws (py_range 1 (max_column ws + 1)) 0.

Section Script.

(** [str(x)] for a float. *)
Variable float_str : float → string.

(** [float.__repr__] as [json.dumps] uses it. *)
Variable float_repr : float → string.

(** The text of a list inside an f-string or as an argument of [print]. *)
Variable py_repr : pyobj → string.

(** [str(v)] *)
Definition py_str (v : value) : string :=
  match v with
  | VNone => "None"
  | VBool true => "True"
  | VBool false => "False"
  | VInt n => pretty n
  | VFloat x => float_str x
  | VStr s => s
  | VDateTime t => Json.datetime_str t
  | VTime t => Json.time_str t
  | VTimedelta d => Json.timedelta_str d
  end.

(** [str(v)[:40] if v is not None else None] *)
Definition sample_text (v : value) : value :=
  if is_not_none v then VStr (str_take 40 (py_str v)) else VNone.

(** The loop over the first rows (lines 24-32). *)
Fixpoint breakdown_loop (ws : worksheet) (rows : list nat)
    (breakdown : list row_entry) : result (list row_entry) :=
  match rows with
  | [] => Ok breakdown
  | row_idx :: rows' =>
      rd <- row_data ws row_idx (min (max_column ws + 1) 11) ;;
      breakdown_loop ws rows'
        (breakdown ++ [{| row := row_idx;
                          non_empty_cols := count_not_none rd;
                          data_sample := sample_text <$> rd |}])
  end.

(** [analyze_sheet_detailed(sheet_name)] (lines 14-34). *)
Definition analyze_sheet_detailed (wb : workbook) (name : string)
    : result sheet_detail :=
  ws <- get_sheet wb name ;;
  breakdown <- breakdown_loop ws (py_range 1 (min 21 (max_row ws + 1))) [] ;;
  Ok {| sheet_name := name;
        total_rows := max_row ws;
        total_columns := max_column ws;
        row_breakdown := breakdown |}.

Definition int_obj (n : nat) : pyobj := OVal (VInt (Z.of_nat n)).
Definition str_obj (s : string) : pyobj := OVal (VStr s).
Definition row_obj (cells : list value) : pyobj := OList (OVal <$> cells).

Definition row_entry_obj (e : row_entry) : pyobj :=
  ODict [field "row" (int_obj (row e));
         field "non_empty_cols" (int_obj (non_empty_cols e));
         field "data_sample" (row_obj (data_sample e))].

Definition sheet_detail_obj (d : sheet_detail) : pyobj :=
  ODict [field "sheet_name" (str_obj (sheet_name d));
         field "total_rows" (int_obj (total_rows d));
         field "total_columns" (int_obj (total_columns d));
         field "row_breakdown" (OList (row_entry_obj <$> row_breakdown d))].

(** The dictionary [summary] (lines 83-102). It is built after the
    headers of row 2 of the "msme" sheet have been read (line 56):
    [ws_msme] is the sheet as that read has left it. *)
Definition summary_obj (all_sheets : list string)
    (ws_msme ws_charter : worksheet) (msme_count charter_count : nat) : pyobj :=
  ODict [field "sheets" (OList (str_obj <$> all_sheets));
         field "msme"
           (ODict [field "name" (str_obj "msme");
                   field "total_rows" (int_obj (max_row ws_msme));
                   field "total_columns" (int_obj (max_column ws_msme));
                   field "title_row" (str_obj "INCENTIVE SCHEMES AVAILABLE TO MICRO, SMALL AND MEDIUM ENTERPRISES IN TAMIL NADU");
                   field "actual_header_row" (int_obj 2);
                   field "data_start_row" (int_obj 3);
                   field "actual_column_count_with_data" (int_obj msme_count)]);
         field "charter"
           (ODict [field "name" (str_obj "charter");
                   field "total_rows" (int_obj (max_row ws_charter));
                   field "total_columns" (int_obj (max_column ws_charter));
                   field "title_row" (str_obj "1. AGRICULTURE DEPARTMENT");
                   field "data_start_row" (int_obj 3);
                   field "actual_column_count_with_data" (int_obj charter_count)])].

Definition rule : string := Json.repeat_str "=" 100.

(** The line printed for a row of the "msme" sheet (lines 61-63). *)
Definition msme_row_line (ws : worksheet) (row_idx : nat) : result string :=
  rd <- row_data ws row_idx (max_column ws + 1) ;;
  Ok ("Row " +:+ pretty row_idx +:+ ": " +:+ py_repr (row_obj (take 6 rd)) +:+ "...").

(** The line printed for a row of the "charter" sheet (lines 73-76). *)
Definition charter_row_line (ws : worksheet) (row_idx : nat) : result string :=
  rd <- row_data ws row_idx (min (max_column ws + 1) 5) ;;
  let non_empty := List.filter is_not_none rd in
  Ok ("Row " +:+ pretty row_idx +:+ ": " +:+ py_repr (row_obj (take 3 non_empty)) +:+ "...").

(** The whole script on a loaded workbook: the texts it prints, one per
    call of [print], when it runs to its end. Reading the headers of row 2
    (line 56) leaves the "msme" sheet with at least two rows, which is
    what the lines after it see. *)
Definition main (wb : workbook) : result (list string) :=
  msme_detailed <- analyze_sheet_detailed wb "msme" ;;
  msme_text <- Json.dumps float_repr false true (sheet_detail_obj msme_detailed) ;;
  charter_detailed <- analyze_sheet_detailed wb "charter" ;;
  charter_text <- Json.dumps float_repr false true (sheet_detail_obj charter_detailed) ;;
  ws_msme <- get_sheet wb "msme" ;;
  actual_headers_msme <- row_data ws_msme 2 (max_column ws_msme + 1) ;;
  let ws_msme := row_read ws_msme 2 in
  msme_lines <- for_each (msme_row_line ws_msme)
                  (py_range 3 (min 8 (max_row ws_msme + 1))) ;;
  ws_charter <- get_sheet wb "charter" ;;
  charter_lines <- for_each (charter_row_line ws_charter)
                     (py_range 1 (min 11 (max_row ws_charter + 1))) ;;
  msme_count <- column_count_with_data ws_msme ;;
  charter_count <- column_count_with_data ws_charter ;;
  summary_text <- Json.dumps float_repr false true
                    (summary_obj (sheetnames wb) ws_msme ws_charter
                       msme_count charter_count) ;;
  Ok ([rule; "DETAILED ANALYSIS OF MSME SHEET"; rule; msme_text;
       Json.newline +:+ rule; "DETAILED ANALYSIS OF CHARTER SHEET"; rule;
       charter_text;
       Json.newline +:+ rule; "EXTRACTING REAL STRUCTURE - MSME"; rule;
       "Headers from Row 2: " +:+ py_repr (row_obj actual_headers_msme);
       Json.newline +:+ "Sample data rows (rows 3-7):"] ++
      msme_lines ++
      [Json.newline +:+ rule; "EXTRACTING REAL STRUCTURE - CHARTER"; rule;
       "First 10 rows of charter sheet:"] ++
      charter_lines ++
      [Json.newline +:+ rule; "COMPARING BOTH SHEETS - KEY CHARACTERISTICS"; rule;
       summary_text]).

End Script.

End Detailed.

(** ** Vocabulary of the statements *)

(** The cells of row [r] over the full column span of the sheet. *)
Definition row_cells (ws : worksheet) (r : nat) : list value :=
  cells ws r <$> seq 1 (max_column ws).

(** Row [r] has a cell that is not [None] within the column span. *)
Definition row_nonempty (ws : worksheet) (r : nat) : Prop :=
  ∃ c, 1 ≤ c ≤ max_column ws ∧ cells ws r c ≠ VNone.

(** [r] is the first non-empty row among rows [1 .. depth] of the sheet. *)
Definition first_nonempty_row (ws : worksheet) (depth r : nat) : Prop :=
  1 ≤ r ≤ depth ∧ r ≤ max_row ws ∧ row_nonempty ws r ∧
  ∀ r', 1 ≤ r' < r → ¬ row_nonempty ws r'.

(** No row among rows [1 .. depth] of the sheet has a value. *)
Definition no_nonempty_row (ws : worksheet) (depth : nat) : Prop :=
  ∀ r, 1 ≤ r ≤ depth → r ≤ max_row ws → ¬ row_nonempty ws r.

(** The rows in which [analyze_sheet] looks for the types of a column
    when the header is row [h]. *)
Definition type_rows (ws : worksheet) (h : nat) : list nat :=
  py_range (h + 1) (min (h + 20) (max_row ws + 1)).

(** [r] lies in the window of the type inference below header row [h]. *)
Definition in_type_window (ws : worksheet) (h r : nat) : Prop :=
  h < r ∧ r < h + 20 ∧ r ≤ max_row ws.

(** The kind [label] is observed in column [c] below header row [h]:
    some cell of the window is not [None] and has a value of that kind. *)
Definition observed (ws : worksheet) (h c : nat) (label : string) : Prop :=
  ∃ r, in_type_window ws h r ∧ cells ws r c ≠ VNone ∧
       type_name (cells ws r c) = label.

(** The set of kinds collected over [rows] in column [c], starting from
    [s], in the order the kinds are met. *)
Definition seen_kinds (ws : worksheet) (c : nat) (rows : list nat)
    (s : PySet.t) : PySet.t :=
  foldl (λ s r, if is_not_none (cells ws r c)
                then PySet.add (type_name (cells ws r c)) s else s) s rows.

Definition column_kinds (ws : worksheet) (h c : nat) : PySet.t :=
  seen_kinds ws c (type_rows ws h) PySet.empty.

(** The rows with a value among [rows], as lists of cells. *)
Definition rows_with_value (ws : worksheet) (rows : list nat) : list (list value) :=
  filter (λ rd, py_any is_not_none rd = true) (row_cells ws <$> rows).

(** What [analyze_sheet] returns for sheet [ws] when its header search
    ends with headers [hdrs] and index [h]. *)
Definition sheet_info_of (set_iter : PySet.t → list string) (name : string)
    (ws : worksheet) (hdrs : list value) (h max_data_rows : nat)
    : AnalyzeExcel.sheet_info :=
  {| AnalyzeExcel.sheet_name := name;
     AnalyzeExcel.total_rows := max_row ws;
     AnalyzeExcel.total_columns := max_column ws;
     AnalyzeExcel.headers := hdrs;
     AnalyzeExcel.sample_rows :=
       rows_with_value ws
         (py_range (h + 1) (min (h + 1 + max_data_rows) (max_row ws + 1)));
     AnalyzeExcel.column_types :=
       (λ c, {| AnalyzeExcel.column :=
                  py_or (cells ws h c) (VStr ("Column_" +:+ pretty c));
                AnalyzeExcel.types :=
                  if PySet.nonempty (column_kinds ws h c)
                  then set_iter (column_kinds ws h c)
                  else ["Empty/None"] |}) <$> seq 1 (max_column ws) |}.

(** The values other than [None] in a list of cells, in order. *)
Definition nonempty_cells (l : list value) : list value :=
  filter (λ v, is_not_none v = true) l.

(** The cells of row [r] in columns [1 .. n]. *)
Definition first_cells (ws : worksheet) (r n : nat) : list value :=
  cells ws r <$> seq 1 n.


(** The row numbers a layout names are row numbers of a sheet. *)
Definition layout_ok (lay : AnalyzeFinal.layout) : Prop :=
  1 ≤ AnalyzeFinal.header_row lay ∧ 1 ≤ AnalyzeFinal.data_start lay ∧
  Forall (λ r, 1 ≤ r) (AnalyzeFinal.sample_idx lay).

(** The names [analyze_excel.py] reports for a sheet: one per cell of the
    row its header search finds, that is one per column of the sheet,
    with every cell of that row that is not empty as the name of its
    column; or none at all when the search finds no row. *)
Definition names_by_scan (ws : worksheet) (names : list value) : Prop :=
  (∃ h, first_nonempty_row ws 9 h ∧
        length names = max_column ws ∧
        ∀ c, 1 ≤ c ≤ max_column ws → cells ws h c ≠ VNone →
             names !! (c - 1) = Some (cells ws h c))
  ∨ (no_nonempty_row ws 9 ∧ names = []).

(** The buckets of the field-name classifier, their keyword lists and
    the lists of the analysis they fill. *)
Inductive bucket := Location | Crop | Stock | Outlet.

Definition keywords (b : bucket) : list string :=
  match b with
  | Location => Comprehensive.location_keywords
  | Crop => Comprehensive.crop_keywords
  | Stock => Comprehensive.stock_keywords
  | Outlet => Comprehensive.outlet_keywords
  end.

Definition bucket_fields (b : bucket) (a : Comprehensive.sheet_analysis) : list value :=
  match b with
  | Location => Comprehensive.location_fields a
  | Crop => Comprehensive.crop_fields a
  | Stock => Comprehensive.stock_fields a
  | Outlet => Comprehensive.outlet_fields a
  end.

Definition bucket_cols (b : bucket) (st : Comprehensive.columns_state) : list value :=
  match b with
  | Location => Comprehensive.location_cols st
  | Crop => Comprehensive.crop_cols st
  | Stock => Comprehensive.stock_cols st
  | Outlet => Comprehensive.outlet_cols st
  end.

(** The buckets whose keyword list has a member that occurs in the
    case-folded name. *)
Definition buckets_of (col_lower : string) : list bucket :=
  filter (λ b, Comprehensive.matches (keywords b) col_lower = true)
         [Location; Crop; Stock; Outlet].

(** A column label is text whose case-folded form matches [kws]. *)
Definition label_matches (kws : list string) (col : value) : bool :=
  match col with
  | VStr s => Comprehensive.matches kws (Comprehensive.lower s)
  | _ => false
  end.

(** What the loop over the sheets records for sheet [name]: its
    analysis, or the text of the exception that reading or analysing it
    raised. *)
Definition entry_of (w : Comprehensive.world) (name : string)
    : Comprehensive.sheet_entry :=
  match Comprehensive.read_excel w name with
  | Raise e => Comprehensive.Failed (exn_str e)
  | Ok df =>
      match Comprehensive.analyze_df df with
      | Raise e => Comprehensive.Failed (exn_str e)
      | Ok a => Comprehensive.Analysed a
      end
  end.

(** Analysing sheet [name] raises [e]. *)
Definition sheet_raises (w : Comprehensive.world) (name : string) (e : exn) : Prop :=
  Comprehensive.read_excel w name = Raise e ∨
  ∃ df, Comprehensive.read_excel w name = Ok df ∧
        Comprehensive.analyze_df df = Raise e.


(** Every column of the sheet shows at most one kind of value in the
    window below the header row that the search finds. *)
Definition single_kind_columns (ws : worksheet) : Prop :=
  ∀ hdrs h c l1 l2,
    AnalyzeExcel.locate_header ws 10 = Ok (hdrs, h) →
    1 ≤ c ≤ max_column ws →
    observed ws h c l1 → observed ws h c l2 → l1 = l2.

(** ** Concrete sheets *)

(** The sheet with the given rows, [width] columns wide; a cell outside
    the rows given is empty. *)
Definition grid (width : nat) (rows : list (list value)) : worksheet :=
  {| max_row := length rows;
     max_column := width;
     cells := λ r c,
       match r, c with
       | S r', S c' => default VNone (rows !! r' ≫= (.!! c'))
       | _, _ => VNone
       end |}.

(** Nine empty rows and a value in row 10. *)
Definition late_header_sheet (v : value) : worksheet :=
  grid 1 (replicate 9 [VNone] ++ [[v]]).

(** A header row with a gap in its second column, and one data row. *)
Definition gap_sheet : worksheet :=
  grid 2 [[VStr "Scheme"; VNone]; [VStr "Subsidy"; VInt 25]].

Definition gap_workbook : workbook :=
  [("msme", gap_sheet); ("charter", grid 1 [[VStr "Department"]])].

(** The order of insertion, as an iteration order of sets. *)
Definition insertion_order : PySet.t → list string := id.

(** The reverse of the order of insertion. *)
Definition reverse_order : PySet.t → list string := reverse.

Definition six_headers : list string :=
  ["Sl.No"; "Scheme"; "Incentive"; "Eligibility"; "Agency"; "Remarks"].

Definition title_row : list value :=
  [VStr "INCENTIVE SCHEMES AVAILABLE TO MSME"; VNone; VNone; VNone; VNone; VNone].

Definition data_row (n : Z) (scheme : string) : list value :=
  [VInt n; VStr scheme; VStr "25%"; VStr "All MSMEs"; VStr "DIC"; VNone].

(** An "msme" sheet of the scenario with five rows: title, headers and
    three rows of data. *)
Definition msme_five_rows : worksheet :=
  grid 6 [title_row; VStr <$> six_headers;
          data_row 1 "Capital subsidy"; data_row 2 "Power tariff";
          data_row 3 "Generator subsidy"].


Definition charter_example : worksheet :=
  grid 2 [[VStr "1. AGRICULTURE DEPARTMENT"; VNone];
          [VStr "Schemes of the department"; VNone];
          [VStr "Scheme"; VStr "Officer"];
          [VStr "Seed distribution"; VStr "ADA"]].

Definition five_row_workbook : workbook :=
  [("msme", msme_five_rows); ("charter", charter_example)].


(** A column of text (Salem, Erode, Salem) and a column of numbers (4, 7,
    9, of mean 6.666666666666667), as pandas reports them. *)
Definition text_series : Comprehensive.series :=
  {| Comprehensive.dtype := "object";
     Comprehensive.nunique := 2;
     Comprehensive.unique_head := ["Salem"; "Erode"];
     Comprehensive.notna_any := true;
     Comprehensive.float_min := Raise (TypeError "could not convert string to float");
     Comprehensive.float_max := Raise (TypeError "could not convert string to float");
     Comprehensive.float_mean := Raise (TypeError "could not convert string to float");
     Comprehensive.notna_sum := 3 |}.

Definition number_series : Comprehensive.series :=
  {| Comprehensive.dtype := "int64";
     Comprehensive.nunique := 3;
     Comprehensive.unique_head := ["4"; "7"; "9"];
     Comprehensive.notna_any := true;
     Comprehensive.float_min := Ok 4%float;
     Comprehensive.float_max := Ok 9%float;
     Comprehensive.float_mean := Ok (20 / 3)%float;
     Comprehensive.notna_sum := 3 |}.

(** A column of dates: pandas cannot turn its minimum into a float. *)
Definition date_series : Comprehensive.series :=
  {| Comprehensive.dtype := "datetime64[ns]";
     Comprehensive.nunique := 1;
     Comprehensive.unique_head := ["2024-01-02 00:00:00"];
     Comprehensive.notna_any := true;
     Comprehensive.float_min :=
       Raise (TypeError "float() argument must be a string or a real number, not 'Timestamp'");
     Comprehensive.float_max :=
       Raise (TypeError "float() argument must be a string or a real number, not 'Timestamp'");
     Comprehensive.float_mean :=
       Raise (TypeError "float() argument must be a string or a real number, not 'Timestamp'");
     Comprehensive.notna_sum := 1 |}.

Definition text_frame : Comprehensive.dataframe :=
  {| Comprehensive.df_rows := [[VStr "Salem"; VInt 4]; [VStr "Erode"; VInt 7]; [VStr "Salem"; VInt 9]];
     Comprehensive.df_columns := [(VStr "District", text_series);
                                  (VStr "Stock Qty", number_series)] |}.

Definition number_frame : Comprehensive.dataframe :=
  {| Comprehensive.df_rows := [[VInt 4]; [VInt 7]; [VInt 9]];
     Comprehensive.df_columns := [(VStr "DISTRICT", number_series)] |}.

(** A frame with a column of dates, whose analysis raises. *)
Definition date_frame : Comprehensive.dataframe :=
  {| Comprehensive.df_rows := [[VDateTime (DateTime 2024 1 2 0 0 0 0)]];
     Comprehensive.df_columns := [(VStr "Updated", date_series)] |}.

(** A workbook of three sheets, the second of which cannot be analysed. *)
Definition three_sheet_world : Comprehensive.world :=
  {| Comprehensive.path_exists := true;
     Comprehensive.load_workbook := Ok ["Stock"; "Dates"; "Totals"];
     Comprehensive.read_excel := λ name,
       if String.eqb name "Stock" then Ok text_frame
       else if String.eqb name "Dates" then Ok date_frame
       else if String.eqb name "Totals" then Ok number_frame
       else Raise (ValueError ("Worksheet named '" +:+ name +:+ "' not found"));
     Comprehensive.open_output := Ok () |}.

(** No file at the input path. *)
Definition missing_file_world : Comprehensive.world :=
  {| Comprehensive.path_exists := false;
     Comprehensive.load_workbook := Raise (OSError "No such file or directory");
     Comprehensive.read_excel := λ _, Raise (OSError "No such file or directory");
     Comprehensive.open_output := Ok () |}.

(** A file at the input path that is not a workbook. *)
Definition corrupt_file_world : Comprehensive.world :=
  {| Comprehensive.path_exists := true;
     Comprehensive.load_workbook := Raise (BadZipFile "File is not a zip file");
     Comprehensive.read_excel := λ _, Raise (BadZipFile "File is not a zip file");
     Comprehensive.open_output := Ok () |}.

(** The columns of a frame of two rows, a text and a date under the
    second of them. *)
Definition district_pair_series : Comprehensive.series :=
  {| Comprehensive.dtype := "object";
     Comprehensive.nunique := 2;
     Comprehensive.unique_head := ["Salem"; "Erode"];
     Comprehensive.notna_any := true;
     Comprehensive.float_min := Raise (TypeError "could not convert string to float");
     Comprehensive.float_max := Raise (TypeError "could not convert string to float");
     Comprehensive.float_mean := Raise (TypeError "could not convert string to float");
     Comprehensive.notna_sum := 2 |}.

Definition updated_series : Comprehensive.series :=
  {| Comprehensive.dtype := "object";
     Comprehensive.nunique := 2;
     Comprehensive.unique_head := ["pending"; "2024-01-02 00:00:00"];
     Comprehensive.notna_any := true;
     Comprehensive.float_min := Raise (TypeError "could not convert string to float");
     Comprehensive.float_max := Raise (TypeError "could not convert string to float");
     Comprehensive.float_mean := Raise (TypeError "could not convert string to float");
     Comprehensive.notna_sum := 2 |}.

(** A workbook whose only sheet has a text column with a date in it. *)
Definition dated_frame : Comprehensive.dataframe :=
  {| Comprehensive.df_rows :=
       [[VStr "Salem"; VStr "pending"];
        [VStr "Erode"; VDateTime (DateTime 2024 1 2 0 0 0 0)]];
     Comprehensive.df_columns := [(VStr "District", district_pair_series);
                                  (VStr "Updated", updated_series)] |}.

Definition dated_world : Comprehensive.world :=
  {| Comprehensive.path_exists := true;
     Comprehensive.load_workbook := Ok ["Stock"];
     Comprehensive.read_excel := λ _, Ok dated_frame;
     Comprehensive.open_output := Ok () |}.

(** Stand-ins for the interpreter's formatting, for runs on sheets
    without floats. *)
Definition repr_elided : pyobj → string := λ _, "[...]".
Definition float_elided : float → string := λ _, "0.0".

(** ** Vocabulary of the further properties *)

(** [json] has an encoding of its own for the value: it is [None], a
    boolean, a number or text, and not a date, a time of day or a
    duration. *)
Definition json_native (v : value) : bool :=
  match v with
  | VNone | VBool _ | VInt _ | VFloat _ | VStr _ => true
  | VDateTime _ | VTime _ | VTimedelta _ => false
  end.

(** Every cell of the list is [None], a boolean, a number or text. *)
Definition all_native (l : list value) : bool := forallb json_native l.

(** [json.dumps] can serialise the object: every dictionary key is
    [None], a boolean, a number or text, and so is every value unless
    [default=str] is given. *)
Fixpoint serialisable (default_str : bool) (o : pyobj) : bool :=
  match o with
  | OVal v => json_native v || default_str
  | OList items => forallb (serialisable default_str) items
  | ODict entries =>
      forallb (λ kv, json_native kv.1 && serialisable default_str kv.2) entries
  end.

(** A computation returns. *)
Definition returns {A} (m : result A) : Prop := ∃ a, m = Ok a.

(** Everything that [analyze_excel_final.py] reports of the cells of a
    sheet is [None], a boolean, a number or text: the title, every column
    name and every sampled cell. *)
Definition summary_is_native (s : AnalyzeFinal.sheet_summary) : bool :=
  json_native (AnalyzeFinal.title s) &&
  all_native (AnalyzeFinal.name <$> AnalyzeFinal.columns s) &&
  forallb all_native (AnalyzeFinal.sample_rows s).

(** A column label is text. *)
Definition is_text (v : value) : bool :=
  match v with VStr _ => true | _ => false end.

Definition succeeds {A} (m : result A) : bool :=
  match m with Ok _ => true | Raise _ => false end.

(** The loop body of the comprehensive script gets through a column: its
    label is text, and it is a column of objects, or has no value, or
    pandas can turn its minimum, maximum and mean into floats. *)
Definition column_ok (cs : value * Comprehensive.series) : bool :=
  is_text cs.1 &&
  (String.eqb (Comprehensive.dtype cs.2) "object" ||
   negb (Comprehensive.notna_any cs.2) ||
   (succeeds (Comprehensive.float_min cs.2) &&
    succeeds (Comprehensive.float_max cs.2) &&
    succeeds (Comprehensive.float_mean cs.2))).

(** The entry of [patterns] that belongs to a column. *)
Definition pattern_describes (s : Comprehensive.series)
    (p : Comprehensive.pattern) : Prop :=
  if String.eqb (Comprehensive.dtype s) "object"
  then p = Comprehensive.Categorical (Comprehensive.nunique s)
             (Comprehensive.unique_head s)
  else if Comprehensive.notna_any s
  then ∃ vmin vmax vmean,
         Comprehensive.float_min s = Ok vmin ∧
         Comprehensive.float_max s = Ok vmax ∧
         Comprehensive.float_mean s = Ok vmean ∧
         p = Comprehensive.Numeric (VFloat vmin) (VFloat vmax) (VFloat vmean)
               (Comprehensive.notna_sum s)
  else p = Comprehensive.Numeric VNone VNone VNone (Comprehensive.notna_sum s).

(** A workbook whose "msme" title cell is a date. *)
Definition dated_title_workbook : workbook :=
  [("msme", grid 1 [[VDateTime (DateTime 2024 1 2 0 0 0 0)]; [VStr "Scheme"]; [VStr "Subsidy"]]);
   ("charter", charter_example)].

(** A workbook whose "msme" sheet has a time of day in its first data
    row, and one with a duration there. *)
Definition timed_workbook : workbook :=
  [("msme", grid 2 [[VStr "Opening hours"; VNone]; [VStr "Office"; VStr "Opens"];
                    [VStr "DIC Salem"; VTime (TimeOfDay 9 30 0 0)]]);
   ("charter", charter_example)].

Definition duration_workbook : workbook :=
  [("msme", grid 2 [[VStr "Processing time"; VNone]; [VStr "Scheme"; VStr "Takes"];
                    [VStr "Subsidy"; VTimedelta (TimeDelta 1 1800 0)]]);
   ("charter", charter_example)].

(** A frame whose second column has a number for a label. *)
Definition numbered_frame : Comprehensive.dataframe :=
  {| Comprehensive.df_rows := [[VStr "Salem"; VInt 4]; [VStr "Erode"; VInt 7]; [VStr "Salem"; VInt 9]];
     Comprehensive.df_columns := [(VStr "District", text_series);
                                  (VInt 2024, number_series)] |}.

(** Column [c] has a cell that is true for Python in the rows the
    detailed script inspects: rows 3 to 9, short of the last row of the
    sheet. *)
Definition column_has_data (ws : worksheet) (c : nat) : bool :=
  existsb (λ r, truthy (cells ws r c)) (py_range 3 (min 10 (max_row ws))).

(** The entry of [row_breakdown] for row [r]. *)
Definition breakdown_entry (float_str : float → string) (ws : worksheet) (r : nat)
    : Detailed.row_entry :=
  let leading := first_cells ws r (min (max_column ws) 10) in
  {| Detailed.row := r;
     Detailed.non_empty_cols := Detailed.count_not_none leading;
     Detailed.data_sample := Detailed.sample_text float_str <$> leading |}.

(** A sheet whose only value outside the header rows is a zero, and one
    whose only data is in its last row. *)
Definition zero_column_sheet : worksheet :=
  grid 2 [[VStr "Title"; VNone]; [VStr "Scheme"; VStr "Amount"];
          [VStr "Subsidy"; VInt 0]; [VStr "Tariff"; VInt 0]; [VStr "Closing"; VInt 7]].

(** * Properties *)

(** ** The error monad and the worksheet accessors *)

Lemma for_each_ok {A B} (f : A → result B) (g : A → B) (l : list A) :
  (∀ x, x ∈ l → f x = Ok (g x)) → for_each f l = Ok (g <$> l).
Proof.
  induction l as [|x l IH]; intros Hf; [done|].
  cbn. rewrite Hf by left. cbn.
  rewrite IH; [done|]. intros y Hy. apply Hf. by right.
Qed.

Lemma cell_value_ok ws r c :
  1 ≤ r → 1 ≤ c → cell_value ws r c = Ok (cells ws r c).
Proof.
  intros Hr Hc. unfold cell_value.
  destruct (Nat.ltb_spec r 1), (Nat.ltb_spec c 1); simpl; (done || lia).
Qed.

Lemma py_range_1 n : py_range 1 (n + 1) = seq 1 n.
Proof. unfold py_range. f_equal. lia. Qed.

Lemma row_data_ok ws r :
  1 ≤ r → row_data ws r (max_column ws + 1) = Ok (row_cells ws r).
Proof.
  intros Hr. unfold row_data, row_cells. rewrite py_range_1.
  apply for_each_ok. intros c Hc%elem_of_seq. apply cell_value_ok; lia.
Qed.

Lemma is_not_none_spec v : is_not_none v = true ↔ v ≠ VNone.
Proof. destruct v; simpl; split; congruence. Qed.

Lemma row_has_value_spec ws r :
  py_any is_not_none (row_cells ws r) = true ↔ row_nonempty ws r.
Proof.
  unfold py_any, row_cells, row_nonempty. rewrite existsb_exists. split.
  - intros (v & Hin & Hv). apply list_elem_of_In, list_elem_of_fmap in Hin.
    destruct Hin as (c & -> & Hc%elem_of_seq).
    exists c. split; [lia|]. by apply is_not_none_spec.
  - intros (c & Hc & Hv). exists (cells ws r c). split.
    + apply list_elem_of_In, list_elem_of_fmap. exists c. split; [done|].
      apply elem_of_seq. lia.
    + by apply is_not_none_spec.
Qed.

Lemma row_has_value_false ws r :
  py_any is_not_none (row_cells ws r) = false ↔ ¬ row_nonempty ws r.
Proof.
  rewrite <- row_has_value_spec. destruct (py_any _ _); split; congruence.
Qed.

(** ** The definitions on small inputs *)

Example range_of_the_header_search :
  py_range 1 (min 10 (12 + 1)) = [1; 2; 3; 4; 5; 6; 7; 8; 9].
Proof. reflexivity. Qed.

Example set_add_keeps_first_occurrence :
  PySet.add "int" (PySet.add "str" (PySet.add "int" PySet.empty)) = ["int"; "str"].
Proof. reflexivity. Qed.

Example or_takes_placeholder_for_empty_text :
  py_or (VStr "") (VStr "Column_2") = VStr "Column_2" ∧
  py_or (VInt 0) (VStr "Column_2") = VStr "Column_2" ∧
  py_or (VStr "Scheme") (VStr "Column_2") = VStr "Scheme".
Proof. split_and!; reflexivity. Qed.

Example lower_folds_case : Comprehensive.lower "Stock QTY" = "stock qty".
Proof. reflexivity. Qed.

Example contains_is_substring_test :
  Comprehensive.contains "qty" "stock qty" = true ∧
  Comprehensive.contains "crop" "stock qty" = false ∧
  Comprehensive.contains "" "stock qty" = true.
Proof. split_and!; reflexivity. Qed.

Example dumps_of_a_list :
  Json.dumps float_elided false true
    (OList [OVal (VInt 1); OVal VNone; OVal (VBool true); OList []])
  = Ok ("[" +:+ Json.newline +:+ "  1," +:+ Json.newline +:+
        "  null," +:+ Json.newline +:+ "  true," +:+ Json.newline +:+
        "  []" +:+ Json.newline +:+ "]").
Proof. reflexivity. Qed.

Example dumps_refuses_a_date_without_default :
  Json.dumps float_elided false true
    (OList [OVal (VDateTime (DateTime 2024 1 2 0 0 0 0))])
  = Raise (TypeError "Object of type datetime is not JSON serializable") ∧
  Json.dumps float_elided true true (OVal (VDateTime (DateTime 2024 1 2 3 4 5 0)))
  = Ok (Json.quote +:+ "2024-01-02 03:04:05" +:+ Json.quote).
Proof. split; reflexivity. Qed.

(** On a sheet of the "msme" scenario the automatic search of
    [analyze_excel.py] takes the title row for the header row, where the
    final script reads the headers from row 2. *)
Example scan_takes_title_row :
  AnalyzeExcel.locate_header msme_five_rows 10 = Ok (title_row, 1) ∧
  AnalyzeFinal.collect_headers msme_five_rows 2 = Ok (VStr <$> six_headers).
Proof. split; reflexivity. Qed.

(** ** [analyze_excel.py]: the header search *)
Section HeaderSearch.

Import AnalyzeExcel.

(** The search over rows [a .. a+n-1]: it returns the first row with a
    value, or what it was started with. *)
Lemma header_loop_seq ws n : ∀ a hdrs idx, 1 ≤ a →
  (∃ r, a ≤ r < a + n ∧ row_nonempty ws r ∧
        (∀ r', a ≤ r' < r → ¬ row_nonempty ws r') ∧
        header_loop ws (seq a n) hdrs idx = Ok (row_cells ws r, r))
  ∨ ((∀ r, a ≤ r < a + n → ¬ row_nonempty ws r) ∧
     header_loop ws (seq a n) hdrs idx = Ok (hdrs, idx)).
Proof.
  induction n as [|n IH]; intros a hdrs idx Ha.
  - right. split; [intros; lia | done].
  - cbn [seq header_loop]. rewrite row_data_ok by done. cbn [bind].
    destruct (py_any is_not_none (row_cells ws a)) eqn:Hany.
    + left. exists a. apply row_has_value_spec in Hany.
      repeat split; [lia | lia | done | intros; lia].
    + apply row_has_value_false in Hany.
      destruct (IH (S a) hdrs idx ltac:(lia)) as [(r & Hr & Hne & Hfirst & Heq)|[Hnone Heq]].
      * left. exists r. repeat split; [lia | lia | done | | done].
        intros r' Hr'. destruct (decide (r' = a)) as [->|]; [done|].
        apply Hfirst. lia.
      * right. split; [|done]. intros r Hr.
        destruct (decide (r = a)) as [->|]; [done|]. apply Hnone. lia.
Qed.

Lemma locate_header_rows stop ws :
  py_range 1 (min stop (max_row ws + 1)) = seq 1 (min (stop - 1) (max_row ws)).
Proof. unfold py_range. f_equal. lia. Qed.

Lemma locate_header_spec ws depth :
  (∃ r, first_nonempty_row ws depth r ∧
        locate_header ws (depth + 1) = Ok (row_cells ws r, r))
  ∨ (no_nonempty_row ws depth ∧ locate_header ws (depth + 1) = Ok ([], 1)).
Proof.
  unfold locate_header. rewrite locate_header_rows.
  replace (depth + 1 - 1) with depth by lia.
  destruct (header_loop_seq ws (min depth (max_row ws)) 1 [] 1 ltac:(lia))
    as [(r & Hr & Hne & Hfirst & Heq)|[Hnone Heq]].
  - left. exists r. split; [|done].
    repeat split; [lia | lia | lia | done |]. intros r' Hr'. apply Hfirst. lia.
  - right. split; [|done]. intros r Hr Hmax. apply Hnone. lia.
Qed.

End HeaderSearch.

(** C1. Header Locator: for every sheet and every scan depth, the search
    returns the index (and the cells) of the first row within the depth,
    and within the sheet, that has a cell other than [None] across the
    full column span; when there is no such row it finds nothing and
    leaves the initial index 1 and the empty header list, so that the
    header row is whatever the caller falls back on. The script scans
    with depth 9. *)
Theorem header_locator_first_nonempty_row (ws : worksheet) (depth : nat) :
  (∃ r, first_nonempty_row ws depth r ∧
        AnalyzeExcel.locate_header ws (depth + 1) = Ok (row_cells ws r, r))
  ∨ (no_nonempty_row ws depth ∧
     AnalyzeExcel.locate_header ws (depth + 1) = Ok ([], 1)).
Proof.
  unfold AnalyzeExcel.locate_header.
  assert (py_range 1 (min (depth + 1) (max_row ws + 1))
          = seq 1 (min depth (max_row ws))) as ->.
  { unfold py_range. f_equal. lia. }
  destruct (header_loop_seq ws (min depth (max_row ws)) 1 [] 1) as
    [(r & Hr & Hvalue & Hfirst & Hresult)|[Hnone Hresult]]; [lia | |].
  - left. exists r. split; [|exact Hresult].
    unfold first_nonempty_row. split_and!; [lia | lia | lia | exact Hvalue |].
    intros r' Hr'. apply Hfirst. lia.
  - right. split; [|exact Hresult].
    intros r Hr Hmax. apply Hnone. lia.
Qed.

(** ** [analyze_excel.py]: samples, column types and the whole function *)
Section AnalyzeSheet.

Import AnalyzeExcel.

Variable set_iter : PySet.t → list string.

Lemma locate_header_total ws stop :
  ∃ hdrs h, locate_header ws stop = Ok (hdrs, h) ∧ 1 ≤ h.
Proof.
  unfold locate_header. rewrite locate_header_rows.
  destruct (header_loop_seq ws (min (stop - 1) (max_row ws)) 1 [] 1 ltac:(lia))
    as [(r & Hr & _ & _ & Heq)|[_ Heq]]; eauto 6 with lia.
Qed.

Lemma sample_loop_ok ws rows : ∀ acc,
  Forall (λ r, 1 ≤ r) rows →
  sample_loop ws rows acc = Ok (acc ++ rows_with_value ws rows).
Proof.
  unfold rows_with_value.
  induction rows as [|r rows IH]; intros acc Hrows.
  - cbn. by rewrite app_nil_r.
  - inversion Hrows as [|?? Hr Hrows']; subst.
    cbn [sample_loop]. rewrite row_data_ok by done. cbn [bind].
    rewrite IH by done. rewrite fmap_cons, filter_cons.
    destruct (py_any _ _) eqn:Hany.
    + rewrite decide_True by done. by rewrite <- app_assoc.
    + rewrite decide_False by congruence. done.
Qed.

Lemma types_loop_ok ws c rows : ∀ s,
  1 ≤ c → Forall (λ r, 1 ≤ r) rows →
  types_loop ws c rows s = Ok (seen_kinds ws c rows s).
Proof.
  induction rows as [|r rows IH]; intros s Hc Hrows; [done|].
  inversion Hrows as [|?? Hr Hrows']; subst.
  cbn [types_loop]. rewrite cell_value_ok by done. cbn [bind].
  by rewrite IH.
Qed.

Lemma py_range_ge a b : Forall (λ r, a ≤ r) (py_range a b).
Proof.
  unfold py_range. apply Forall_forall. intros r Hr%elem_of_seq. lia.
Qed.

Lemma py_range_pos a b : 1 ≤ a → Forall (λ r, 1 ≤ r) (py_range a b).
Proof.
  intros Ha. eapply Forall_impl; [apply py_range_ge|]. simpl. lia.
Qed.

Lemma column_type_of_ok ws h c :
  1 ≤ h → 1 ≤ c →
  column_type_of set_iter ws h c =
    Ok {| column := py_or (cells ws h c) (VStr ("Column_" +:+ pretty c));
          types := if PySet.nonempty (column_kinds ws h c)
                   then set_iter (column_kinds ws h c)
                   else ["Empty/None"] |}.
Proof.
  intros Hh Hc. unfold column_type_of.
  rewrite cell_value_ok by done. cbn [bind].
  rewrite types_loop_ok by (done || apply py_range_pos; lia). done.
Qed.

Lemma analyze_sheet_ok wb name n ws hdrs h :
  get_sheet wb name = Ok ws →
  locate_header ws 10 = Ok (hdrs, h) →
  analyze_sheet set_iter wb name n = Ok (sheet_info_of set_iter name ws hdrs h n).
Proof.
  intros Hws Hloc.
  destruct (locate_header_total ws 10) as (hdrs' & h' & Hloc' & Hh).
  rewrite Hloc in Hloc'. injection Hloc' as <- <-.
  unfold analyze_sheet. rewrite Hws. cbn [bind]. rewrite Hloc. cbn [bind fst snd].
  rewrite sample_loop_ok by (apply py_range_pos; lia). cbn [bind app].
  rewrite py_range_1.
  rewrite (for_each_ok _ (λ c, {| column := py_or (cells ws h c) (VStr ("Column_" +:+ pretty c));
          types := if PySet.nonempty (column_kinds ws h c)
                   then set_iter (column_kinds ws h c)
                   else ["Empty/None"] |})).
  - done.
  - intros c Hc%elem_of_seq. apply column_type_of_ok; lia.
Qed.

(** The function never raises on a sheet of the workbook. *)
Lemma analyze_sheet_total wb name n ws :
  get_sheet wb name = Ok ws →
  ∃ hdrs h, locate_header ws 10 = Ok (hdrs, h) ∧ 1 ≤ h ∧
    analyze_sheet set_iter wb name n = Ok (sheet_info_of set_iter name ws hdrs h n).
Proof.
  intros Hws. destruct (locate_header_total ws 10) as (hdrs & h & Hloc & Hh).
  exists hdrs, h. split_and!; [done..|]. by apply analyze_sheet_ok.
Qed.

End AnalyzeSheet.

(** ** [analyze_excel.py]: the kinds collected for a column *)
Section Kinds.

Import AnalyzeExcel.

Lemma set_add_elem (x l : string) (s : PySet.t) :
  l ∈ PySet.add x s ↔ l = x ∨ l ∈ s.
Proof.
  unfold PySet.add. case_decide as Hx.
  - split; [by right | intros [->|?]; done].
  - rewrite elem_of_app, list_elem_of_singleton. tauto.
Qed.

Lemma set_add_NoDup (x : string) (s : PySet.t) : NoDup s → NoDup (PySet.add x s).
Proof.
  intros Hs. unfold PySet.add. case_decide as Hx; [done|].
  apply NoDup_app. split_and!; [done | | apply NoDup_singleton].
  intros y Hy ->%list_elem_of_singleton. done.
Qed.

Lemma seen_kinds_spec ws c rows : ∀ s,
  NoDup s →
  NoDup (seen_kinds ws c rows s) ∧
  ∀ l, l ∈ seen_kinds ws c rows s ↔
       l ∈ s ∨ ∃ r, r ∈ rows ∧ cells ws r c ≠ VNone ∧ type_name (cells ws r c) = l.
Proof.
  induction rows as [|r rows IH]; intros s Hs.
  - split; [done|]. intros l. cbn. split; [by left|].
    intros [?|(r & Hr & _)]; [done|]. by apply elem_of_nil in Hr.
  - cbn [seen_kinds foldl]. fold (seen_kinds ws c rows).
    destruct (is_not_none (cells ws r c)) eqn:Hv.
    + destruct (IH (PySet.add (type_name (cells ws r c)) s)) as [Hnd Hel];
        [by apply set_add_NoDup|].
      split; [done|]. intros l. rewrite Hel, set_add_elem.
      apply is_not_none_spec in Hv. split.
      * intros [[->|?]|(r' & Hr' & ?)]; [right; exists r | by left | right; exists r'];
          (split; [by (left || right) | done]).
      * intros [?|(r' & Hr' & Hne & Hty)]; [by left; right|].
        apply elem_of_cons in Hr' as [->|Hr']; [by left; left|].
        right. by exists r'.
    + destruct (IH s Hs) as [Hnd Hel]. split; [done|].
      intros l. rewrite Hel. split.
      * intros [?|(r' & Hr' & ?)]; [by left|]. right. exists r'. split; [by right|done].
      * intros [?|(r' & Hr' & Hne & Hty)]; [by left|].
        apply elem_of_cons in Hr' as [->|Hr'].
        -- apply is_not_none_spec in Hne. congruence.
        -- right. by exists r'.
Qed.

Lemma elem_of_type_rows ws h r : r ∈ type_rows ws h ↔ in_type_window ws h r.
Proof.
  unfold type_rows, py_range, in_type_window. rewrite elem_of_seq. lia.
Qed.

Lemma column_kinds_spec ws h c :
  NoDup (column_kinds ws h c) ∧
  ∀ l, l ∈ column_kinds ws h c ↔ observed ws h c l.
Proof.
  destruct (seen_kinds_spec ws c (type_rows ws h) PySet.empty) as [Hnd Hel];
    [apply NoDup_nil_2|].
  split; [done|]. intros l. rewrite Hel. unfold observed. split.
  - intros [Hl|(r & Hr%elem_of_type_rows & ?)]; [by apply elem_of_nil in Hl|].
    by exists r.
  - intros (r & Hr%elem_of_type_rows & ?). right. by exists r.
Qed.

Lemma type_name_not_sentinel v : type_name v ≠ "Empty/None".
Proof. by destruct v. Qed.

(** The [types] entry of a column, under any iteration order of sets. *)
Lemma inferred_types_spec set_iter ws h c :
  PySet.iter_ok set_iter →
  let tys := if PySet.nonempty (column_kinds ws h c)
             then set_iter (column_kinds ws h c) else ["Empty/None"] in
  ((∃ r, in_type_window ws h r ∧ cells ws r c ≠ VNone) →
     NoDup tys ∧ ∀ l, l ∈ tys ↔ observed ws h c l) ∧
  ((∀ r, in_type_window ws h r → cells ws r c = VNone) → tys = ["Empty/None"]).
Proof.
  intros Hiter tys. destruct (column_kinds_spec ws h c) as [Hnd Hel].
  pose proof (Hiter _ Hnd) as Hperm. split.
  - intros (r & Hr & Hne).
    assert (type_name (cells ws r c) ∈ column_kinds ws h c) as Hin.
    { apply Hel. by exists r. }
    subst tys. destruct (column_kinds ws h c) as [|k ks] eqn:Hk;
      [by apply elem_of_nil in Hin|]. cbn [PySet.nonempty].
    split; [by rewrite Hperm|]. intros l. by rewrite Hperm, Hel.
  - intros Hnone. subst tys.
    destruct (column_kinds ws h c) as [|k ks] eqn:Hk; [done|].
    assert (observed ws h c k) as (r & Hr & Hne & _) by (apply Hel; left).
    by specialize (Hnone r Hr).
Qed.

End Kinds.

(** C3. Column Type Inferencer: for every column of a sheet that
    [analyze_sheet] analyses, under any order in which the interpreter
    iterates over a set, the reported types are the distinct kind labels
    of the cells other than [None] in the window of rows below the header
    (each label once, and exactly the observed ones) when the window has
    such a cell; when every cell of the window is [None] they are exactly
    the one sentinel ["Empty/None"], which is the type name of no value. *)
Theorem column_types_are_observed_kinds
    (set_iter : PySet.t → list string) (wb : workbook) (name : string)
    (max_data_rows : nat) (ws : worksheet) (c : nat) :
  PySet.iter_ok set_iter →
  get_sheet wb name = Ok ws →
  1 ≤ c ≤ max_column ws →
  ∃ info hdrs h ct,
    AnalyzeExcel.locate_header ws 10 = Ok (hdrs, h) ∧
    AnalyzeExcel.analyze_sheet set_iter wb name max_data_rows = Ok info ∧
    AnalyzeExcel.column_types info !! (c - 1) = Some ct ∧
    ((∃ r, in_type_window ws h r ∧ cells ws r c ≠ VNone) →
       NoDup (AnalyzeExcel.types ct) ∧
       ∀ l, l ∈ AnalyzeExcel.types ct ↔ observed ws h c l) ∧
    ((∀ r, in_type_window ws h r → cells ws r c = VNone) →
       AnalyzeExcel.types ct = ["Empty/None"]) ∧
    (∀ v, type_name v ≠ "Empty/None").
Proof.
  intros Hiter Hws Hc.
  destruct (analyze_sheet_total set_iter wb name max_data_rows ws Hws)
    as (hdrs & h & Hloc & Hh & Hinfo).
  eexists _, hdrs, h, _. split_and!; [exact Hloc | exact Hinfo | | | |].
  - cbn. rewrite list_lookup_fmap, lookup_seq_lt by lia.
    cbn. replace (S (c - 1)) with c by lia. reflexivity.
  - apply (inferred_types_spec set_iter ws h c Hiter).
  - apply (inferred_types_spec set_iter ws h c Hiter).
  - apply type_name_not_sentinel.
Qed.

Lemma insertion_order_ok : PySet.iter_ok insertion_order.
Proof. intros s _. reflexivity. Qed.

Lemma column_types_are_observed_kinds_witness :
  ∃ info hdrs h ct,
    AnalyzeExcel.locate_header gap_sheet 10 = Ok (hdrs, h) ∧
    AnalyzeExcel.analyze_sheet insertion_order gap_workbook "msme" 3 = Ok info ∧
    AnalyzeExcel.column_types info !! (2 - 1) = Some ct ∧
    ((∃ r, in_type_window gap_sheet h r ∧ cells gap_sheet r 2 ≠ VNone) →
       NoDup (AnalyzeExcel.types ct) ∧
       ∀ l, l ∈ AnalyzeExcel.types ct ↔ observed gap_sheet h 2 l) ∧
    ((∀ r, in_type_window gap_sheet h r → cells gap_sheet r 2 = VNone) →
       AnalyzeExcel.types ct = ["Empty/None"]) ∧
    (∀ v, type_name v ≠ "Empty/None").
Proof.
  apply (column_types_are_observed_kinds insertion_order gap_workbook "msme" 3
           gap_sheet 2 insertion_order_ok eq_refl).
  cbn. lia.
Defined.


(** ** [analyze_excel.py]: the rows the header search reads *)
Section ScanDepth.

Import AnalyzeExcel.

Lemma row_cells_ext ws ws' r :
  max_column ws' = max_column ws →
  (∀ c, 1 ≤ c ≤ max_column ws → cells ws' r c = cells ws r c) →
  row_cells ws' r = row_cells ws r.
Proof.
  intros Hcol Hcells. unfold row_cells. rewrite Hcol.
  apply list_fmap_ext. intros i c Hc%lookup_seq. apply Hcells. lia.
Qed.

Lemma header_loop_ext ws ws' rows hdrs idx :
  max_column ws' = max_column ws →
  Forall (λ r, 1 ≤ r ∧ row_cells ws' r = row_cells ws r) rows →
  header_loop ws' rows hdrs idx = header_loop ws rows hdrs idx.
Proof.
  intros Hcol. induction 1 as [|r rows [Hr Hrow] _ IH]; [done|].
  cbn [header_loop]. rewrite !row_data_ok by done. cbn [bind].
  rewrite Hrow, IH. done.
Qed.

(** The search reads rows 1 to [min 9 max_row] only. *)
Lemma locate_header_ext ws ws' :
  max_row ws' = max_row ws → max_column ws' = max_column ws →
  (∀ r c, 1 ≤ r ≤ 9 → r ≤ max_row ws → 1 ≤ c ≤ max_column ws →
          cells ws' r c = cells ws r c) →
  locate_header ws' 10 = locate_header ws 10.
Proof.
  intros Hrow Hcol Hcells. unfold locate_header. rewrite Hrow.
  apply header_loop_ext; [done|].
  rewrite locate_header_rows. apply Forall_forall. intros r Hr%elem_of_seq.
  split; [lia|]. apply row_cells_ext; [done|]. intros c Hc. apply Hcells; lia.
Qed.

Lemma for_each_index {B C} (l : list C) : ∀ (f : nat → result B) (g : nat → C → B),
  (∀ i x, l !! i = Some x → f i = Ok (g i x)) →
  for_each f (seq 0 (length l)) = Ok (imap g l).
Proof.
  assert (∀ (f : nat → result B) (k : list nat),
            for_each f (S <$> k) = for_each (f ∘ S) k) as Hfmap.
  { intros f k. induction k as [|i k IH]; [done|]. cbn. by rewrite IH. }
  induction l as [|x l IH]; intros f g Hf; [done|].
  cbn [length seq]. rewrite <- fmap_S_seq. cbn [for_each].
  rewrite (Hf 0 x) by done. cbn [bind].
  rewrite Hfmap, (IH (f ∘ S) (g ∘ S)); [done|].
  intros i y Hi. apply (Hf (S i) y Hi).
Qed.

(** The ["columns"] comprehension never raises and never takes its
    placeholder branch: the names are the headers. *)
Lemma summarize_ok info purpose :
  ∃ s, summarize info purpose = Ok s ∧
       name <$> columns s = headers info ∧
       summary_sample_rows s = take 3 (sample_rows info) ∧
       summary_total_rows s = total_rows info.
Proof.
  unfold summarize, py_range. rewrite Nat.sub_0_r.
  rewrite (for_each_index (headers info) _
    (λ i v, {| name := v;
               data_type := match column_types info !! i with
                            | Some ct => match types ct with
                                         | [] => "Unknown" | t :: _ => t end
                            | None => "Unknown"
                            end;
               description := "" |})).
  - eexists. split; [done|]. cbn. split; [|done].
    rewrite fmap_imap. clear. generalize (headers info) as l.
    intros l. rewrite <- (list_fmap_id l) at 2. rewrite <- imap_const.
    by apply imap_ext.
  - intros i v Hi. unfold column_entry_of.
    pose proof (lookup_lt_Some _ _ _ Hi) as Hlt.
    apply Nat.ltb_lt in Hlt. rewrite Hlt. unfold py_index at 1. rewrite Hi.
    cbn [bind]. destruct (Nat.ltb_spec i (length (column_types info))) as [Hlt'|Hge].
    + destruct (lookup_lt_is_Some_2 _ _ Hlt') as [ct Hct].
      unfold py_index at 1. rewrite Hct. cbn [bind].
      destruct (types ct) as [|t ts]; done.
    + rewrite lookup_ge_None_2 by done. done.
Qed.

End ScanDepth.

(** C10. The automatic header search of [analyze_excel.py] reads rows 1
    to [min 9 max_row] only: two sheets of the same extents that agree on
    these rows give the same search result, whatever row 10 and the rows
    below hold. When every cell of these rows is empty the function does
    not raise: the search ends with the index 1 and the empty list of
    headers it started from, [analyze_sheet] returns with no headers, and
    the report of the sheet has no columns. *)
Theorem header_scan_stops_at_row_9
    (set_iter : PySet.t → list string) (wb : workbook) (name : string)
    (max_data_rows : nat) (ws ws' : worksheet) :
  get_sheet wb name = Ok ws →
  max_row ws' = max_row ws →
  max_column ws' = max_column ws →
  (∀ r c, 1 ≤ r ≤ 9 → r ≤ max_row ws → 1 ≤ c ≤ max_column ws →
          cells ws' r c = cells ws r c) →
  AnalyzeExcel.locate_header ws' 10 = AnalyzeExcel.locate_header ws 10 ∧
  (no_nonempty_row ws 9 →
     AnalyzeExcel.locate_header ws 10 = Ok ([], 1) ∧
     ∃ info, AnalyzeExcel.analyze_sheet set_iter wb name max_data_rows = Ok info ∧
             AnalyzeExcel.headers info = [] ∧
             ∀ purpose, ∃ s, AnalyzeExcel.summarize info purpose = Ok s ∧
                             AnalyzeExcel.columns s = []).
Proof.
  intros Hws Hrow Hcol Hcells. split; [by apply locate_header_ext|].
  intros Hnone.
  destruct (locate_header_spec ws 9) as [(r & (Hr & Hmax & Hne & _) & _)|[_ Hloc]];
    [by destruct (Hnone r Hr Hmax)|].
  change (9 + 1) with 10 in Hloc. split; [done|].
  eexists. split; [by eapply analyze_sheet_ok|]. split; [done|].
  intros purpose. destruct (summarize_ok (sheet_info_of set_iter name ws [] 1 max_data_rows) purpose)
    as (s & Hs & Hnames & _).
  exists s. split; [done|]. cbn in Hnames. by destruct (AnalyzeExcel.columns s).
Qed.

Lemma late_header_rows_empty v r c :
  1 ≤ r ≤ 9 → cells (late_header_sheet v) r c = VNone.
Proof.
  intros Hr. do 10 (destruct r as [|r]; [by (lia || destruct c as [|[|c]])|]). lia.
Qed.

Lemma header_scan_stops_at_row_9_witness :
  AnalyzeExcel.locate_header (late_header_sheet (VInt 7)) 10 =
    AnalyzeExcel.locate_header (late_header_sheet (VStr "Scheme")) 10 ∧
  AnalyzeExcel.locate_header (late_header_sheet (VStr "Scheme")) 10 = Ok ([], 1) ∧
  ∃ info, AnalyzeExcel.analyze_sheet insertion_order
            [("msme", late_header_sheet (VStr "Scheme"))] "msme" 3 = Ok info ∧
          AnalyzeExcel.headers info = [] ∧
          ∀ purpose, ∃ s, AnalyzeExcel.summarize info purpose = Ok s ∧
                          AnalyzeExcel.columns s = [].
Proof.
  destruct (header_scan_stops_at_row_9 insertion_order
              [("msme", late_header_sheet (VStr "Scheme"))] "msme" 3
              (late_header_sheet (VStr "Scheme")) (late_header_sheet (VInt 7))
              eq_refl eq_refl eq_refl) as [Hsame Hempty].
  - intros r c Hr _ _. by rewrite !late_header_rows_empty.
  - split; [exact Hsame|]. apply Hempty.
    intros r Hr _ (c & _ & Hc). by rewrite late_header_rows_empty in Hc.
Defined.

(** ** [analyze_excel_final.py] *)
Section Final.

Import AnalyzeFinal.

Lemma row_data_first ws r n :
  1 ≤ r → row_data ws r (n + 1) = Ok (first_cells ws r n).
Proof.
  intros Hr. unfold row_data, first_cells. rewrite py_range_1.
  apply for_each_ok. intros c Hc%elem_of_seq. apply cell_value_ok; lia.
Qed.

Lemma headers_loop_ok ws hr cols : ∀ hdrs,
  1 ≤ hr → Forall (λ c, 1 ≤ c) cols →
  headers_loop ws hr cols hdrs = Ok (hdrs ++ nonempty_cells (cells ws hr <$> cols)).
Proof.
  unfold nonempty_cells.
  induction cols as [|c cols IH]; intros hdrs Hhr Hcols.
  - cbn. by rewrite app_nil_r.
  - inversion Hcols as [|?? Hc Hcols']; subst.
    cbn [headers_loop]. rewrite cell_value_ok by done. cbn [bind].
    rewrite IH by done. rewrite fmap_cons, filter_cons.
    destruct (is_not_none (cells ws hr c)) eqn:Hv.
    + rewrite decide_True by done. by rewrite <- app_assoc.
    + rewrite decide_False by congruence. done.
Qed.

Lemma collect_headers_ok ws hr :
  1 ≤ hr → collect_headers ws hr = Ok (nonempty_cells (row_cells ws hr)).
Proof.
  intros Hhr. unfold collect_headers. rewrite py_range_1.
  rewrite headers_loop_ok; [done..|].
  apply Forall_forall. intros c Hc%elem_of_seq. lia.
Qed.

(** The rows of [rows] that the sample loop keeps. *)
Lemma samples_loop_ok ws n rows : ∀ samples,
  Forall (λ r, 1 ≤ r) rows →
  samples_loop ws n rows samples =
    Ok (samples ++
        filter (λ rd, py_any is_not_none rd = true)
          ((λ r, first_cells ws r n) <$> filter (λ r, r ≤ max_row ws) rows)).
Proof.
  induction rows as [|r rows IH]; intros samples Hrows.
  - cbn. by rewrite app_nil_r.
  - inversion Hrows as [|?? Hr Hrows']; subst.
    cbn [samples_loop]. rewrite (filter_cons _ r rows).
    destruct (Nat.leb_spec r (max_row ws)) as [Hle|Hgt].
    + rewrite decide_True by done. rewrite row_data_first by done. cbn [bind].
      rewrite IH by done. rewrite fmap_cons, filter_cons.
      destruct (py_any _ _) eqn:Hany.
      * rewrite decide_True by done. by rewrite <- app_assoc.
      * rewrite decide_False by congruence. done.
    + rewrite decide_False by lia. by apply IH.
Qed.

Lemma count_loop_total ws rows : ∀ count,
  Forall (λ r, 1 ≤ r) rows → ∃ n, count_loop ws rows count = Ok n.
Proof.
  induction rows as [|r rows IH]; intros count Hrows; [by eexists|].
  inversion Hrows as [|?? Hr Hrows']; subst.
  cbn [count_loop]. rewrite row_data_ok by done. cbn [bind]. by apply IH.
Qed.

(** The ["columns"] comprehension: it never raises, and its names are
    the headers. *)
Lemma columns_of_ok hdrs dtype descr :
  columns_of hdrs dtype descr =
    Ok (imap (λ i v, {| name := v; data_type := dtype; description := descr i |}) hdrs).
Proof.
  unfold columns_of, py_range. rewrite Nat.sub_0_r.
  apply for_each_index. intros i v Hi. unfold column_entry_of.
  pose proof (lookup_lt_Some _ _ _ Hi) as Hlt%Nat.ltb_lt.
  rewrite Hlt. unfold py_index. rewrite Hi. done.
Qed.

Lemma imap_names hdrs dtype descr :
  name <$> imap (λ i v, {| name := v; data_type := dtype; description := descr i |}) hdrs
  = hdrs.
Proof.
  rewrite fmap_imap. rewrite <- (list_fmap_id hdrs) at 2. rewrite <- imap_const.
  by apply imap_ext.
Qed.

Lemma msme_layout_ok : layout_ok msme_layout.
Proof. split_and!; [cbn; lia..|]. repeat constructor; lia. Qed.

Lemma charter_layout_ok : layout_ok charter_layout.
Proof. split_and!; [cbn; lia..|]. repeat constructor; lia. Qed.

Lemma gather_ok wb sheet lay ws :
  layout_ok lay →
  get_sheet wb sheet = Ok ws →
  ∃ g, gather wb sheet lay = Ok g ∧
       g_title g = cells ws 1 1 ∧
       g_headers g = nonempty_cells (row_cells ws (header_row lay)) ∧
       g_samples g =
         filter (λ rd, py_any is_not_none rd = true)
           ((λ r, first_cells ws r (length (g_headers g))) <$>
              filter (λ r, r ≤ max_row ws) (sample_idx lay)).
Proof.
  intros (Hh & Hd & Hs) Hws. unfold gather. rewrite Hws. cbn [bind].
  rewrite cell_value_ok by lia. cbn [bind].
  rewrite collect_headers_ok by done. cbn [bind].
  rewrite samples_loop_ok by done. cbn [bind app].
  destruct (count_loop_total ws (py_range (data_start lay) (max_row ws + 1)) 0)
    as [n Hn]; [by apply py_range_pos|].
  rewrite Hn. cbn [bind]. eexists. split; [done|]. done.
Qed.

Lemma summarize_ok_final sheet lay g :
  ∃ s, summarize sheet lay g = Ok s ∧
       name <$> columns s = g_headers g ∧
       sample_rows s = take 2 (g_samples g) ∧
       title s = g_title g ∧
       total_columns s = length (g_headers g).
Proof.
  unfold summarize. rewrite columns_of_ok. cbn [bind].
  eexists. split; [done|]. cbn. by rewrite imap_names.
Qed.

(** The script runs to its response whenever both sheets exist. *)
Lemma build_response_ok wb ws_m ws_c :
  get_sheet wb "msme" = Ok ws_m →
  get_sheet wb "charter" = Ok ws_c →
  ∃ resp, build_response wb = Ok resp ∧
    name <$> columns (msme_sheet resp) = nonempty_cells (row_cells ws_m 2) ∧
    name <$> columns (charter_sheet resp) = nonempty_cells (row_cells ws_c 3).
Proof.
  intros Hm Hc. unfold build_response.
  destruct (gather_ok wb "msme" msme_layout ws_m msme_layout_ok Hm)
    as (gm & -> & _ & Hhm & _).
  destruct (gather_ok wb "charter" charter_layout ws_c charter_layout_ok Hc)
    as (gc & -> & _ & Hhc & _).
  cbn [bind].
  destruct (summarize_ok_final "msme" msme_layout gm) as (sm & -> & Hnm & _).
  destruct (summarize_ok_final "charter" charter_layout gc) as (sc & -> & Hnc & _).
  cbn [bind]. eexists. split; [done|]. cbn. by rewrite Hnm, Hnc, Hhm, Hhc.
Qed.

Lemma nonempty_cells_not_none l : Forall (λ v, v ≠ VNone) (nonempty_cells l).
Proof.
  apply Forall_forall. intros v Hv. unfold nonempty_cells in Hv.
  apply list_elem_of_filter in Hv as [Hv _]. by apply is_not_none_spec.
Qed.

End Final.

(** C9. In [analyze_excel_final.py] the placeholder branch of the
    ["columns"] comprehension is never taken: every index the
    comprehension visits is below [len(headers)] and yields the header
    at that index, so for both sheets the reported names are, verbatim
    and in order, the cells of the header row that are not [None]. *)
Theorem placeholder_branch_unreachable
    (wb : workbook) (ws_msme ws_charter : worksheet) :
  get_sheet wb "msme" = Ok ws_msme →
  get_sheet wb "charter" = Ok ws_charter →
  (∀ hdrs dtype descr i, i ∈ py_range 0 (length hdrs) →
     i < length hdrs ∧
     ∃ v, hdrs !! i = Some v ∧
          AnalyzeFinal.column_entry_of hdrs dtype descr i =
            Ok {| AnalyzeFinal.name := v;
                  AnalyzeFinal.data_type := dtype;
                  AnalyzeFinal.description := descr i |}) ∧
  ∃ resp, AnalyzeFinal.build_response wb = Ok resp ∧
    AnalyzeFinal.name <$> AnalyzeFinal.columns (AnalyzeFinal.msme_sheet resp)
      = nonempty_cells (row_cells ws_msme 2) ∧
    AnalyzeFinal.name <$> AnalyzeFinal.columns (AnalyzeFinal.charter_sheet resp)
      = nonempty_cells (row_cells ws_charter 3) ∧
    Forall (λ v, v ≠ VNone)
      (AnalyzeFinal.name <$> AnalyzeFinal.columns (AnalyzeFinal.msme_sheet resp)) ∧
    Forall (λ v, v ≠ VNone)
      (AnalyzeFinal.name <$> AnalyzeFinal.columns (AnalyzeFinal.charter_sheet resp)).
Proof.
  intros Hm Hc. split.
  - intros hdrs dtype descr i Hi%elem_of_seq.
    assert (i < length hdrs) as Hlt by lia. split; [done|].
    destruct (lookup_lt_is_Some_2 _ _ Hlt) as [v Hv]. exists v. split; [done|].
    unfold AnalyzeFinal.column_entry_of. apply Nat.ltb_lt in Hlt. rewrite Hlt.
    unfold py_index. rewrite Hv. done.
  - destruct (build_response_ok wb ws_msme ws_charter Hm Hc) as (resp & Hr & Hnm & Hnc).
    exists resp. split_and!; [done..| |].
    + rewrite Hnm. apply nonempty_cells_not_none.
    + rewrite Hnc. apply nonempty_cells_not_none.
Qed.

Lemma placeholder_branch_unreachable_witness :
  (∀ hdrs dtype descr i, i ∈ py_range 0 (length hdrs) →
     i < length hdrs ∧
     ∃ v, hdrs !! i = Some v ∧
          AnalyzeFinal.column_entry_of hdrs dtype descr i =
            Ok {| AnalyzeFinal.name := v;
                  AnalyzeFinal.data_type := dtype;
                  AnalyzeFinal.description := descr i |}) ∧
  ∃ resp, AnalyzeFinal.build_response five_row_workbook = Ok resp ∧
    AnalyzeFinal.name <$> AnalyzeFinal.columns (AnalyzeFinal.msme_sheet resp)
      = nonempty_cells (row_cells msme_five_rows 2) ∧
    AnalyzeFinal.name <$> AnalyzeFinal.columns (AnalyzeFinal.charter_sheet resp)
      = nonempty_cells (row_cells charter_example 3) ∧
    Forall (λ v, v ≠ VNone)
      (AnalyzeFinal.name <$> AnalyzeFinal.columns (AnalyzeFinal.msme_sheet resp)) ∧
    Forall (λ v, v ≠ VNone)
      (AnalyzeFinal.name <$> AnalyzeFinal.columns (AnalyzeFinal.charter_sheet resp)).
Proof.
  exact (placeholder_branch_unreachable five_row_workbook msme_five_rows
           charter_example eq_refl eq_refl).
Defined.

(** ** The "msme" scenario *)
Section Scenario.

Import AnalyzeFinal.







End Scenario.




(** ** The column names of the final response *)
Section ColumnNames.

Import AnalyzeExcel.

Variable set_iter : PySet.t → list string.

Lemma headers_by_scan ws hdrs h :
  locate_header ws 10 = Ok (hdrs, h) → names_by_scan ws hdrs.
Proof.
  intros Hloc.
  destruct (locate_header_spec ws 9) as [(r & Hr & Heq)|[Hnone Heq]];
    change (9 + 1) with 10 in Heq; rewrite Hloc in Heq; injection Heq as -> ->.
  - left. exists r. split_and!; [done| |].
    + unfold row_cells. by rewrite length_fmap, length_seq.
    + intros c Hc _. unfold row_cells.
      rewrite list_lookup_fmap, lookup_seq_lt by lia. cbn. f_equal. f_equal. lia.
  - by right.
Qed.

(** The script builds its response whenever both sheets exist. *)
Lemma excel_build_response_ok wb ws_m ws_c :
  get_sheet wb "msme" = Ok ws_m →
  get_sheet wb "charter" = Ok ws_c →
  ∃ mi ci resp,
    build_response set_iter wb = Ok (mi, ci, resp) ∧
    analyze_sheet set_iter wb "msme" 3 = Ok mi ∧
    analyze_sheet set_iter wb "charter" 3 = Ok ci ∧
    name <$> columns (msme_sheet resp) = headers mi ∧
    name <$> columns (charter_sheet resp) = headers ci ∧
    names_by_scan ws_m (headers mi) ∧
    names_by_scan ws_c (headers ci).
Proof.
  intros Hm Hc. unfold build_response.
  destruct (analyze_sheet_total set_iter wb "msme" 3 ws_m Hm) as (hm & im & Hlm & _ & Him).
  destruct (analyze_sheet_total set_iter wb "charter" 3 ws_c Hc) as (hc & ic & Hlc & _ & Hic).
  rewrite Him, Hic. cbn [bind].
  destruct (summarize_ok (sheet_info_of set_iter "msme" ws_m hm im 3)
              "Information about incentive schemes for MSMEs in Tamil Nadu")
    as (sm & -> & Hnm & _).
  destruct (summarize_ok (sheet_info_of set_iter "charter" ws_c hc ic 3)
              "Government schemes and programs charter information")
    as (sc & -> & Hnc & _).
  cbn [bind]. eexists _, _, _. split_and!; [done..| |].
  - by eapply headers_by_scan.
  - by eapply headers_by_scan.
Qed.

End ColumnNames.

(** C2. Report Builder: in [analyze_excel_final.py] the
    column names reported for a sheet are the cells of its header row
    (row 2 for "msme", row 3 for "charter") that are not empty, so their
    number is the number of non-empty header cells, and no placeholder
    stands in for an empty one. In [analyze_excel.py] the reported names
    are the cells of the row the header search found, one per column of
    the sheet with [None] for an empty cell, and there are none when the
    search found no row. *)
Theorem reported_column_names
    (set_iter : PySet.t → list string) (wb : workbook)
    (ws_msme ws_charter : worksheet) :
  get_sheet wb "msme" = Ok ws_msme →
  get_sheet wb "charter" = Ok ws_charter →
  (∃ resp, AnalyzeFinal.build_response wb = Ok resp ∧
     AnalyzeFinal.name <$> AnalyzeFinal.columns (AnalyzeFinal.msme_sheet resp)
       = nonempty_cells (row_cells ws_msme 2) ∧
     AnalyzeFinal.name <$> AnalyzeFinal.columns (AnalyzeFinal.charter_sheet resp)
       = nonempty_cells (row_cells ws_charter 3) ∧
     length (AnalyzeFinal.columns (AnalyzeFinal.msme_sheet resp))
       = length (nonempty_cells (row_cells ws_msme 2)) ∧
     length (AnalyzeFinal.columns (AnalyzeFinal.charter_sheet resp))
       = length (nonempty_cells (row_cells ws_charter 3))) ∧
  (∃ mi ci resp, AnalyzeExcel.build_response set_iter wb = Ok (mi, ci, resp) ∧
     names_by_scan ws_msme
       (AnalyzeExcel.name <$> AnalyzeExcel.columns (AnalyzeExcel.msme_sheet resp)) ∧
     names_by_scan ws_charter
       (AnalyzeExcel.name <$> AnalyzeExcel.columns (AnalyzeExcel.charter_sheet resp))).
Proof.
  intros Hm Hc. split.
  - destruct (build_response_ok wb ws_msme ws_charter Hm Hc) as (resp & Hr & Hnm & Hnc).
    exists resp. split_and!; [done..| |].
    + by rewrite <- Hnm, length_fmap.
    + by rewrite <- Hnc, length_fmap.
  - destruct (excel_build_response_ok set_iter wb ws_msme ws_charter Hm Hc)
      as (mi & ci & resp & Hr & _ & _ & Hnm & Hnc & Hsm & Hsc).
    exists mi, ci, resp. by rewrite Hnm, Hnc.
Qed.

Lemma reported_column_names_witness :
  (∃ resp, AnalyzeFinal.build_response gap_workbook = Ok resp ∧
     AnalyzeFinal.name <$> AnalyzeFinal.columns (AnalyzeFinal.msme_sheet resp)
       = nonempty_cells (row_cells gap_sheet 2) ∧
     AnalyzeFinal.name <$> AnalyzeFinal.columns (AnalyzeFinal.charter_sheet resp)
       = nonempty_cells (row_cells (grid 1 [[VStr "Department"]]) 3) ∧
     length (AnalyzeFinal.columns (AnalyzeFinal.msme_sheet resp))
       = length (nonempty_cells (row_cells gap_sheet 2)) ∧
     length (AnalyzeFinal.columns (AnalyzeFinal.charter_sheet resp))
       = length (nonempty_cells (row_cells (grid 1 [[VStr "Department"]]) 3))) ∧
  (∃ mi ci resp,
     AnalyzeExcel.build_response insertion_order gap_workbook = Ok (mi, ci, resp) ∧
     names_by_scan gap_sheet
       (AnalyzeExcel.name <$> AnalyzeExcel.columns (AnalyzeExcel.msme_sheet resp)) ∧
     names_by_scan (grid 1 [[VStr "Department"]])
       (AnalyzeExcel.name <$> AnalyzeExcel.columns (AnalyzeExcel.charter_sheet resp))).
Proof.
  exact (reported_column_names insertion_order gap_workbook gap_sheet
           (grid 1 [[VStr "Department"]]) eq_refl eq_refl).
Defined.

(** In [analyze_excel.py] a header row with an empty cell yields one
    reported column per cell of the row: more columns than non-empty
    header cells, and [None], no placeholder, as the name of the gap. *)
Lemma gap_header_reports_every_cell :
  ∃ mi ci resp,
    AnalyzeExcel.build_response insertion_order gap_workbook = Ok (mi, ci, resp) ∧
    AnalyzeExcel.locate_header gap_sheet 10 = Ok (row_cells gap_sheet 1, 1) ∧
    AnalyzeExcel.name <$> AnalyzeExcel.columns (AnalyzeExcel.msme_sheet resp)
      = [VStr "Scheme"; VNone] ∧
    nonempty_cells (row_cells gap_sheet 1) = [VStr "Scheme"] ∧
    length (AnalyzeExcel.columns (AnalyzeExcel.msme_sheet resp))
      ≠ length (nonempty_cells (row_cells gap_sheet 1)).
Proof.
  eexists _, _, _. split_and!; [vm_compute; reflexivity | reflexivity..|].
  vm_compute. discriminate.
Qed.

(** ** [analyze_excel_comprehensive.py]: the field-name classifier *)
Section Classifier.

Import Comprehensive.

Lemma column_step_buckets col s st st' :
  column_step col s st = Ok st' →
  ∀ b, bucket_cols b st' =
       bucket_cols b st ++ (if label_matches (keywords b) col then [col] else []).
Proof.
  intros Hstep b. unfold column_step in Hstep.
  destruct col as [| | | |name| | |]; try discriminate.
  cbn [label_lower bind] in Hstep. cbn [label_matches].
  match type of Hstep with
  | bind ?m _ = _ => destruct m as [pat|e]; [|discriminate]
  end.
  cbn [bind] in Hstep. revert Hstep.
  destruct b; cbn [bucket_cols keywords];
    generalize (matches location_keywords (lower name)),
               (matches crop_keywords (lower name)),
               (matches stock_keywords (lower name)),
               (matches outlet_keywords (lower name));
    intros m1 m2 m3 m4 [= <-];
    cbn [location_cols crop_cols stock_cols outlet_cols];
    destruct m1, m2, m3, m4; by rewrite ?app_nil_r.
Qed.

Lemma filter_label_matches kws (cols : list value) col :
  filter (λ c, label_matches kws c = true) (cols ++ [col]) =
  filter (λ c, label_matches kws c = true) cols ++
    (if label_matches kws col then [col] else []).
Proof.
  rewrite filter_app. f_equal. rewrite filter_cons.
  destruct (label_matches kws col); [by rewrite decide_True | by rewrite decide_False].
Qed.

Lemma columns_loop_buckets cols : ∀ st st',
  columns_loop cols st = Ok st' →
  ∀ b, bucket_cols b st' =
       bucket_cols b st ++ filter (λ c, label_matches (keywords b) c = true) cols.*1.
Proof.
  induction cols as [|[col s] cols IH]; intros st st' Hloop b.
  - injection Hloop as <-. cbn. by rewrite app_nil_r.
  - cbn [columns_loop] in Hloop.
    destruct (column_step col s st) as [st1|e] eqn:Hstep; [|discriminate].
    cbn [bind] in Hloop. rewrite (IH _ _ Hloop b).
    rewrite (column_step_buckets _ _ _ _ Hstep b).
    rewrite fmap_cons, filter_cons. cbn [fst].
    destruct (label_matches (keywords b) col).
    + rewrite decide_True by done. by rewrite <- app_assoc.
    + rewrite decide_False by done. by rewrite app_nil_r.
Qed.

(** The four lists of an analysis that succeeds: the labels whose
    case-folded text matches the keyword list, in column order. *)
Lemma analyze_df_buckets df a :
  analyze_df df = Ok a →
  ∀ b, bucket_fields b a =
       filter (λ c, label_matches (keywords b) c = true) (df_columns df).*1.
Proof.
  unfold analyze_df.
  destruct (columns_loop _ _) as [st|e] eqn:Hloop; [|discriminate].
  cbn [bind]. intros [= <-] b.
  pose proof (columns_loop_buckets _ _ _ Hloop b) as Hb.
  destruct b; cbn in *; by rewrite Hb.
Qed.

Lemma in_bucket_iff df a name s b :
  analyze_df df = Ok a →
  (VStr name, s) ∈ df_columns df →
  VStr name ∈ bucket_fields b a ↔ b ∈ buckets_of (lower name).
Proof.
  intros Ha Hin. rewrite (analyze_df_buckets df a Ha b).
  unfold buckets_of. rewrite !list_elem_of_filter. cbn [label_matches].
  split.
  - intros [Hm _]. split; [done|].
    destruct b; repeat first [apply list_elem_of_here | apply list_elem_of_further].
  - intros [Hm _]. split; [done|]. apply list_elem_of_fmap. by exists (VStr name, s).
Qed.

End Classifier.

(** C4. Field-Name Classifier: the buckets a column falls into are
    determined by the case-folded text of its name alone, by substring
    match against the fixed keyword lists. In two analyses that succeed,
    two columns with the same case-folded name are in the same buckets,
    whatever the contents of the columns and of the frames; and a name
    can be in no bucket, in one, or in several. *)
Theorem classifier_depends_on_folded_name_only
    (df1 df2 : Comprehensive.dataframe) (a1 a2 : Comprehensive.sheet_analysis)
    (name1 name2 : string) (s1 s2 : Comprehensive.series) :
  Comprehensive.analyze_df df1 = Ok a1 →
  Comprehensive.analyze_df df2 = Ok a2 →
  (VStr name1, s1) ∈ Comprehensive.df_columns df1 →
  (VStr name2, s2) ∈ Comprehensive.df_columns df2 →
  Comprehensive.lower name1 = Comprehensive.lower name2 →
  (∀ b, VStr name1 ∈ bucket_fields b a1 ↔ VStr name2 ∈ bucket_fields b a2) ∧
  (∀ b, VStr name1 ∈ bucket_fields b a1 ↔ b ∈ buckets_of (Comprehensive.lower name1)) ∧
  buckets_of (Comprehensive.lower "Sl.No") = [] ∧
  buckets_of (Comprehensive.lower "Variety") = [Crop] ∧
  buckets_of (Comprehensive.lower "Stock Location Name") = [Location; Crop; Stock].
Proof.
  intros Ha1 Ha2 Hin1 Hin2 Hlower. split_and!; [| |reflexivity..].
  - intros b. rewrite (in_bucket_iff df1 a1 name1 s1 b Ha1 Hin1).
    rewrite (in_bucket_iff df2 a2 name2 s2 b Ha2 Hin2). by rewrite Hlower.
  - intros b. apply (in_bucket_iff df1 a1 name1 s1 b Ha1 Hin1).
Qed.

Lemma classifier_depends_on_folded_name_only_witness :
  ∃ a1 a2,
    Comprehensive.analyze_df text_frame = Ok a1 ∧
    Comprehensive.analyze_df number_frame = Ok a2 ∧
    (∀ b, VStr "District" ∈ bucket_fields b a1 ↔ VStr "DISTRICT" ∈ bucket_fields b a2) ∧
    (∀ b, VStr "District" ∈ bucket_fields b a1 ↔
          b ∈ buckets_of (Comprehensive.lower "District")) ∧
    buckets_of (Comprehensive.lower "Sl.No") = [] ∧
    buckets_of (Comprehensive.lower "Variety") = [Crop] ∧
    buckets_of (Comprehensive.lower "Stock Location Name") = [Location; Crop; Stock].
Proof.
  eexists _, _. split; [reflexivity|]. split; [reflexivity|].
  apply (classifier_depends_on_folded_name_only text_frame number_frame _ _
           "District" "DISTRICT" text_series number_series eq_refl eq_refl).
  - apply list_elem_of_here.
  - apply list_elem_of_here.
  - reflexivity.
Defined.

(** ** [analyze_excel_comprehensive.py]: the loop over the sheets *)
Section SheetsLoop.

Import Comprehensive.

Variable py_repr : pyobj → string.

Lemma dict_get_set key key' e d :
  dict_get key (dict_set key' e d) =
    if String.eqb key' key then Some e else dict_get key d.
Proof.
  induction d as [|[k e'] d IH]; cbn.
  - done.
  - destruct (String.eqb_spec k key') as [->|Hk]; cbn.
    + destruct (String.eqb key' key); done.
    + rewrite IH. destruct (String.eqb_spec k key) as [->|Hk'].
      * destruct (String.eqb_spec key' key) as [->|]; done.
      * done.
Qed.

Lemma sheet_step_sheets w name st :
  sheets (sheet_step py_repr w name st) = dict_set name (entry_of w name) (sheets st).
Proof.
  unfold sheet_step, entry_of.
  destruct (read_excel w name) as [df|e]; [|done].
  destruct (analyze_df df) as [a|e]; done.
Qed.

(** After the loop, each sheet visited has the entry of its own
    analysis, and the other keys are as before. *)
Lemma sheets_loop_get w names : ∀ st name,
  dict_get name (sheets (sheets_loop py_repr w names st)) =
    if decide (name ∈ names) then Some (entry_of w name)
    else dict_get name (sheets st).
Proof.
  induction names as [|n names IH]; intros st name.
  - cbn. rewrite decide_False; [done|]. apply not_elem_of_nil.
  - cbn [sheets_loop]. rewrite IH.
    destruct (decide (name ∈ names)) as [Hin|Hnin].
    + rewrite decide_True; [done|]. by right.
    + rewrite sheet_step_sheets, dict_get_set.
      destruct (String.eqb_spec n name) as [->|Hne].
      * rewrite decide_True; [done|]. by left.
      * rewrite decide_False; [done|].
        intros [->|?]%elem_of_cons; done.
Qed.

Lemma run_sheets_get w names name :
  dict_get name (sheets (run_sheets py_repr w names)) =
    if decide (name ∈ names) then Some (entry_of w name) else None.
Proof. unfold run_sheets. by rewrite sheets_loop_get. Qed.

End SheetsLoop.



(** ** [analyze_excel_comprehensive.py]: how the run ends *)
Section ExitStatus.

Import Comprehensive.

Variable float_repr : float → string.
Variable py_repr : pyobj → string.

Lemma main_missing_file w :
  path_exists w = false →
  main float_repr py_repr w =
    {| stdout := ["Error: File not found at " +:+ excel_path];
       exit_status := 1;
       output_file := Untouched |}.
Proof. intros Hp. unfold main. by rewrite Hp. Qed.

Lemma main_completes w names u text :
  path_exists w = true →
  load_workbook w = Ok names →
  open_output w = Ok u →
  Json.dumps float_repr false false
    (analysis_obj names (sheets (run_sheets py_repr w names))) = Ok text →
  exit_status (main float_repr py_repr w) = 0 ∧
  output_file (main float_repr py_repr w) = Complete text.
Proof.
  intros Hp Hl Ho Hd. unfold main. rewrite Hp, Hl, Ho. cbn [negb]. by rewrite Hd.
Qed.

Lemma main_exit_0 w :
  exit_status (main float_repr py_repr w) = 0 →
  path_exists w = true ∧
  ∃ names u text,
    load_workbook w = Ok names ∧ open_output w = Ok u ∧
    Json.dumps float_repr false false
      (analysis_obj names (sheets (run_sheets py_repr w names))) = Ok text.
Proof.
  unfold main. destruct (path_exists w); [|discriminate]. cbn [negb].
  destruct (load_workbook w) as [names|e]; [|discriminate].
  destruct (open_output w) as [u|e]; [|discriminate].
  destruct (Json.dumps _ _ _ _) as [text|e] eqn:Hd; [|discriminate].
  intros _. split; [done|]. by exists names, u, text.
Qed.

Lemma main_exit_status w :
  exit_status (main float_repr py_repr w) = 0 ∨
  exit_status (main float_repr py_repr w) = 1.
Proof.
  unfold main. destruct (path_exists w); [|by right]. cbn [negb].
  destruct (load_workbook w) as [names|e]; [|by right].
  destruct (open_output w) as [u|e]; [|by right].
  destruct (Json.dumps _ _ _ _) as [text|e]; [by left | by right].
Qed.

End ExitStatus.

(** C5. Missing input file: when the input path does not
    exist, the comprehensive script prints its error message, ends with
    exit status 1 and writes no output file. When the file exists, the
    run ends with status 0 and the JSON written exactly when the
    workbook loads, the output file can be opened and the analysis can
    be serialised; otherwise it ends with status 1. *)
Theorem missing_file_exits_1
    (float_repr : float → string) (py_repr : pyobj → string)
    (w : Comprehensive.world) :
  (Comprehensive.path_exists w = false →
     Comprehensive.main float_repr py_repr w =
       {| Comprehensive.stdout :=
            ["Error: File not found at " +:+ Comprehensive.excel_path];
          Comprehensive.exit_status := 1;
          Comprehensive.output_file := Comprehensive.Untouched |}) ∧
  (Comprehensive.path_exists w = true →
     ∀ names u text,
       Comprehensive.load_workbook w = Ok names →
       Comprehensive.open_output w = Ok u →
       Json.dumps float_repr false false
         (Comprehensive.analysis_obj names
            (Comprehensive.sheets (Comprehensive.run_sheets py_repr w names)))
         = Ok text →
       Comprehensive.exit_status (Comprehensive.main float_repr py_repr w) = 0 ∧
       Comprehensive.output_file (Comprehensive.main float_repr py_repr w)
         = Comprehensive.Complete text) ∧
  (Comprehensive.exit_status (Comprehensive.main float_repr py_repr w) = 0 →
     Comprehensive.path_exists w = true ∧
     ∃ names u text,
       Comprehensive.load_workbook w = Ok names ∧
       Comprehensive.open_output w = Ok u ∧
       Json.dumps float_repr false false
         (Comprehensive.analysis_obj names
            (Comprehensive.sheets (Comprehensive.run_sheets py_repr w names)))
         = Ok text) ∧
  (Comprehensive.exit_status (Comprehensive.main float_repr py_repr w) = 0 ∨
   Comprehensive.exit_status (Comprehensive.main float_repr py_repr w) = 1).
Proof.
  split_and!.
  - apply main_missing_file.
  - intros Hp names u text. by apply main_completes.
  - apply main_exit_0.
  - apply main_exit_status.
Qed.

(** Two runs on a file that exists which end with status 1, not 0: the
    file is not a workbook and loading it raises; or the workbook has a
    date among the sampled cells of a text column, which [json.dump]
    cannot serialise, and the output file is left incomplete. *)
Lemma existing_file_can_exit_1 :
  (Comprehensive.path_exists corrupt_file_world = true ∧
   Comprehensive.exit_status
     (Comprehensive.main float_elided repr_elided corrupt_file_world) = 1 ∧
   Comprehensive.exit_status
     (Comprehensive.main float_elided repr_elided corrupt_file_world) ≠ 0) ∧
  (Comprehensive.path_exists dated_world = true ∧
   Comprehensive.load_workbook dated_world = Ok ["Stock"] ∧
   Comprehensive.exit_status
     (Comprehensive.main float_elided repr_elided dated_world) = 1 ∧
   Comprehensive.output_file
     (Comprehensive.main float_elided repr_elided dated_world)
     = Comprehensive.Incomplete).
Proof.
  split; split_and!; try reflexivity. discriminate.
Qed.

Lemma missing_file_exits_1_witness :
  Comprehensive.main float_elided repr_elided missing_file_world =
    {| Comprehensive.stdout :=
         ["Error: File not found at " +:+ Comprehensive.excel_path];
       Comprehensive.exit_status := 1;
       Comprehensive.output_file := Comprehensive.Untouched |} ∧
  Comprehensive.exit_status
    (Comprehensive.main float_elided repr_elided three_sheet_world) = 0.
Proof.
  split.
  - apply (missing_file_exits_1 float_elided repr_elided missing_file_world).
    reflexivity.
  - destruct (missing_file_exits_1 float_elided repr_elided three_sheet_world)
      as (_ & Hrun & _).
    edestruct (Hrun eq_refl) as [Hexit _]; [reflexivity | reflexivity | | exact Hexit].
    vm_compute. reflexivity.
Defined.

(** ** Runs of [analyze_excel.py] under two iteration orders *)
Section SetOrder.

Import AnalyzeExcel.

Variables set_iter1 set_iter2 : PySet.t → list string.
Hypothesis iter1_ok : PySet.iter_ok set_iter1.
Hypothesis iter2_ok : PySet.iter_ok set_iter2.

Lemma single_kind_types ws h c :
  (∀ l1 l2, observed ws h c l1 → observed ws h c l2 → l1 = l2) →
  set_iter1 (column_kinds ws h c) = set_iter2 (column_kinds ws h c) ∨
  column_kinds ws h c = [].
Proof.
  intros Hone. destruct (column_kinds_spec ws h c) as [Hnd Hel].
  destruct (column_kinds ws h c) as [|k [|k' ks]] eqn:Hk; [by right| |].
  - left. pose proof (iter1_ok [k] Hnd) as H1. pose proof (iter2_ok [k] Hnd) as H2.
    apply Permutation_singleton_r in H1, H2. by rewrite H1, H2.
  - exfalso. assert (k = k') as ->.
    { apply Hone; apply Hel; [left | right; left]. }
    apply NoDup_cons_1_1 in Hnd. apply Hnd. left.
Qed.

Lemma sheet_info_of_order name ws hdrs h n :
  (∀ c l1 l2, 1 ≤ c ≤ max_column ws →
     observed ws h c l1 → observed ws h c l2 → l1 = l2) →
  sheet_info_of set_iter1 name ws hdrs h n = sheet_info_of set_iter2 name ws hdrs h n.
Proof.
  intros Hone. unfold sheet_info_of. f_equal.
  apply list_fmap_ext. intros i c Hc%lookup_seq. f_equal.
  destruct (single_kind_types ws h c) as [->| ->]; [|done..].
  intros l1 l2. apply Hone. lia.
Qed.

Lemma analyze_sheet_order wb name n :
  (∀ ws, get_sheet wb name = Ok ws → single_kind_columns ws) →
  analyze_sheet set_iter1 wb name n = analyze_sheet set_iter2 wb name n.
Proof.
  intros Hone. destruct (get_sheet wb name) as [ws|e] eqn:Hws.
  - destruct (locate_header_total ws 10) as (hdrs & h & Hloc & _).
    rewrite !(analyze_sheet_ok _ wb name n ws hdrs h Hws Hloc).
    f_equal. apply sheet_info_of_order. intros c l1 l2 Hc.
    by apply (Hone ws eq_refl hdrs h c l1 l2 Hloc).
  - unfold analyze_sheet. by rewrite Hws.
Qed.

End SetOrder.

(** C7. Determinism: what [analyze_excel.py] prints is a
    function of the workbook and of the order in which the interpreter
    iterates over the sets of kind labels. Two runs on the same workbook
    print the same texts, whatever these orders are, when every column
    of the "msme" and "charter" sheets shows at most one kind of value
    in its window. *)
Theorem output_same_when_columns_single_kind
    (set_iter1 set_iter2 : PySet.t → list string)
    (float_repr : float → string) (wb : workbook) :
  PySet.iter_ok set_iter1 →
  PySet.iter_ok set_iter2 →
  (∀ name ws, name ∈ ["msme"; "charter"] → get_sheet wb name = Ok ws →
     single_kind_columns ws) →
  AnalyzeExcel.main set_iter1 float_repr wb = AnalyzeExcel.main set_iter2 float_repr wb.
Proof.
  intros Hiter1 Hiter2 Hone. unfold AnalyzeExcel.main.
  rewrite (analyze_sheet_order set_iter1 set_iter2 Hiter1 Hiter2 wb "msme" 3).
  - rewrite (analyze_sheet_order set_iter1 set_iter2 Hiter1 Hiter2 wb "charter" 3).
    + reflexivity.
    + intros ws. apply Hone. apply list_elem_of_further, list_elem_of_here.
  - intros ws. apply Hone. apply list_elem_of_here.
Qed.

Lemma reverse_order_ok : PySet.iter_ok reverse_order.
Proof. intros s _. apply reverse_Permutation. Qed.

Lemma output_same_when_columns_single_kind_witness :
  AnalyzeExcel.main insertion_order float_elided gap_workbook =
  AnalyzeExcel.main reverse_order float_elided gap_workbook.
Proof.
  apply (output_same_when_columns_single_kind insertion_order reverse_order
           float_elided gap_workbook insertion_order_ok reverse_order_ok).
  intros name ws Hname Hws hdrs h c l1 l2 Hloc Hc
    (r1 & (Ha1 & Hb1 & Hc1) & _ & <-) (r2 & (Ha2 & Hb2 & Hc2) & _ & <-).
  apply elem_of_cons in Hname as [->|Hname];
    [|apply elem_of_cons in Hname as [->|Hname]; [|by apply elem_of_nil in Hname]];
    vm_compute in Hws; injection Hws as <-;
    vm_compute in Hloc; injection Hloc as <- <-;
    cbn in Hc1, Hc2; assert (r1 = r2) as -> by lia; reflexivity.
Defined.

(** Two runs on the same five-row "msme" workbook print different texts
    when the interpreter iterates over the set of the kinds ["str"] and
    ["int"] of the first column in the two possible orders. *)
Lemma set_order_changes_output :
  PySet.iter_ok insertion_order ∧ PySet.iter_ok reverse_order ∧
  ∀ float_repr,
    AnalyzeExcel.main insertion_order float_repr five_row_workbook ≠
    AnalyzeExcel.main reverse_order float_repr five_row_workbook.
Proof.
  split; [apply insertion_order_ok|]. split; [apply reverse_order_ok|].
  intros float_repr Heq. vm_compute in Heq. discriminate Heq.
Qed.

(** * Further properties *)

(** ** When [json.dumps] raises *)
Section Serialisable.

Lemma pyobj_nested_ind (P : pyobj → Prop) :
  (∀ v, P (OVal v)) →
  (∀ items, Forall P items → P (OList items)) →
  (∀ entries, Forall (λ kv, P kv.2) entries → P (ODict entries)) →
  ∀ o, P o.
Proof.
  intros Hval Hlist Hdict. fix IH 1. intros [v|items|entries].
  - apply Hval.
  - apply Hlist. induction items as [|o items IHitems]; constructor; [apply IH | exact IHitems].
  - apply Hdict. induction entries as [|[k o] entries IHentries]; constructor;
      [apply IH | exact IHentries].
Qed.

Lemma returns_bind {A B} (m : result A) (k : A → result B) :
  returns (bind m k) ↔ ∃ a, m = Ok a ∧ returns (k a).
Proof.
  unfold returns. destruct m as [a|e]; cbn; split.
  - intros [b Hb]. exists a. split; [done|]. by exists b.
  - intros (a' & Ha & Hk). by injection Ha as <-.
  - intros [b Hb]. discriminate.
  - intros (a & Ha & _). discriminate.
Qed.

Lemma returns_Ok {A} (a : A) : returns (Ok a).
Proof. by exists a. Qed.

Lemma returns_then_Ok {A B} (m : result A) (f : A → B) :
  returns (a <- m ;; Ok (f a)) ↔ returns m.
Proof.
  rewrite returns_bind. split.
  - intros (a & Ha & _). by exists a.
  - intros [a Ha]. exists a. split; [done | apply returns_Ok].
Qed.

Lemma for_each_returns {A B} (f : A → result B) (l : list A) :
  returns (for_each f l) ↔ Forall (λ x, returns (f x)) l.
Proof.
  induction l as [|x l IH]; cbn.
  - split; [constructor | by eexists].
  - rewrite Forall_cons, <- IH. unfold returns. split.
    + intros [ys Hys]. destruct (f x) as [y|e]; [|discriminate]. cbn in Hys.
      destruct (for_each f l) as [ys'|e]; [|discriminate]. eauto.
    + intros [[y ->] [ys ->]]. cbn. eauto.
Qed.

Variable float_repr : float → string.
Variables default_str ensure_ascii : bool.

Lemma encode_value_returns v :
  returns (Json.encode_value float_repr default_str ensure_ascii v) ↔
  json_native v || default_str = true.
Proof.
  unfold returns. destruct v as [|[]| | | |t|t|d]; cbn; try (split; [done | by eexists]).
  all: destruct default_str; split; try done; [by eexists | by intros [? ?]].
Qed.

Lemma encode_key_returns k :
  returns (Json.encode_key float_repr k) ↔ json_native k = true.
Proof.
  unfold returns. destruct k as [|[]| | | |t|t|d]; cbn; try (split; [done | by eexists]).
  all: split; [by intros [? ?] | done].
Qed.

(** [json.dumps] returns exactly on the serialisable objects. *)
Lemma encode_returns o : ∀ level,
  returns (Json.encode float_repr default_str ensure_ascii level o) ↔
  serialisable default_str o = true.
Proof.
  induction o as [v|items IH|entries IH] using pyobj_nested_ind; intros level.
  - apply encode_value_returns.
  - cbn [Json.encode serialisable]. rewrite forallb_forall.
    transitivity (returns (for_each
      (Json.encode float_repr default_str ensure_ascii (level + 1)) items)).
    { apply returns_then_Ok. }
    rewrite for_each_returns, Forall_forall. rewrite Forall_forall in IH.
    split.
    + intros H o Ho%list_elem_of_In. apply (IH o Ho (level + 1)). by apply H.
    + intros H o Ho. apply (IH o Ho (level + 1)). apply H. by apply list_elem_of_In.
  - cbn [Json.encode serialisable]. rewrite forallb_forall.
    match goal with |- returns (bind ?m _) ↔ _ => transitivity (returns m) end.
    { apply returns_then_Ok. }
    rewrite for_each_returns, Forall_forall. rewrite Forall_forall in IH.
    assert (∀ kv : value * pyobj, kv ∈ entries →
              (returns (k <- Json.encode_key float_repr kv.1 ;;
                        s <- Json.encode float_repr default_str ensure_ascii (level + 1) kv.2 ;;
                        Ok (Json.encode_str ensure_ascii k +:+ ": " +:+ s))
               ↔ json_native kv.1 && serialisable default_str kv.2 = true)) as Hkv.
    { intros kv Hin. rewrite andb_true_iff, <- encode_key_returns, <- (IH kv Hin (level + 1)).
      rewrite returns_bind. split.
      - intros (k & Hk & Hrest). apply returns_then_Ok in Hrest.
        split; [by exists k | done].
      - intros [[k Hk] Henc]. exists k. split; [done|]. by apply returns_then_Ok. }
    split.
    + intros H kv Hin. apply list_elem_of_In in Hin. apply Hkv; [done|]. by apply H.
    + intros H kv Hin. apply Hkv; [done|]. apply H. by apply list_elem_of_In.
Qed.

Lemma dumps_returns o :
  returns (Json.dumps float_repr default_str ensure_ascii o) ↔
  serialisable default_str o = true.
Proof. apply encode_returns. Qed.

End Serialisable.

(** ** [analyze_excel.py]: what [analyze_sheet] returns *)
Section AnalyzeSheetMore.

Import AnalyzeExcel.

Lemma get_sheet_spec wb name :
  (name ∈ sheetnames wb → ∃ ws, get_sheet wb name = Ok ws ∧ (name, ws) ∈ wb) ∧
  (name ∉ sheetnames wb →
     get_sheet wb name = Raise (KeyError ("Worksheet " +:+ name +:+ " does not exist."))).
Proof.
  unfold sheetnames. induction wb as [|[n ws] wb [IHin IHout]]; cbn.
  - split; [by intros ?%elem_of_nil | done].
  - destruct (String.eqb_spec n name) as [->|Hne]; split.
    + intros _. exists ws. split; [done | left].
    + intros Hnin. exfalso. apply Hnin. left.
    + intros [->|Hin]%elem_of_cons; [done|].
      destruct (IHin Hin) as (ws' & Hws' & Hin'). exists ws'. split; [done | by right].
    + intros Hnin. apply IHout. intros Hin. apply Hnin. by right.
Qed.

Lemma get_sheet_returns wb name :
  returns (get_sheet wb name) ↔ name ∈ sheetnames wb.
Proof.
  destruct (get_sheet_spec wb name) as [Hin Hout]. split.
  - intros [ws Hws]. destruct (decide (name ∈ sheetnames wb)) as [|Hnin]; [done|].
    rewrite (Hout Hnin) in Hws. discriminate.
  - intros H. destruct (Hin H) as (ws & Hws & _). by exists ws.
Qed.

End AnalyzeSheetMore.


(** X2. The sample rows of [analyze_sheet] are the rows with a value
    among the [max_data_rows] rows below the header row that lie in the
    sheet, each with one cell per column: there are at most
    [max_data_rows] of them, none is the header row or a row past the
    end of the sheet, and an empty row is skipped, not replaced by a
    later one. *)
Theorem sample_rows_are_rows_below_header
    (set_iter : PySet.t → list string) (wb : workbook) (name : string)
    (max_data_rows : nat) (ws : worksheet) :
  get_sheet wb name = Ok ws →
  ∃ info hdrs h,
    AnalyzeExcel.locate_header ws 10 = Ok (hdrs, h) ∧
    AnalyzeExcel.analyze_sheet set_iter wb name max_data_rows = Ok info ∧
    length (AnalyzeExcel.sample_rows info) ≤ max_data_rows ∧
    (∀ sample, sample ∈ AnalyzeExcel.sample_rows info ↔
       ∃ r, h < r ≤ h + max_data_rows ∧ r ≤ max_row ws ∧
            row_nonempty ws r ∧ sample = row_cells ws r) ∧
    Forall (λ sample, length sample = max_column ws) (AnalyzeExcel.sample_rows info).
Proof.
  intros Hws.
  destruct (analyze_sheet_total set_iter wb name max_data_rows ws Hws)
    as (hdrs & h & Hloc & Hh & Hinfo).
  exists (sheet_info_of set_iter name ws hdrs h max_data_rows), hdrs, h.
  split_and!; [done..| | |]; cbn [sheet_info_of AnalyzeExcel.sample_rows];
    unfold rows_with_value.
  - etrans; [apply length_filter|]. rewrite length_fmap. unfold py_range.
    rewrite length_seq. lia.
  - intros sample. rewrite list_elem_of_filter, list_elem_of_fmap. split.
    + intros (Hany & r & -> & Hr%elem_of_seq). exists r.
      split_and!; [lia..| |done]. by apply row_has_value_spec.
    + intros (r & Hr & Hmax & Hne & ->). split; [by apply row_has_value_spec|].
      exists r. split; [done|]. unfold py_range. apply elem_of_seq. lia.
  - apply Forall_forall. intros sample [_ Hin]%list_elem_of_filter.
    apply list_elem_of_fmap in Hin as (r & -> & _).
    unfold row_cells. by rewrite length_fmap, length_seq.
Qed.

Lemma sample_rows_are_rows_below_header_witness :
  ∃ info hdrs h,
    AnalyzeExcel.locate_header msme_five_rows 10 = Ok (hdrs, h) ∧
    AnalyzeExcel.analyze_sheet insertion_order five_row_workbook "msme" 3 = Ok info ∧
    length (AnalyzeExcel.sample_rows info) ≤ 3 ∧
    (∀ sample, sample ∈ AnalyzeExcel.sample_rows info ↔
       ∃ r, h < r ≤ h + 3 ∧ r ≤ max_row msme_five_rows ∧
            row_nonempty msme_five_rows r ∧ sample = row_cells msme_five_rows r) ∧
    Forall (λ sample, length sample = max_column msme_five_rows)
      (AnalyzeExcel.sample_rows info).
Proof.
  exact (sample_rows_are_rows_below_header insertion_order five_row_workbook
           "msme" 3 msme_five_rows eq_refl).
Defined.

(** X3. The name of a column in [column_types] is never empty: it is the
    header cell of the column when that cell is true for Python, and the
    placeholder [Column_<index>] otherwise, that is for a header cell
    that is [None], the empty text, zero or [False]. *)
Theorem column_type_name_is_header_or_placeholder
    (set_iter : PySet.t → list string) (wb : workbook) (name : string)
    (max_data_rows : nat) (ws : worksheet) (c : nat) :
  get_sheet wb name = Ok ws →
  1 ≤ c ≤ max_column ws →
  ∃ info hdrs h ct,
    AnalyzeExcel.locate_header ws 10 = Ok (hdrs, h) ∧
    AnalyzeExcel.analyze_sheet set_iter wb name max_data_rows = Ok info ∧
    AnalyzeExcel.column_types info !! (c - 1) = Some ct ∧
    truthy (AnalyzeExcel.column ct) = true ∧
    (truthy (cells ws h c) = true → AnalyzeExcel.column ct = cells ws h c) ∧
    (truthy (cells ws h c) = false →
       AnalyzeExcel.column ct = VStr ("Column_" +:+ pretty c)).
Proof.
  intros Hws Hc.
  destruct (analyze_sheet_total set_iter wb name max_data_rows ws Hws)
    as (hdrs & h & Hloc & Hh & Hinfo).
  eexists _, hdrs, h, _. split_and!; [exact Hloc | exact Hinfo | | | |].
  - cbn. rewrite list_lookup_fmap, lookup_seq_lt by lia.
    cbn. replace (S (c - 1)) with c by lia. reflexivity.
  - cbn [AnalyzeExcel.column]. unfold py_or.
    destruct (truthy (cells ws h c)) eqn:Ht; [exact Ht | reflexivity].
  - intros Ht. cbn [AnalyzeExcel.column]. unfold py_or. by rewrite Ht.
  - intros Ht. cbn [AnalyzeExcel.column]. unfold py_or. by rewrite Ht.
Qed.

Lemma column_type_name_is_header_or_placeholder_witness :
  ∃ info hdrs h ct,
    AnalyzeExcel.locate_header gap_sheet 10 = Ok (hdrs, h) ∧
    AnalyzeExcel.analyze_sheet insertion_order gap_workbook "msme" 3 = Ok info ∧
    AnalyzeExcel.column_types info !! (2 - 1) = Some ct ∧
    truthy (AnalyzeExcel.column ct) = true ∧
    (truthy (cells gap_sheet h 2) = true → AnalyzeExcel.column ct = cells gap_sheet h 2) ∧
    (truthy (cells gap_sheet h 2) = false →
       AnalyzeExcel.column ct = VStr ("Column_" +:+ pretty 2)).
Proof.
  apply (column_type_name_is_header_or_placeholder insertion_order gap_workbook
           "msme" 3 gap_sheet 2 eq_refl).
  cbn. lia.
Defined.

Section ResponseColumns.

Import AnalyzeExcel.

(** The ["columns"] comprehension, entry by entry. *)
Lemma summarize_columns info purpose :
  ∃ s, summarize info purpose = Ok s ∧
       columns s =
         imap (λ i v, {| name := v;
                         data_type := match column_types info !! i with
                                      | Some ct => match types ct with
                                                   | [] => "Unknown" | t :: _ => t end
                                      | None => "Unknown"
                                      end;
                         description := "" |}) (headers info) ∧
       summary_sample_rows s = take 3 (sample_rows info) ∧
       summary_total_rows s = total_rows info.
Proof.
  unfold summarize, py_range. rewrite Nat.sub_0_r.
  erewrite for_each_index.
  - eexists. split; [done|]. cbn. split_and!; reflexivity.
  - intros i v Hi. unfold column_entry_of.
    pose proof (lookup_lt_Some _ _ _ Hi) as Hlt.
    apply Nat.ltb_lt in Hlt. rewrite Hlt. unfold py_index at 1. rewrite Hi.
    cbn [bind]. destruct (Nat.ltb_spec i (length (column_types info))) as [Hlt'|Hge].
    + destruct (lookup_lt_is_Some_2 _ _ Hlt') as [ct Hct].
      unfold py_index at 1. rewrite Hct. cbn [bind].
      destruct (types ct) as [|t ts]; done.
    + rewrite lookup_ge_None_2 by done. done.
Qed.

Lemma type_name_not_unknown v : type_name v ≠ "Unknown".
Proof. by destruct v. Qed.

End ResponseColumns.

(** X4. In the final response of [analyze_excel.py] the ["data_type"] of
    a reported column is the first of the types inferred for that column
    by [analyze_sheet]; under any iteration order of sets the fallback
    ["Unknown"] is never reported, since every reported column has an
    entry of [column_types] and its list of types is never empty. *)
Theorem data_type_is_first_inferred_type
    (set_iter : PySet.t → list string) (wb : workbook) (name : string)
    (max_data_rows : nat) (ws : worksheet) (purpose : string) :
  PySet.iter_ok set_iter →
  get_sheet wb name = Ok ws →
  ∃ info s,
    AnalyzeExcel.analyze_sheet set_iter wb name max_data_rows = Ok info ∧
    AnalyzeExcel.summarize info purpose = Ok s ∧
    ∀ i e, AnalyzeExcel.columns s !! i = Some e →
      ∃ ct, AnalyzeExcel.column_types info !! i = Some ct ∧
            head (AnalyzeExcel.types ct) = Some (AnalyzeExcel.data_type e) ∧
            AnalyzeExcel.data_type e ≠ "Unknown" ∧
            AnalyzeExcel.description e = "".
Proof.
  intros Hiter Hws.
  destruct (analyze_sheet_total set_iter wb name max_data_rows ws Hws)
    as (hdrs & h & Hloc & Hh & Hinfo).
  destruct (summarize_columns (sheet_info_of set_iter name ws hdrs h max_data_rows) purpose)
    as (s & Hs & Hcols & _).
  exists (sheet_info_of set_iter name ws hdrs h max_data_rows), s.
  split_and!; [done..|]. intros i e He. rewrite Hcols in He.
  apply list_lookup_imap_Some in He as (v & Hv & ->).
  cbn [sheet_info_of AnalyzeExcel.headers] in Hv.
  assert (i < max_column ws) as Hi.
  { apply lookup_lt_Some in Hv.
    destruct (headers_by_scan ws hdrs h Hloc) as [(r & _ & Hlen & _)|[_ ->]];
      [lia | cbn in Hv; lia]. }
  cbn [sheet_info_of AnalyzeExcel.column_types AnalyzeExcel.data_type
       AnalyzeExcel.description].
  rewrite list_lookup_fmap, lookup_seq_lt by done. cbn [fmap option_fmap option_map].
  eexists. split; [reflexivity|]. cbn [AnalyzeExcel.types].
  destruct (column_kinds_spec ws h (1 + i)) as [Hnd Hel].
  destruct (column_kinds ws h (1 + i)) as [|k ks] eqn:Hk; cbn [PySet.nonempty].
  - split_and!; done.
  - pose proof (Hiter _ Hnd) as Hperm.
    destruct (set_iter (k :: ks)) as [|t ts] eqn:Ht.
    + by apply Permutation_nil_l in Hperm.
    + split_and!; [done| |done].
      assert (t ∈ k :: ks) as Hin by (rewrite <- Hperm; left).
      apply Hel in Hin as (r & _ & _ & <-). apply type_name_not_unknown.
Qed.

Lemma data_type_is_first_inferred_type_witness :
  ∃ info s,
    AnalyzeExcel.analyze_sheet insertion_order five_row_workbook "msme" 3 = Ok info ∧
    AnalyzeExcel.summarize info "purpose" = Ok s ∧
    ∀ i e, AnalyzeExcel.columns s !! i = Some e →
      ∃ ct, AnalyzeExcel.column_types info !! i = Some ct ∧
            head (AnalyzeExcel.types ct) = Some (AnalyzeExcel.data_type e) ∧
            AnalyzeExcel.data_type e ≠ "Unknown" ∧
            AnalyzeExcel.description e = "".
Proof.
  exact (data_type_is_first_inferred_type insertion_order five_row_workbook "msme" 3
           msme_five_rows "purpose" insertion_order_ok eq_refl).
Defined.

(** ** [analyze_excel.py]: when the script runs to its end *)
Section ExcelMain.

Import AnalyzeExcel.

Lemma all_serialisable {A} d (f : A → pyobj) (l : list A) :
  (∀ x, serialisable d (f x) = true) →
  forallb (serialisable d) (f <$> l) = true.
Proof.
  intros Hf. induction l as [|x l IH]; [done|]. cbn. by rewrite Hf, IH.
Qed.

Lemma serialisable_with_default v : serialisable true (OVal v) = true.
Proof. cbn. apply orb_true_r. Qed.

Lemma sheet_info_serialisable info : serialisable true (sheet_info_obj info) = true.
Proof.
  unfold sheet_info_obj, field, str_obj, int_obj, row_obj.
  cbn [serialisable forallb fst snd json_native negb andb orb].
  rewrite !all_serialisable; [done| | |].
  - intros ct. unfold column_type_obj, field, str_obj.
    cbn [serialisable forallb fst snd json_native negb andb orb].
    rewrite orb_true_r, all_serialisable; done.
  - intros row. cbn [serialisable]. apply all_serialisable, serialisable_with_default.
  - apply serialisable_with_default.
Qed.

Lemma sheet_summary_serialisable s : serialisable true (sheet_summary_obj s) = true.
Proof.
  unfold sheet_summary_obj, field, str_obj, int_obj, row_obj.
  cbn [serialisable forallb fst snd json_native negb andb orb].
  rewrite !all_serialisable; [done| |].
  - intros row. cbn [serialisable]. apply all_serialisable, serialisable_with_default.
  - intros c. unfold column_entry_obj, field, str_obj.
    cbn [serialisable forallb fst snd json_native negb andb orb].
    by rewrite orb_true_r.
Qed.

Lemma response_serialisable r : serialisable true (response_obj r) = true.
Proof.
  unfold response_obj, field.
  cbn [serialisable forallb fst snd json_native negb andb orb].
  rewrite !sheet_summary_serialisable, all_serialisable; done.
Qed.

Lemma sheet_names_serialisable d (names : list string) :
  serialisable d (OList (str_obj <$> names)) = true.
Proof. cbn [serialisable]. by apply all_serialisable. Qed.

Lemma analyze_sheet_missing set_iter wb name n :
  name ∉ sheetnames wb →
  analyze_sheet set_iter wb name n
    = Raise (KeyError ("Worksheet " +:+ name +:+ " does not exist.")).
Proof.
  intros Hnin. unfold analyze_sheet.
  by rewrite (proj2 (get_sheet_spec wb name) Hnin).
Qed.

Lemma analyze_sheet_present set_iter wb name n :
  name ∈ sheetnames wb → ∃ info, analyze_sheet set_iter wb name n = Ok info.
Proof.
  intros Hin. destruct (proj1 (get_sheet_spec wb name) Hin) as (ws & Hws & _).
  destruct (analyze_sheet_total set_iter wb name n ws Hws) as (hdrs & h & _ & _ & Hinfo).
  eauto.
Qed.

End ExcelMain.

(** X5. [analyze_excel.py] runs to its end exactly when the workbook has
    both a sheet "msme" and a sheet "charter": with both it prints its
    thirteen texts whatever the cells hold, dates included (every dump is
    given [default=str]); without one of them the lookup of the sheet
    raises [KeyError] and nothing of the final response is printed. *)
Theorem excel_script_completes_iff_both_sheets
    (set_iter : PySet.t → list string) (float_repr : float → string)
    (wb : workbook) :
  ("msme" ∈ sheetnames wb ∧ "charter" ∈ sheetnames wb ↔
   ∃ texts, AnalyzeExcel.main set_iter float_repr wb = Ok texts ∧ length texts = 13) ∧
  ("msme" ∉ sheetnames wb →
   AnalyzeExcel.main set_iter float_repr wb
     = Raise (KeyError "Worksheet msme does not exist.")) ∧
  ("msme" ∈ sheetnames wb → "charter" ∉ sheetnames wb →
   AnalyzeExcel.main set_iter float_repr wb
     = Raise (KeyError "Worksheet charter does not exist.")).
Proof.
  assert (∃ t0, Json.dumps float_repr false true
                  (OList (AnalyzeExcel.str_obj <$> sheetnames wb)) = Ok t0) as [t0 Ht0].
  { apply dumps_returns, sheet_names_serialisable. }
  assert (∀ info, ∃ t, Json.dumps float_repr true true
                         (AnalyzeExcel.sheet_info_obj info) = Ok t) as Hinfo.
  { intros info. apply dumps_returns, sheet_info_serialisable. }
  assert ("msme" ∉ sheetnames wb →
          AnalyzeExcel.main set_iter float_repr wb
            = Raise (KeyError "Worksheet msme does not exist.")) as Hno_msme.
  { intros Hm. unfold AnalyzeExcel.main. rewrite Ht0. cbn [bind].
    by rewrite (analyze_sheet_missing set_iter wb "msme" 3 Hm). }
  assert ("msme" ∈ sheetnames wb → "charter" ∉ sheetnames wb →
          AnalyzeExcel.main set_iter float_repr wb
            = Raise (KeyError "Worksheet charter does not exist.")) as Hno_charter.
  { intros Hm Hc. unfold AnalyzeExcel.main. rewrite Ht0. cbn [bind].
    destruct (analyze_sheet_present set_iter wb "msme" 3 Hm) as [mi ->]. cbn [bind].
    destruct (Hinfo mi) as [t1 ->]. cbn [bind].
    by rewrite (analyze_sheet_missing set_iter wb "charter" 3 Hc). }
  split_and!; [|done..]. split.
  - intros [Hm Hc]. unfold AnalyzeExcel.main. rewrite Ht0. cbn [bind].
    destruct (analyze_sheet_present set_iter wb "msme" 3 Hm) as [mi ->]. cbn [bind].
    destruct (Hinfo mi) as [t1 ->]. cbn [bind].
    destruct (analyze_sheet_present set_iter wb "charter" 3 Hc) as [ci ->]. cbn [bind].
    destruct (Hinfo ci) as [t2 ->]. cbn [bind].
    destruct (summarize_ok mi "Information about incentive schemes for MSMEs in Tamil Nadu")
      as (sm & -> & _). cbn [bind].
    destruct (summarize_ok ci "Government schemes and programs charter information")
      as (sc & -> & _). cbn [bind].
    match goal with
    | |- context [Json.dumps float_repr true true ?o] =>
        destruct (proj2 (dumps_returns float_repr true true o)
                    (response_serialisable _)) as [t3 ->]
    end.
    cbn [bind]. eexists. split; reflexivity.
  - intros (texts & Hmain & _).
    destruct (decide ("msme" ∈ sheetnames wb)) as [Hm|Hm];
      [|rewrite (Hno_msme Hm) in Hmain; discriminate].
    destruct (decide ("charter" ∈ sheetnames wb)) as [Hc|Hc];
      [done | rewrite (Hno_charter Hm Hc) in Hmain; discriminate].
Qed.

Lemma excel_script_completes_iff_both_sheets_witness :
  ∃ texts, AnalyzeExcel.main insertion_order float_elided five_row_workbook = Ok texts ∧
           length texts = 13.
Proof.
  apply (excel_script_completes_iff_both_sheets insertion_order float_elided
           five_row_workbook).
  split; [apply list_elem_of_here | apply list_elem_of_further, list_elem_of_here].
Defined.

(** ** [analyze_excel_final.py]: counts and samples *)
Section FinalMore.

Import AnalyzeFinal.

Lemma count_loop_ok ws rows : ∀ count,
  Forall (λ r, 1 ≤ r) rows →
  count_loop ws rows count = Ok (count + length (rows_with_value ws rows)).
Proof.
  unfold rows_with_value.
  induction rows as [|r rows IH]; intros count Hrows.
  - cbn. f_equal. lia.
  - inversion Hrows as [|?? Hr Hrows']; subst.
    cbn [count_loop]. rewrite row_data_ok by done. cbn [bind].
    rewrite IH by done. rewrite fmap_cons, filter_cons.
    destruct (py_any _ _) eqn:Hany.
    + rewrite decide_True by done. cbn [length]. f_equal. lia.
    + rewrite decide_False by congruence. done.
Qed.

(** Everything [gather] collects from a sheet. *)
Lemma gather_exact wb sheet lay ws :
  layout_ok lay →
  get_sheet wb sheet = Ok ws →
  gather wb sheet lay =
    Ok {| g_title := cells ws 1 1;
          g_headers := nonempty_cells (row_cells ws (header_row lay));
          g_samples :=
            filter (λ rd, py_any is_not_none rd = true)
              ((λ r, first_cells ws r
                       (length (nonempty_cells (row_cells ws (header_row lay))))) <$>
                 filter (λ r, r ≤ max_row ws) (sample_idx lay));
          g_data_rows :=
            length (rows_with_value ws (py_range (data_start lay) (max_row ws + 1))) |}.
Proof.
  intros (Hh & Hd & Hs) Hws. unfold gather. rewrite Hws. cbn [bind].
  rewrite cell_value_ok by lia. cbn [bind].
  rewrite collect_headers_ok by done. cbn [bind].
  rewrite samples_loop_ok by done. cbn [bind app].
  rewrite count_loop_ok by (by apply py_range_pos). cbn [bind]. done.
Qed.

Lemma summarize_exact sheet lay g :
  summarize sheet lay g =
    Ok {| sheet_name := sheet;
          title := g_title g;
          columns := imap (λ i v, {| name := v; data_type := col_data_type lay;
                                     description := col_description lay i |})
                          (g_headers g);
          sample_rows := take 2 (g_samples g);
          total_rows := g_data_rows g;
          total_columns := length (g_headers g);
          key_purpose := purpose lay |}.
Proof. unfold summarize. by rewrite columns_of_ok. Qed.

Lemma length_rows_with_value ws rows :
  length (rows_with_value ws rows) ≤ length rows.
Proof.
  unfold rows_with_value. etrans; [apply length_filter|]. by rewrite length_fmap.
Qed.

End FinalMore.

(** X6. In [analyze_excel_final.py] the ["total_rows"] of a sheet is the
    number of rows with a value from the data start row (3 for "msme",
    4 for "charter") to the last row of the sheet, so it leaves out the
    title and header rows and every empty row and is at most
    [max_row - 2] (resp. [max_row - 3]); ["total_columns"] is the number
    of reported columns. *)
Theorem final_totals_count_data_rows
    (wb : workbook) (ws_msme ws_charter : worksheet) :
  get_sheet wb "msme" = Ok ws_msme →
  get_sheet wb "charter" = Ok ws_charter →
  ∃ resp, AnalyzeFinal.build_response wb = Ok resp ∧
    AnalyzeFinal.total_rows (AnalyzeFinal.msme_sheet resp)
      = length (rows_with_value ws_msme (py_range 3 (max_row ws_msme + 1))) ∧
    AnalyzeFinal.total_rows (AnalyzeFinal.msme_sheet resp) ≤ max_row ws_msme - 2 ∧
    AnalyzeFinal.total_rows (AnalyzeFinal.charter_sheet resp)
      = length (rows_with_value ws_charter (py_range 4 (max_row ws_charter + 1))) ∧
    AnalyzeFinal.total_rows (AnalyzeFinal.charter_sheet resp) ≤ max_row ws_charter - 3 ∧
    AnalyzeFinal.total_columns (AnalyzeFinal.msme_sheet resp)
      = length (AnalyzeFinal.columns (AnalyzeFinal.msme_sheet resp)) ∧
    AnalyzeFinal.total_columns (AnalyzeFinal.charter_sheet resp)
      = length (AnalyzeFinal.columns (AnalyzeFinal.charter_sheet resp)).
Proof.
  intros Hm Hc. unfold AnalyzeFinal.build_response.
  rewrite (gather_exact wb "msme" _ ws_msme msme_layout_ok Hm). cbn [bind].
  rewrite (gather_exact wb "charter" _ ws_charter charter_layout_ok Hc). cbn [bind].
  rewrite !summarize_exact. cbn [bind].
  eexists. split; [reflexivity|].
  cbn [AnalyzeFinal.msme_sheet AnalyzeFinal.charter_sheet AnalyzeFinal.total_rows
       AnalyzeFinal.total_columns AnalyzeFinal.columns AnalyzeFinal.g_data_rows
       AnalyzeFinal.g_headers AnalyzeFinal.data_start AnalyzeFinal.msme_layout
       AnalyzeFinal.charter_layout].
  split_and!; [done | | done | | |].
  - etrans; [apply length_rows_with_value|]. unfold py_range. rewrite length_seq. lia.
  - etrans; [apply length_rows_with_value|]. unfold py_range. rewrite length_seq. lia.
  - by rewrite length_imap.
  - by rewrite length_imap.
Qed.

Lemma final_totals_count_data_rows_witness :
  ∃ resp, AnalyzeFinal.build_response five_row_workbook = Ok resp ∧
    AnalyzeFinal.total_rows (AnalyzeFinal.msme_sheet resp)
      = length (rows_with_value msme_five_rows (py_range 3 (max_row msme_five_rows + 1))) ∧
    AnalyzeFinal.total_rows (AnalyzeFinal.msme_sheet resp) ≤ max_row msme_five_rows - 2 ∧
    AnalyzeFinal.total_rows (AnalyzeFinal.charter_sheet resp)
      = length (rows_with_value charter_example (py_range 4 (max_row charter_example + 1))) ∧
    AnalyzeFinal.total_rows (AnalyzeFinal.charter_sheet resp) ≤ max_row charter_example - 3 ∧
    AnalyzeFinal.total_columns (AnalyzeFinal.msme_sheet resp)
      = length (AnalyzeFinal.columns (AnalyzeFinal.msme_sheet resp)) ∧
    AnalyzeFinal.total_columns (AnalyzeFinal.charter_sheet resp)
      = length (AnalyzeFinal.columns (AnalyzeFinal.charter_sheet resp)).
Proof.
  exact (final_totals_count_data_rows five_row_workbook msme_five_rows charter_example
           eq_refl eq_refl).
Defined.

(** X7. In [analyze_excel_final.py] the sample rows of a sheet are at
    most two; each is a row of the sheet among the rows the script
    names (3, 5, 10 for "msme"; 4, 6, 8 for "charter"), cut to its first
    [k] cells where [k] is the number of reported columns, and has a
    value among these cells. A row is thus cut by the count of the
    headers, not by their positions. *)
Theorem final_samples_are_named_rows_cut_to_headers
    (wb : workbook) (ws_msme ws_charter : worksheet) :
  get_sheet wb "msme" = Ok ws_msme →
  get_sheet wb "charter" = Ok ws_charter →
  ∃ resp, AnalyzeFinal.build_response wb = Ok resp ∧
    length (AnalyzeFinal.sample_rows (AnalyzeFinal.msme_sheet resp)) ≤ 2 ∧
    length (AnalyzeFinal.sample_rows (AnalyzeFinal.charter_sheet resp)) ≤ 2 ∧
    (∀ sample, sample ∈ AnalyzeFinal.sample_rows (AnalyzeFinal.msme_sheet resp) →
       ∃ r, r ∈ [3; 5; 10] ∧ r ≤ max_row ws_msme ∧
            sample = first_cells ws_msme r
                       (AnalyzeFinal.total_columns (AnalyzeFinal.msme_sheet resp)) ∧
            py_any is_not_none sample = true) ∧
    (∀ sample, sample ∈ AnalyzeFinal.sample_rows (AnalyzeFinal.charter_sheet resp) →
       ∃ r, r ∈ [4; 6; 8] ∧ r ≤ max_row ws_charter ∧
            sample = first_cells ws_charter r
                       (AnalyzeFinal.total_columns (AnalyzeFinal.charter_sheet resp)) ∧
            py_any is_not_none sample = true).
Proof.
  intros Hm Hc. unfold AnalyzeFinal.build_response.
  rewrite (gather_exact wb "msme" _ ws_msme msme_layout_ok Hm). cbn [bind].
  rewrite (gather_exact wb "charter" _ ws_charter charter_layout_ok Hc). cbn [bind].
  rewrite !summarize_exact. cbn [bind].
  eexists. split; [reflexivity|].
  cbn [AnalyzeFinal.msme_sheet AnalyzeFinal.charter_sheet AnalyzeFinal.sample_rows
       AnalyzeFinal.total_columns AnalyzeFinal.g_samples AnalyzeFinal.g_headers
       AnalyzeFinal.sample_idx AnalyzeFinal.header_row AnalyzeFinal.msme_layout
       AnalyzeFinal.charter_layout].
  split_and!.
  - rewrite length_take. lia.
  - rewrite length_take. lia.
  - intros sample (i & Hi & _)%elem_of_take.
    apply list_elem_of_lookup_2, list_elem_of_filter in Hi as [Hany Hin].
    apply list_elem_of_fmap in Hin as (r & -> & [Hr Hin]%list_elem_of_filter).
    by exists r.
  - intros sample (i & Hi & _)%elem_of_take.
    apply list_elem_of_lookup_2, list_elem_of_filter in Hi as [Hany Hin].
    apply list_elem_of_fmap in Hin as (r & -> & [Hr Hin]%list_elem_of_filter).
    by exists r.
Qed.

Lemma final_samples_are_named_rows_cut_to_headers_witness :
  ∃ resp, AnalyzeFinal.build_response five_row_workbook = Ok resp ∧
    length (AnalyzeFinal.sample_rows (AnalyzeFinal.msme_sheet resp)) ≤ 2 ∧
    length (AnalyzeFinal.sample_rows (AnalyzeFinal.charter_sheet resp)) ≤ 2 ∧
    (∀ sample, sample ∈ AnalyzeFinal.sample_rows (AnalyzeFinal.msme_sheet resp) →
       ∃ r, r ∈ [3; 5; 10] ∧ r ≤ max_row msme_five_rows ∧
            sample = first_cells msme_five_rows r
                       (AnalyzeFinal.total_columns (AnalyzeFinal.msme_sheet resp)) ∧
            py_any is_not_none sample = true) ∧
    (∀ sample, sample ∈ AnalyzeFinal.sample_rows (AnalyzeFinal.charter_sheet resp) →
       ∃ r, r ∈ [4; 6; 8] ∧ r ≤ max_row charter_example ∧
            sample = first_cells charter_example r
                       (AnalyzeFinal.total_columns (AnalyzeFinal.charter_sheet resp)) ∧
            py_any is_not_none sample = true).
Proof.
  exact (final_samples_are_named_rows_cut_to_headers five_row_workbook msme_five_rows
           charter_example eq_refl eq_refl).
Defined.

(** ** Dates and [json.dumps] without [default] *)
Section Dates.

Lemma for_each_raises {A B} (f : A → result B) (l : list A) e :
  for_each f l = Raise e → ∃ x, x ∈ l ∧ f x = Raise e.
Proof.
  induction l as [|x l IH]; cbn; [discriminate|].
  destruct (f x) as [y|e'] eqn:Hx; cbn.
  - destruct (for_each f l) as [ys|e'']; cbn; [discriminate|].
    intros [= ->]. destruct (IH eq_refl) as (x' & Hin & Hx'). exists x'.
    split; [by right | done].
  - intros [= ->]. exists x. split; [left | done].
Qed.

(** Whatever [json.dumps] raises is a [TypeError]. *)
Lemma encode_raises float_repr d ea o : ∀ level e,
  Json.encode float_repr d ea level o = Raise e → ∃ msg, e = TypeError msg.
Proof.
  induction o as [v|items IH|entries IH] using pyobj_nested_ind; intros level e.
  - destruct v as [|[]| | | |t|t|td]; cbn; try discriminate.
    all: destruct d; [discriminate|]; intros [= <-]; eauto.
  - cbn [Json.encode].
    destruct (for_each _ items) as [chunks|e'] eqn:Hfor; cbn; [discriminate|].
    intros [= ->]. apply for_each_raises in Hfor as (o & Ho & Hraise).
    rewrite Forall_forall in IH. by apply (IH o Ho (level + 1)).
  - cbn [Json.encode].
    destruct (for_each _ entries) as [chunks|e'] eqn:Hfor; cbn; [discriminate|].
    intros [= ->]. apply for_each_raises in Hfor as ([k o] & Hin & Hraise).
    cbn [fst snd] in Hraise.
    destruct (Json.encode_key float_repr k) as [kt|e'] eqn:Hk; cbn in Hraise.
    + destruct (Json.encode _ _ _ _ o) as [s|e'] eqn:Ho; cbn in Hraise; [discriminate|].
      injection Hraise as ->. rewrite Forall_forall in IH.
      by apply (IH (k, o) Hin (level + 1)).
    + injection Hraise as ->. destruct k as [|[]| | | |t|t|td]; cbn in Hk; try discriminate.
      all: injection Hk as <-; eauto.
Qed.

Lemma forallb_fmap {A B} (p : B → bool) (f : A → B) (l : list A) :
  forallb p (f <$> l) = forallb (p ∘ f) l.
Proof. induction l as [|x l IH]; [done|]. cbn. by rewrite IH. Qed.

Lemma forallb_ext_eq {A} (p q : A → bool) (l : list A) :
  (∀ x, p x = q x) → forallb p l = forallb q l.
Proof. intros Hpq. induction l as [|x l IH]; [done|]. cbn. by rewrite Hpq, IH. Qed.

(** A list of cells can be serialised without [default] when each of
    them is [None], a boolean, a number or text. *)
Lemma cells_serialisable (l : list value) :
  forallb (serialisable false) (OVal <$> l) = all_native l.
Proof.
  rewrite forallb_fmap. apply forallb_ext_eq. intros v. cbn. apply orb_false_r.
Qed.

Lemma rows_serialisable (f : list value → pyobj) (rows : list (list value)) :
  (∀ row, f row = OList (OVal <$> row)) →
  forallb (serialisable false) (f <$> rows) = forallb all_native rows.
Proof.
  intros Hf. rewrite forallb_fmap. apply forallb_ext_eq. intros row. cbn.
  rewrite Hf. cbn [serialisable]. apply cells_serialisable.
Qed.

Lemma final_summary_serialisable s :
  serialisable false (AnalyzeFinal.sheet_summary_obj s) = summary_is_native s.
Proof.
  unfold AnalyzeFinal.sheet_summary_obj, summary_is_native, field,
    AnalyzeFinal.str_obj, AnalyzeFinal.int_obj.
  cbn [serialisable forallb fst snd json_native negb andb orb].
  rewrite (rows_serialisable AnalyzeFinal.row_obj) by done.
  rewrite orb_false_r, !andb_true_r.
  replace (forallb (serialisable false)
             (AnalyzeFinal.column_entry_obj <$> AnalyzeFinal.columns s))
    with (all_native (AnalyzeFinal.name <$> AnalyzeFinal.columns s)).
  - by rewrite andb_assoc.
  - unfold all_native. rewrite !forallb_fmap. apply forallb_ext_eq. intros c.
    unfold AnalyzeFinal.column_entry_obj, field, AnalyzeFinal.str_obj. cbn.
    by rewrite orb_false_r, andb_true_r.
Qed.

Lemma final_response_serialisable r :
  serialisable false (AnalyzeFinal.response_obj r) =
    summary_is_native (AnalyzeFinal.msme_sheet r) &&
    summary_is_native (AnalyzeFinal.charter_sheet r).
Proof.
  unfold AnalyzeFinal.response_obj, field.
  cbn [serialisable forallb fst snd json_native negb andb orb].
  rewrite !final_summary_serialisable.
  replace (forallb (serialisable false)
             (AnalyzeFinal.str_obj <$> AnalyzeFinal.sheets r)) with true.
  - cbn [andb]. change (serialisable false AnalyzeFinal.relationships_obj) with true.
    by rewrite !andb_true_r.
  - symmetry. by apply all_serialisable.
Qed.

End Dates.

(** X8. [analyze_excel_final.py] dumps its response without [default]:
    with both sheets in the workbook it prints its JSON exactly when
    every cell it reports (the title cell, the header cells and the cells
    of the sample rows, of both sheets) is [None], a boolean, a number or
    text; a date, a time of day or a duration among them ends the script
    in a [TypeError], and it prints nothing. *)
Theorem final_script_prints_iff_report_is_native
    (float_repr : float → string) (wb : workbook)
    (ws_msme ws_charter : worksheet) :
  get_sheet wb "msme" = Ok ws_msme →
  get_sheet wb "charter" = Ok ws_charter →
  ∃ resp, AnalyzeFinal.build_response wb = Ok resp ∧
    AnalyzeFinal.title (AnalyzeFinal.msme_sheet resp) = cells ws_msme 1 1 ∧
    AnalyzeFinal.title (AnalyzeFinal.charter_sheet resp) = cells ws_charter 1 1 ∧
    ((∃ text, AnalyzeFinal.main float_repr wb = Ok text) ↔
     summary_is_native (AnalyzeFinal.msme_sheet resp) = true ∧
     summary_is_native (AnalyzeFinal.charter_sheet resp) = true) ∧
    (∀ e, AnalyzeFinal.main float_repr wb = Raise e → ∃ msg, e = TypeError msg).
Proof.
  intros Hm Hc.
  pose proof (gather_exact wb "msme" _ ws_msme msme_layout_ok Hm) as Hgm.
  pose proof (gather_exact wb "charter" _ ws_charter charter_layout_ok Hc) as Hgc.
  assert (∃ resp, AnalyzeFinal.build_response wb = Ok resp ∧
            AnalyzeFinal.title (AnalyzeFinal.msme_sheet resp) = cells ws_msme 1 1 ∧
            AnalyzeFinal.title (AnalyzeFinal.charter_sheet resp) = cells ws_charter 1 1)
    as (resp & Hresp & Htm & Htc).
  { unfold AnalyzeFinal.build_response. rewrite Hgm, Hgc. cbn [bind].
    rewrite !summarize_exact. cbn [bind]. eexists. split; [reflexivity|]. done. }
  exists resp. split_and!; [done..| |].
  - unfold AnalyzeFinal.main. rewrite Hresp. cbn [bind].
    rewrite <- andb_true_iff, <- final_response_serialisable.
    apply (dumps_returns float_repr false true).
  - intros e. unfold AnalyzeFinal.main. rewrite Hresp. cbn [bind].
    apply encode_raises.
Qed.

Lemma final_script_prints_iff_report_is_native_witness :
  ∃ resp, AnalyzeFinal.build_response dated_title_workbook = Ok resp ∧
    AnalyzeFinal.title (AnalyzeFinal.msme_sheet resp)
      = VDateTime (DateTime 2024 1 2 0 0 0 0) ∧
    AnalyzeFinal.title (AnalyzeFinal.charter_sheet resp)
      = VStr "1. AGRICULTURE DEPARTMENT" ∧
    ((∃ text, AnalyzeFinal.main float_elided dated_title_workbook = Ok text) ↔
     summary_is_native (AnalyzeFinal.msme_sheet resp) = true ∧
     summary_is_native (AnalyzeFinal.charter_sheet resp) = true) ∧
    (∀ e, AnalyzeFinal.main float_elided dated_title_workbook = Raise e →
          ∃ msg, e = TypeError msg).
Proof.
  exact (final_script_prints_iff_report_is_native float_elided dated_title_workbook _ _
           eq_refl eq_refl).
Defined.

Example final_script_raises_on_time_and_duration :
  AnalyzeFinal.main float_elided timed_workbook
    = Raise (TypeError "Object of type time is not JSON serializable") ∧
  AnalyzeFinal.main float_elided duration_workbook
    = Raise (TypeError "Object of type timedelta is not JSON serializable").
Proof. split; reflexivity. Qed.

Example final_script_raises_on_dated_title :
  AnalyzeFinal.main float_elided dated_title_workbook
    = Raise (TypeError "Object of type datetime is not JSON serializable") ∧
  ∃ texts, AnalyzeExcel.main insertion_order float_elided dated_title_workbook = Ok texts.
Proof. split; [reflexivity|]. eexists. vm_compute. reflexivity. Qed.

(** ** [analyze_excel_comprehensive.py]: the analysis of a frame *)
Section FrameAnalysis.

Import Comprehensive.

Lemma stat_returns s x :
  returns (stat s x) ↔ notna_any s = false ∨ succeeds x = true.
Proof.
  unfold stat, returns. destruct (notna_any s); [|split; [by left | by eexists]].
  destruct x as [v|e]; cbn; split.
  - by right.
  - by eexists.
  - intros [? ?]; discriminate.
  - intros [?|?]; discriminate.
Qed.

(** The step gets through a column exactly when the column is [column_ok],
    whatever the state, and then adds the pattern of the column under
    its label. *)
Lemma column_step_spec col s st :
  (column_ok (col, s) = true →
     ∃ st', column_step col s st = Ok st' ∧
            ∃ p, patterns st' = patterns st ++ [(col, p)] ∧ pattern_describes s p) ∧
  (column_ok (col, s) = false → ∃ e, column_step col s st = Raise e).
Proof.
  unfold column_ok, column_step, pattern_describes. cbn [fst snd].
  destruct col as [| | | |name| | |]; cbn [is_text label_lower bind andb];
    try (split; [discriminate | intros _; by eexists]).
  destruct (String.eqb (dtype s) "object"); cbn [orb].
  { split; [|discriminate]. intros _. cbn [bind]. eexists. split; [done|].
    cbn [patterns]. by eexists. }
  unfold stat. destruct (notna_any s); cbn [negb orb].
  - destruct (float_min s) as [vmin|e1]; cbn [succeeds andb bind];
      [|split; [discriminate | intros _; by eexists]].
    destruct (float_max s) as [vmax|e2]; cbn [succeeds andb bind];
      [|split; [discriminate | intros _; by eexists]].
    destruct (float_mean s) as [vmean|e3]; cbn [succeeds andb bind];
      [|split; [discriminate | intros _; by eexists]].
    split; [|discriminate]. intros _. eexists. split; [done|].
    cbn [patterns]. eexists. split; [done|]. by exists vmin, vmax, vmean.
  - split; [|discriminate]. intros _. cbn [bind]. eexists. split; [done|].
    cbn [patterns]. by eexists.
Qed.

Lemma columns_loop_spec cols : ∀ st,
  (forallb column_ok cols = true →
     ∃ st', columns_loop cols st = Ok st' ∧
            ∃ pats, patterns st' = patterns st ++ pats ∧
                    Forall2 (λ cs kp, kp.1 = cs.1 ∧ pattern_describes cs.2 kp.2) cols pats) ∧
  (forallb column_ok cols = false → ∃ e, columns_loop cols st = Raise e).
Proof.
  induction cols as [|[col s] cols IH]; intros st.
  - split; [|discriminate]. intros _. exists st. split; [done|]. exists [].
    split; [by rewrite app_nil_r | constructor].
  - cbn [forallb columns_loop].
    destruct (column_step_spec col s st) as [Hok Hbad].
    destruct (column_ok (col, s)); cbn [andb].
    + destruct (Hok eq_refl) as (st1 & -> & p & Hp & Hdesc). cbn [bind].
      destruct (IH st1) as [IHok IHbad]. split.
      * intros Hrest. destruct (IHok Hrest) as (st' & -> & pats & Hpats & Hall).
        exists st'. split; [done|]. exists ((col, p) :: pats).
        split; [by rewrite Hpats, Hp, <- app_assoc|]. by constructor.
      * exact IHbad.
    + split; [discriminate|]. intros _. destruct (Hbad eq_refl) as [e ->]. by exists e.
Qed.

End FrameAnalysis.

(** X9. The analysis of a sheet's frame in the comprehensive script
    returns exactly when every column gets through the loop body: its
    label is text (only text has [lower]) and it is a column of objects,
    or has no value at all, or its minimum, maximum and mean convert to
    floats. One column that does not, such as one with a number for a
    label or a column of dates, makes the analysis of the whole sheet
    raise. *)
Theorem frame_analysis_returns_iff_columns_ok (df : Comprehensive.dataframe) :
  ((∃ a, Comprehensive.analyze_df df = Ok a) ↔
   forallb column_ok (Comprehensive.df_columns df) = true) ∧
  ((∃ e, Comprehensive.analyze_df df = Raise e) ↔
   forallb column_ok (Comprehensive.df_columns df) = false).
Proof.
  unfold Comprehensive.analyze_df.
  destruct (columns_loop_spec (Comprehensive.df_columns df)
              {| Comprehensive.patterns := []; Comprehensive.location_cols := [];
                 Comprehensive.crop_cols := []; Comprehensive.stock_cols := [];
                 Comprehensive.outlet_cols := [] |}) as [Hok Hbad].
  destruct (forallb column_ok (Comprehensive.df_columns df)).
  - destruct (Hok eq_refl) as (st & -> & _). cbn [bind]. split; split; try done.
    + intros _. by eexists.
    + intros [e He]. discriminate.
  - destruct (Hbad eq_refl) as [e ->]. cbn [bind]. split; split; try done.
    + intros [a Ha]. discriminate.
    + intros _. by eexists.
Qed.

Example frame_analysis_fails_on_numbered_label :
  Comprehensive.analyze_df numbered_frame
    = Raise (AttributeError "'int' object has no attribute 'lower'") ∧
  ∃ e, Comprehensive.analyze_df date_frame = Raise e.
Proof. split; [reflexivity | by eexists]. Qed.

Section FrameShape.

Import Comprehensive.

Lemma column_ok_text cols :
  forallb column_ok cols = true → Forall (λ c, is_text c = true) cols.*1.
Proof.
  induction cols as [|[col s] cols IH]; cbn; [constructor|].
  intros [[Htext _]%andb_true_iff Hrest]%andb_true_iff. constructor; [done | by apply IH].
Qed.

(** What a successful analysis holds, field by field. *)
Lemma analyze_df_fields df a :
  analyze_df df = Ok a →
  forallb column_ok (df_columns df) = true ∧
  rows a = length (df_rows df) ∧
  columns a = length (df_columns df) ∧
  column_names a = (df_columns df).*1 ∧
  data_types a = (λ cs, (cs.1, dtype cs.2)) <$> df_columns df ∧
  sample_rows a = take 5 (df_rows df) ∧
  Forall2 (λ cs kp, kp.1 = cs.1 ∧ pattern_describes cs.2 kp.2)
    (df_columns df) (sheet_patterns a).
Proof.
  unfold analyze_df.
  destruct (columns_loop_spec (df_columns df)
              {| patterns := []; location_cols := []; crop_cols := [];
                 stock_cols := []; outlet_cols := [] |}) as [Hok Hbad].
  destruct (forallb column_ok (df_columns df)).
  - destruct (Hok eq_refl) as (st & -> & pats & Hpats & Hall). cbn [bind].
    intros [= <-]. cbn. split_and!; try done. by rewrite Hpats.
  - destruct (Hbad eq_refl) as [e ->]. discriminate.
Qed.

Lemma Forall2_keys {A B C} (R : B → C → Prop) (l : list (A * B)) (k : list (A * C)) :
  Forall2 (λ x y, y.1 = x.1 ∧ R x.2 y.2) l k → k.*1 = l.*1.
Proof. induction 1 as [|x y l k [Hxy _] _ IH]; [done|]. cbn. by rewrite Hxy, IH. Qed.

End FrameShape.

(** X10. When the analysis of a frame returns, its lists follow the
    columns of the frame: [column_names], the keys of [data_types] and
    the keys of [patterns] are the column labels in column order, all of
    them text; the dimensions are the numbers of rows and columns of the
    frame; and [sample_rows] are its first five rows, or all of them
    when there are fewer. *)
Theorem frame_analysis_follows_columns
    (df : Comprehensive.dataframe) (a : Comprehensive.sheet_analysis) :
  Comprehensive.analyze_df df = Ok a →
  Comprehensive.rows a = length (Comprehensive.df_rows df) ∧
  Comprehensive.columns a = length (Comprehensive.df_columns df) ∧
  Comprehensive.column_names a = (Comprehensive.df_columns df).*1 ∧
  (Comprehensive.data_types a).*1 = Comprehensive.column_names a ∧
  (Comprehensive.sheet_patterns a).*1 = Comprehensive.column_names a ∧
  Forall (λ c, ∃ text, c = VStr text) (Comprehensive.column_names a) ∧
  Comprehensive.sample_rows a = take 5 (Comprehensive.df_rows df) ∧
  length (Comprehensive.sample_rows a) = min 5 (Comprehensive.rows a).
Proof.
  intros Ha.
  destruct (analyze_df_fields df a Ha)
    as (Hok & Hrows & Hcols & Hnames & Htypes & Hsamples & Hpats).
  split_and!; try done.
  - rewrite Htypes, Hnames. rewrite <- list_fmap_compose. done.
  - rewrite Hnames. by apply (Forall2_keys pattern_describes).
  - rewrite Hnames. eapply Forall_impl; [by apply column_ok_text|].
    intros [| | | |text| | |]; cbn; try discriminate. by eexists.
  - by rewrite Hsamples, length_take, Hrows.
Qed.

Lemma frame_analysis_follows_columns_witness :
  ∃ a, Comprehensive.analyze_df text_frame = Ok a ∧
    Comprehensive.rows a = length (Comprehensive.df_rows text_frame) ∧
    Comprehensive.columns a = length (Comprehensive.df_columns text_frame) ∧
    Comprehensive.column_names a = (Comprehensive.df_columns text_frame).*1 ∧
    (Comprehensive.data_types a).*1 = Comprehensive.column_names a ∧
    (Comprehensive.sheet_patterns a).*1 = Comprehensive.column_names a ∧
    Forall (λ c, ∃ text, c = VStr text) (Comprehensive.column_names a) ∧
    Comprehensive.sample_rows a = take 5 (Comprehensive.df_rows text_frame) ∧
    length (Comprehensive.sample_rows a) = min 5 (Comprehensive.rows a).
Proof.
  eexists. split; [reflexivity|].
  apply (frame_analysis_follows_columns text_frame). reflexivity.
Defined.

(** X11. When the analysis of a frame returns, the pattern recorded for
    a column is decided by what pandas reports for it: a column of
    objects is categorical, with its number of distinct values and its
    first distinct values as text; any other column is numeric, with
    minimum, maximum and mean as floats when it has a value, and all
    three [None] (the conversions are not attempted) when it has none. *)
Theorem frame_patterns_describe_columns
    (df : Comprehensive.dataframe) (a : Comprehensive.sheet_analysis) :
  Comprehensive.analyze_df df = Ok a →
  ∀ i col s, Comprehensive.df_columns df !! i = Some (col, s) →
    ∃ p, Comprehensive.sheet_patterns a !! i = Some (col, p) ∧
         (Comprehensive.dtype s = "object" →
            p = Comprehensive.Categorical (Comprehensive.nunique s)
                  (Comprehensive.unique_head s)) ∧
         (Comprehensive.dtype s ≠ "object" → Comprehensive.notna_any s = false →
            p = Comprehensive.Numeric VNone VNone VNone (Comprehensive.notna_sum s)) ∧
         (Comprehensive.dtype s ≠ "object" → Comprehensive.notna_any s = true →
            ∃ vmin vmax vmean,
              Comprehensive.float_min s = Ok vmin ∧
              Comprehensive.float_max s = Ok vmax ∧
              Comprehensive.float_mean s = Ok vmean ∧
              p = Comprehensive.Numeric (VFloat vmin) (VFloat vmax) (VFloat vmean)
                    (Comprehensive.notna_sum s)).
Proof.
  intros Ha i col s Hi.
  destruct (analyze_df_fields df a Ha) as (_ & _ & _ & _ & _ & _ & Hpats).
  destruct (Forall2_lookup_l _ _ _ _ _ Hpats Hi) as ([col' p] & Hp & Hcol & Hdesc).
  cbn [fst snd] in Hcol, Hdesc. subst col'. exists p. split; [done|].
  unfold pattern_describes in Hdesc.
  destruct (String.eqb_spec (Comprehensive.dtype s) "object") as [Hobj|Hobj].
  - split_and!; [done | by intros ? | by intros ?].
  - destruct (Comprehensive.notna_any s); split_and!; try done.
Qed.

Lemma frame_patterns_describe_columns_witness :
  ∃ a, Comprehensive.analyze_df text_frame = Ok a ∧
  ∃ p, Comprehensive.sheet_patterns a !! 1 = Some (VStr "Stock Qty", p) ∧
       (Comprehensive.dtype number_series = "object" →
          p = Comprehensive.Categorical (Comprehensive.nunique number_series)
                (Comprehensive.unique_head number_series)) ∧
       (Comprehensive.dtype number_series ≠ "object" →
        Comprehensive.notna_any number_series = false →
          p = Comprehensive.Numeric VNone VNone VNone
                (Comprehensive.notna_sum number_series)) ∧
       (Comprehensive.dtype number_series ≠ "object" →
        Comprehensive.notna_any number_series = true →
          ∃ vmin vmax vmean,
            Comprehensive.float_min number_series = Ok vmin ∧
            Comprehensive.float_max number_series = Ok vmax ∧
            Comprehensive.float_mean number_series = Ok vmean ∧
            p = Comprehensive.Numeric (VFloat vmin) (VFloat vmax) (VFloat vmean)
                  (Comprehensive.notna_sum number_series)).
Proof.
  eexists. split; [reflexivity|].
  apply (frame_patterns_describe_columns text_frame _ eq_refl 1).
  reflexivity.
Defined.

(** ** [analyze_excel_comprehensive.py]: the dictionary of the sheets *)
Section SheetsDict.

Import Comprehensive.

Variable py_repr : pyobj → string.

Lemma dict_set_fresh key e (d : sheets_dict) :
  key ∉ d.*1 → dict_set key e d = d ++ [(key, e)].
Proof.
  induction d as [|[k e'] d IH]; cbn; [done|].
  intros Hnin. destruct (String.eqb_spec k key) as [->|Hne].
  - exfalso. apply Hnin. left.
  - rewrite IH; [done|]. intros Hin. apply Hnin. by right.
Qed.

Lemma dict_set_elem key e (d : sheets_dict) kv :
  kv ∈ dict_set key e d → kv = (key, e) ∨ kv ∈ d.
Proof.
  induction d as [|[k e'] d IH]; cbn.
  - intros ->%list_elem_of_singleton. by left.
  - destruct (String.eqb_spec k key) as [->|Hne].
    + intros [->|Hin]%elem_of_cons; [by left | right; by right].
    + intros [->|Hin]%elem_of_cons; [right; left|].
      destruct (IH Hin) as [->|Hin']; [by left | right; by right].
Qed.

Lemma dict_set_keys key e (d : sheets_dict) :
  (dict_set key e d).*1 = if decide (key ∈ d.*1) then d.*1 else d.*1 ++ [key].
Proof.
  induction d as [|[k e'] d IH]; cbn.
  - rewrite decide_False; [done | apply not_elem_of_nil].
  - destruct (String.eqb_spec k key) as [->|Hne]; cbn.
    + rewrite decide_True; [done | left].
    + rewrite IH. destruct (decide (key ∈ d.*1)) as [Hin|Hnin].
      * rewrite decide_True; [done | by right].
      * rewrite decide_False; [done|]. intros [?|?]%elem_of_cons; congruence.
Qed.

Lemma dict_get_elem key e (d : sheets_dict) :
  dict_get key d = Some e → (key, e) ∈ d.
Proof.
  induction d as [|[k e'] d IH]; cbn; [discriminate|].
  destruct (String.eqb_spec k key) as [->|Hne].
  - intros [= ->]. left.
  - intros H. right. by apply IH.
Qed.

(** With distinct sheet names the loop appends one entry per sheet. *)
Lemma sheets_loop_exact w names : ∀ st,
  NoDup ((sheets st).*1 ++ names) →
  sheets (sheets_loop py_repr w names st)
    = sheets st ++ ((λ n, (n, entry_of w n)) <$> names).
Proof.
  induction names as [|n names IH]; intros st Hnd.
  - cbn. by rewrite app_nil_r.
  - cbn [sheets_loop]. apply NoDup_app in Hnd as (Hkeys & Hdisj & Hnames).
    apply NoDup_cons in Hnames as [Hn Hnames].
    assert (n ∉ (sheets st).*1) as Hfresh.
    { intros Hin. apply (Hdisj n Hin). left. }
    rewrite IH; rewrite sheet_step_sheets, dict_set_fresh by done.
    + by rewrite <- app_assoc.
    + rewrite fmap_app. cbn. rewrite <- app_assoc. cbn.
      apply NoDup_app. split_and!; [done| |by apply NoDup_cons].
      intros k Hk. by apply Hdisj.
Qed.

(** In general every entry belongs to a sheet of the workbook and is the
    entry of that sheet, and no key occurs twice. *)
Lemma sheets_loop_entries w names : ∀ st,
  NoDup (sheets st).*1 →
  Forall (λ kv, kv.2 = entry_of w kv.1) (sheets st) →
  NoDup (sheets (sheets_loop py_repr w names st)).*1 ∧
  Forall (λ kv, kv.2 = entry_of w kv.1) (sheets (sheets_loop py_repr w names st)) ∧
  ∀ kv, kv ∈ sheets (sheets_loop py_repr w names st) → kv ∈ sheets st ∨ kv.1 ∈ names.
Proof.
  induction names as [|n names IH]; intros st Hnd Hall.
  - cbn. split_and!; [done..|]. intros kv ?. by left.
  - cbn [sheets_loop].
    destruct (IH (sheet_step py_repr w n st)) as (Hnd' & Hall' & Hin').
    + rewrite sheet_step_sheets, dict_set_keys. case_decide; [done|].
      apply NoDup_app. split_and!; [done| |apply NoDup_singleton].
      by intros k Hk ->%list_elem_of_singleton.
    + rewrite sheet_step_sheets. apply Forall_forall. intros kv Hkv.
      apply dict_set_elem in Hkv as [->|Hkv]; [done|].
      by apply (proj1 (Forall_forall _ _) Hall).
    + split_and!; [done..|]. intros kv Hkv.
      destruct (Hin' kv Hkv) as [Hstep|Hnames]; [|right; by right].
      rewrite sheet_step_sheets in Hstep.
      apply dict_set_elem in Hstep as [->|Hst]; [right; left | by left].
Qed.

End SheetsDict.

(** X12. After the loop over the sheets of the comprehensive script,
    [analysis["sheets"]] has no key twice, and every entry stands under
    the name of a sheet of the workbook and is what the analysis of
    that sheet gives. When the sheet names are distinct, as they are in
    a workbook, it is the list of one entry per sheet in workbook
    order. *)
Theorem sheets_dictionary_follows_workbook
    (py_repr : pyobj → string) (w : Comprehensive.world) (sheet_names : list string) :
  let d := Comprehensive.sheets (Comprehensive.run_sheets py_repr w sheet_names) in
  NoDup d.*1 ∧
  (∀ name e, (name, e) ∈ d ↔ name ∈ sheet_names ∧ e = entry_of w name) ∧
  (NoDup sheet_names → d = (λ n, (n, entry_of w n)) <$> sheet_names).
Proof.
  intros d. subst d. unfold Comprehensive.run_sheets.
  match goal with
  | |- context [Comprehensive.sheets_loop py_repr w sheet_names ?st0] =>
      destruct (sheets_loop_entries py_repr w sheet_names st0) as (Hnd & Hall & Hin);
        [apply NoDup_nil_2 | constructor |];
      pose proof (sheets_loop_get py_repr w sheet_names st0) as Hget;
      pose proof (sheets_loop_exact py_repr w sheet_names st0) as Hexact
  end.
  split_and!.
  - exact Hnd.
  - intros name e. split.
    + intros Hkv. split.
      * destruct (Hin _ Hkv) as [Hnil|Hname]; [by apply elem_of_nil in Hnil | done].
      * by apply (proj1 (Forall_forall _ _) Hall (name, e)).
    + intros [Hname ->]. apply dict_get_elem. rewrite Hget. by rewrite decide_True.
  - intros Hnames. by apply Hexact.
Qed.

(** ** [analyze_excel_comprehensive.py]: when the dump succeeds *)
Section ComprehensiveDump.

Import Comprehensive.

Lemma all_native_text (l : list value) :
  Forall (λ c, is_text c = true) l → all_native l = true.
Proof.
  unfold all_native. induction 1 as [|c l Hc _ IH]; [done|]. cbn. rewrite IH.
  by destruct c.
Qed.

Lemma text_keys_serialisable {A} (f : A → pyobj) (l : list (value * A)) :
  Forall (λ c, is_text c = true) l.*1 →
  (∀ kv, kv ∈ l → serialisable false (f kv.2) = true) →
  forallb (λ kv, json_native kv.1 && serialisable false kv.2)
    ((λ kv, (kv.1, f kv.2)) <$> l) = true.
Proof.
  induction l as [|[k x] l IH]; cbn; [done|].
  intros [Hk Hl]%Forall_cons Hf. rewrite IH; [|done|intros kv Hkv; apply Hf; by right].
  pose proof (Hf (k, x) ltac:(left)) as Hx. cbn [snd] in Hx. rewrite Hx.
  by destruct k.
Qed.

Lemma pattern_serialisable s p :
  pattern_describes s p → serialisable false (pattern_obj p) = true.
Proof.
  unfold pattern_describes. destruct (String.eqb (dtype s) "object").
  - intros ->. unfold pattern_obj, field, str_obj, int_obj.
    cbn [serialisable forallb fst snd json_native negb andb orb].
    by rewrite all_serialisable.
  - destruct (notna_any s).
    + intros (vmin & vmax & vmean & _ & _ & _ & ->). reflexivity.
    + intros ->. reflexivity.
Qed.

Lemma filter_text (P : value → Prop) `{∀ c, Decision (P c)} (l : list value) :
  Forall (λ c, is_text c = true) l → Forall (λ c, is_text c = true) (filter P l).
Proof.
  intros Hl. apply Forall_forall. intros c [_ Hc]%list_elem_of_filter.
  by apply (proj1 (Forall_forall _ _) Hl).
Qed.

(** A successful analysis can be dumped when its sampled rows hold only
    [None], booleans, numbers and text. *)
Lemma analysis_serialisable df a :
  analyze_df df = Ok a →
  serialisable false (sheet_analysis_obj a) = forallb all_native (take 5 (df_rows df)).
Proof.
  intros Ha.
  destruct (analyze_df_fields df a Ha)
    as (Hok & _ & _ & Hnames & Htypes & Hsamples & Hpats).
  pose proof (column_ok_text _ Hok) as Htext.
  pose proof (analyze_df_buckets df a Ha) as Hbuckets.
  unfold sheet_analysis_obj, field, str_obj, int_obj, row_obj.
  cbn [serialisable forallb fst snd json_native negb andb orb].
  rewrite !cells_serialisable.
  rewrite (rows_serialisable (λ row, OList (OVal <$> row))) by done.
  rewrite Hsamples, Hnames, all_native_text by done.
  rewrite (Hbuckets Location : location_fields a = _),
          (Hbuckets Crop : crop_fields a = _),
          (Hbuckets Stock : stock_fields a = _),
          (Hbuckets Outlet : outlet_fields a = _).
  rewrite !all_native_text by (by apply filter_text).
  rewrite (text_keys_serialisable (λ t, OVal (VStr t)));
    [|by rewrite Htypes, <- list_fmap_compose | done].
  rewrite text_keys_serialisable.
  - cbn [andb]. by rewrite andb_true_r.
  - by rewrite (Forall2_keys pattern_describes _ _ Hpats).
  - intros [k p] Hkp. cbn [snd].
    apply list_elem_of_lookup in Hkp as [i Hi].
    destruct (Forall2_lookup_r _ _ _ _ _ Hpats Hi) as ([col s] & _ & _ & Hdesc).
    by apply (pattern_serialisable s).
Qed.

Lemma entry_serialisable w name :
  serialisable false (sheet_entry_obj (entry_of w name)) = true ↔
  ∀ df a, read_excel w name = Ok df → analyze_df df = Ok a →
          forallb all_native (take 5 (df_rows df)) = true.
Proof.
  unfold entry_of. destruct (read_excel w name) as [df|e]; [|done].
  destruct (analyze_df df) as [a|e] eqn:Ha.
  - cbn [sheet_entry_obj]. rewrite (analysis_serialisable df a Ha). split.
    + by intros H df' a' [= <-] _.
    + intros H. by apply (H df a).
  - split; [intros _ df' a' [= <-] Ha'; congruence | done].
Qed.

Lemma analysis_obj_serialisable names (d : sheets_dict) :
  serialisable false (analysis_obj names d) =
    forallb (λ kv, serialisable false (sheet_entry_obj kv.2)) d.
Proof.
  unfold analysis_obj, field, str_obj.
  cbn [serialisable forallb fst snd json_native negb andb orb].
  rewrite all_serialisable by done. cbn [andb]. rewrite andb_true_r.
  rewrite forallb_fmap. by apply forallb_ext_eq.
Qed.

End ComprehensiveDump.

(** X13. Once the input file exists, the workbook loads and the output
    file opens, the comprehensive script ends with status 0 exactly when
    every sheet whose analysis returns has only [None], booleans, numbers
    and text in the first five rows of its frame: these rows go into the
    JSON as they are, and [json.dump] is called without [default], so
    that a date, a time of day or a duration among them ends the run in
    a [TypeError]. A sheet whose analysis raises never makes the dump
    fail. *)
Theorem comprehensive_exit_0_iff_samples_native
    (float_repr : float → string) (py_repr : pyobj → string)
    (w : Comprehensive.world) (sheet_names : list string) (u : unit) :
  Comprehensive.path_exists w = true →
  Comprehensive.load_workbook w = Ok sheet_names →
  Comprehensive.open_output w = Ok u →
  (Comprehensive.exit_status (Comprehensive.main float_repr py_repr w) = 0 ↔
   ∀ name df a, name ∈ sheet_names →
     Comprehensive.read_excel w name = Ok df →
     Comprehensive.analyze_df df = Ok a →
     forallb all_native (take 5 (Comprehensive.df_rows df)) = true).
Proof.
  intros Hpath Hload Hopen.
  destruct (sheets_loop_entries py_repr w sheet_names
              {| Comprehensive.printed :=
                   ["Excel File Analysis"; Json.repeat_str "=" 80;
                    "File: " +:+ Comprehensive.excel_path;
                    "Sheet names: " +:+
                      py_repr (OList (Comprehensive.str_obj <$> sheet_names))
                      +:+ Json.newline];
                 Comprehensive.sheets := [] |})
    as (_ & Hall & Hin); [apply NoDup_nil_2 | constructor |].
  fold (Comprehensive.run_sheets py_repr w sheet_names) in Hall, Hin.
  transitivity (serialisable false
    (Comprehensive.analysis_obj sheet_names
       (Comprehensive.sheets (Comprehensive.run_sheets py_repr w sheet_names))) = true).
  { rewrite <- (dumps_returns float_repr false false).
    unfold Comprehensive.main. rewrite Hpath, Hload, Hopen. cbn [negb].
    destruct (Json.dumps _ _ _ _) as [text|e]; cbn; split; try done.
    - intros _. by eexists.
    - intros [? ?]. discriminate. }
  rewrite analysis_obj_serialisable, forallb_forall. split.
  - intros Hd name df a Hname. apply entry_serialisable.
    apply (Hd (name, entry_of w name)). apply list_elem_of_In, dict_get_elem.
    rewrite run_sheets_get. by rewrite decide_True.
  - intros Hnames [name e] Hkv%list_elem_of_In. cbn [snd].
    pose proof (proj1 (Forall_forall _ _) Hall _ Hkv) as He. cbn [fst snd] in He.
    rewrite He. apply entry_serialisable. intros df a. apply Hnames.
    destruct (Hin _ Hkv) as [Hnil|Hname]; [by apply elem_of_nil in Hnil | done].
Qed.

Lemma comprehensive_exit_0_iff_samples_native_witness :
  Comprehensive.exit_status
    (Comprehensive.main float_elided repr_elided three_sheet_world) = 0 ↔
  ∀ name df a, name ∈ ["Stock"; "Dates"; "Totals"] →
    Comprehensive.read_excel three_sheet_world name = Ok df →
    Comprehensive.analyze_df df = Ok a →
    forallb all_native (take 5 (Comprehensive.df_rows df)) = true.
Proof.
  exact (comprehensive_exit_0_iff_samples_native float_elided repr_elided
           three_sheet_world _ () eq_refl eq_refl eq_refl).
Defined.

(** X14. In the comprehensive script the exit status is 0 exactly when
    the output file has been written in full, and then the JSON printed
    last on standard output is, character for character, the text
    written to the file. An output file left incomplete means that the
    input file existed and the output file could be opened. *)
Theorem comprehensive_output_matches_exit_status
    (float_repr : float → string) (py_repr : pyobj → string)
    (w : Comprehensive.world) :
  let run := Comprehensive.main float_repr py_repr w in
  (Comprehensive.exit_status run = 0 ↔
   ∃ text, Comprehensive.output_file run = Comprehensive.Complete text) ∧
  (∀ text, Comprehensive.output_file run = Comprehensive.Complete text →
           last (Comprehensive.stdout run) = Some text) ∧
  (Comprehensive.output_file run = Comprehensive.Incomplete →
   Comprehensive.path_exists w = true ∧
   (∃ names, Comprehensive.load_workbook w = Ok names) ∧
   ∃ u, Comprehensive.open_output w = Ok u).
Proof.
  intros run. subst run. unfold Comprehensive.main.
  destruct (Comprehensive.path_exists w); cbn [negb].
  2: { cbn. split_and!; [split; [discriminate | by intros [? ?]] | discriminate..]. }
  destruct (Comprehensive.load_workbook w) as [names|e].
  2: { cbn. split_and!; [split; [discriminate | by intros [? ?]] | discriminate..]. }
  destruct (Comprehensive.open_output w) as [u|e].
  2: { cbn. split_and!; [split; [discriminate | by intros [? ?]] | discriminate..]. }
  destruct (Json.dumps _ _ _ _) as [text|e]; cbn.
  - split_and!; [split; [by eexists | done] | | discriminate].
    intros text' [= <-]. rewrite last_app. reflexivity.
  - split_and!; [split; [discriminate | by intros [? ?]] | discriminate |].
    intros _. split_and!; [done | by eexists | by eexists].
Qed.

(** ** [analyze_excel_detailed.py] *)
Section DetailedScript.

Import Detailed.

Variable float_str : float → string.

Lemma breakdown_loop_ok ws rows : ∀ acc,
  Forall (λ r, 1 ≤ r) rows →
  breakdown_loop float_str ws rows acc
    = Ok (acc ++ (breakdown_entry float_str ws <$> rows)).
Proof.
  induction rows as [|r rows IH]; intros acc Hrows.
  - cbn. by rewrite app_nil_r.
  - inversion Hrows as [|?? Hr Hrows']; subst.
    cbn [breakdown_loop].
    replace (min (max_column ws + 1) 11) with (min (max_column ws) 10 + 1) by lia.
    rewrite row_data_first by done. cbn [bind].
    rewrite IH by done. by rewrite fmap_cons, <- app_assoc.
Qed.

Lemma analyze_sheet_detailed_ok wb name ws :
  get_sheet wb name = Ok ws →
  analyze_sheet_detailed float_str wb name =
    Ok {| sheet_name := name;
          total_rows := max_row ws;
          total_columns := max_column ws;
          row_breakdown :=
            breakdown_entry float_str ws <$> seq 1 (min 20 (max_row ws)) |}.
Proof.
  intros Hws. unfold analyze_sheet_detailed. rewrite Hws. cbn [bind].
  rewrite breakdown_loop_ok by (apply py_range_pos; lia). cbn [bind app].
  unfold py_range.
  replace (min 21 (max_row ws + 1) - 1) with (min 20 (max_row ws)) by lia. done.
Qed.

Lemma count_not_none_filter l : count_not_none l = length (nonempty_cells l).
Proof.
  unfold nonempty_cells. induction l as [|v l IH]; [done|].
  cbn [count_not_none]. rewrite filter_cons, IH.
  destruct (is_not_none v); [by rewrite decide_True | by rewrite decide_False].
Qed.

Lemma sample_text_not_none v :
  is_not_none (sample_text float_str v) = is_not_none v.
Proof. unfold sample_text. by destruct (is_not_none v). Qed.

Lemma count_not_none_sample l :
  count_not_none (sample_text float_str <$> l) = count_not_none l.
Proof.
  induction l as [|v l IH]; [done|]. cbn. by rewrite sample_text_not_none, IH.
Qed.

Lemma str_take_length n : ∀ s, String.length (str_take n s) ≤ n.
Proof.
  induction n as [|n IH]; intros [|c s]; cbn; try lia. specialize (IH s). lia.
Qed.

End DetailedScript.

(** X15. [analyze_sheet_detailed] returns for every sheet of the workbook.
    Its breakdown has one entry for each of the first 20 rows of the
    sheet, in order and numbered from 1. The sample of a row has one
    entry for each of the first 10 columns of the sheet: [None] for an
    empty cell, and else a text of at most 40 characters, the beginning
    of [str] of the cell. [non_empty_cols] is the number of entries of
    the sample that are not [None], so it never exceeds 10 and does not
    count values beyond the tenth column. *)
Theorem row_breakdown_covers_first_rows_and_columns
    (float_str : float → string) (wb : workbook) (name : string) (ws : worksheet) :
  get_sheet wb name = Ok ws →
  ∃ d, Detailed.analyze_sheet_detailed float_str wb name = Ok d ∧
    length (Detailed.row_breakdown d) = min 20 (max_row ws) ∧
    ∀ i e, Detailed.row_breakdown d !! i = Some e →
      Detailed.row e = i + 1 ∧
      length (Detailed.data_sample e) = min 10 (max_column ws) ∧
      Detailed.non_empty_cols e = length (nonempty_cells (Detailed.data_sample e)) ∧
      Detailed.non_empty_cols e ≤ 10 ∧
      (∀ j, j < min 10 (max_column ws) →
         Detailed.data_sample e !! j =
           Some (if is_not_none (cells ws (i + 1) (j + 1))
                 then VStr (Detailed.str_take 40
                              (Detailed.py_str float_str (cells ws (i + 1) (j + 1))))
                 else VNone)) ∧
      Forall (λ v, v = VNone ∨ ∃ t, v = VStr t ∧ String.length t ≤ 40)
        (Detailed.data_sample e).
Proof.
  intros Hws. eexists. split; [by apply analyze_sheet_detailed_ok|].
  cbn [Detailed.row_breakdown]. split; [by rewrite length_fmap, length_seq|].
  intros i e He. rewrite list_lookup_fmap in He.
  destruct (seq 1 (min 20 (max_row ws)) !! i) as [r|] eqn:Hr; [|discriminate].
  apply lookup_seq in Hr as [-> Hi]. injection He as <-.
  unfold breakdown_entry.
  cbn [Detailed.row Detailed.data_sample Detailed.non_empty_cols].
  split_and!.
  - lia.
  - unfold first_cells. rewrite !length_fmap, length_seq. lia.
  - by rewrite <- count_not_none_filter, count_not_none_sample.
  - rewrite count_not_none_filter. etrans; [apply length_filter|].
    unfold first_cells. rewrite length_fmap, length_seq. lia.
  - intros j Hj. unfold first_cells.
    rewrite !list_lookup_fmap, lookup_seq_lt by lia.
    cbn [fmap option_fmap option_map].
    replace (1 + i) with (i + 1) by lia. replace (1 + j) with (j + 1) by lia.
    replace (S i) with (i + 1) by lia. reflexivity.
  - apply Forall_fmap, Forall_forall. intros v _. cbn. unfold Detailed.sample_text.
    destruct (is_not_none v); [right | by left].
    eexists. split; [done | apply str_take_length].
Qed.

Lemma row_breakdown_covers_first_rows_and_columns_witness :
  ∃ d, Detailed.analyze_sheet_detailed float_elided five_row_workbook "msme" = Ok d ∧
    length (Detailed.row_breakdown d) = min 20 (max_row msme_five_rows) ∧
    ∀ i e, Detailed.row_breakdown d !! i = Some e →
      Detailed.row e = i + 1 ∧
      length (Detailed.data_sample e) = min 10 (max_column msme_five_rows) ∧
      Detailed.non_empty_cols e = length (nonempty_cells (Detailed.data_sample e)) ∧
      Detailed.non_empty_cols e ≤ 10 ∧
      (∀ j, j < min 10 (max_column msme_five_rows) →
         Detailed.data_sample e !! j =
           Some (if is_not_none (cells msme_five_rows (i + 1) (j + 1))
                 then VStr (Detailed.str_take 40
                              (Detailed.py_str float_elided
                                 (cells msme_five_rows (i + 1) (j + 1))))
                 else VNone)) ∧
      Forall (λ v, v = VNone ∨ ∃ t, v = VStr t ∧ String.length t ≤ 40)
        (Detailed.data_sample e).
Proof.
  exact (row_breakdown_covers_first_rows_and_columns float_elided five_row_workbook
           "msme" msme_five_rows eq_refl).
Defined.

Section ColumnCount.

Import Detailed.

Lemma any_truthy_cell_ok ws c rows :
  1 ≤ c → Forall (λ r, 1 ≤ r) rows →
  any_truthy_cell ws c rows = Ok (existsb (λ r, truthy (cells ws r c)) rows).
Proof.
  intros Hc. induction 1 as [|r rows Hr _ IH]; [done|].
  cbn [any_truthy_cell existsb]. rewrite cell_value_ok by done. cbn [bind].
  destruct (truthy (cells ws r c)); [done | exact IH].
Qed.

Lemma count_columns_ok ws cols : ∀ count,
  Forall (λ c, 1 ≤ c) cols →
  count_columns ws cols count =
    Ok (count + length (filter (λ c, column_has_data ws c = true) cols)).
Proof.
  induction cols as [|c cols IH]; intros count Hcols.
  - cbn. f_equal. lia.
  - inversion Hcols as [|?? Hc Hcols']; subst.
    cbn [count_columns]. rewrite any_truthy_cell_ok by (done || apply py_range_pos; lia).
    cbn [bind]. rewrite IH by done. rewrite filter_cons.
    fold (column_has_data ws c). destruct (column_has_data ws c).
    + rewrite decide_True by done. cbn [length]. f_equal. lia.
    + rewrite decide_False by done. done.
Qed.

Lemma column_count_ok ws :
  column_count_with_data ws =
    Ok (length (filter (λ c, column_has_data ws c = true) (seq 1 (max_column ws)))).
Proof.
  unfold column_count_with_data. rewrite py_range_1.
  rewrite count_columns_ok; [done|].
  apply Forall_forall. intros c Hc%elem_of_seq. lia.
Qed.

Lemma filter_none {A} (P : A → Prop) `{∀ x, Decision (P x)} (l : list A) :
  Forall (λ x, ¬ P x) l → filter P l = [].
Proof.
  induction 1 as [|x l Hx _ IH]; [done|]. by rewrite filter_cons_False.
Qed.

Lemma column_has_data_spec ws c :
  column_has_data ws c = true ↔
  ∃ r, 3 ≤ r ∧ r < 10 ∧ r < max_row ws ∧ truthy (cells ws r c) = true.
Proof.
  unfold column_has_data, py_range. rewrite existsb_exists. split.
  - intros (r & Hr%list_elem_of_In%elem_of_seq & Ht). exists r. split_and!; [lia..|done].
  - intros (r & H3 & H10 & Hmax & Ht). exists r. split; [|done].
    apply list_elem_of_In, elem_of_seq. lia.
Qed.

End ColumnCount.

(** X16. The ["actual_column_count_with_data"] of the detailed script is
    the number of columns of the sheet that have, in rows 3 to 9 and
    short of the last row of the sheet, a cell that is true for Python.
    It is at most the number of columns; the last row of the sheet is
    never looked at, so it is 0 for a sheet of three rows or fewer; and
    a column that holds only zeros, empty texts or [False] in the rows
    inspected is not counted. *)
Theorem column_count_ignores_last_row_and_falsy_cells (ws : worksheet) :
  ∃ n, Detailed.column_count_with_data ws = Ok n ∧
    n = length (filter (λ c, column_has_data ws c = true) (seq 1 (max_column ws))) ∧
    n ≤ max_column ws ∧
    (max_row ws ≤ 3 → n = 0) ∧
    (∀ c, column_has_data ws c = true ↔
          ∃ r, 3 ≤ r ∧ r < 10 ∧ r < max_row ws ∧ truthy (cells ws r c) = true) ∧
    (∀ c, (∀ r, 3 ≤ r → r < max_row ws →
             cells ws r c = VNone ∨ cells ws r c = VInt 0 ∨
             cells ws r c = VStr "" ∨ cells ws r c = VBool false) →
          column_has_data ws c = false).
Proof.
  eexists. split; [apply column_count_ok|]. split_and!.
  - reflexivity.
  - etrans; [apply length_filter|]. by rewrite length_seq.
  - intros Hmax.
    assert (filter (λ c, column_has_data ws c = true) (seq 1 (max_column ws)) = [])
      as ->; [|done].
    apply filter_none, Forall_forall. intros c _.
    unfold column_has_data, py_range.
    replace (min 10 (max_row ws) - 3) with 0 by lia. cbn. discriminate.
  - apply column_has_data_spec.
  - intros c Hfalsy. destruct (column_has_data ws c) eqn:Hdata; [|done].
    apply column_has_data_spec in Hdata as (r & H3 & _ & Hmax & Ht).
    destruct (Hfalsy r H3 Hmax) as [H|[H|[H|H]]]; rewrite H in Ht; discriminate.
Qed.

Example zero_column_is_not_counted :
  Detailed.column_count_with_data zero_column_sheet = Ok 1 ∧
  cells zero_column_sheet 5 2 = VInt 7.
Proof. split; reflexivity. Qed.

Section DetailedMain.

Import Detailed.

Variables (float_str float_repr : float → string) (py_repr : pyobj → string).

Lemma sample_is_native (l : list value) :
  all_native (sample_text float_str <$> l) = true.
Proof.
  unfold all_native. rewrite forallb_fmap. induction l as [|v l IH]; [done|].
  cbn. rewrite IH. unfold sample_text. by destruct (is_not_none v).
Qed.

Lemma sheet_detail_serialisable name ws rows :
  serialisable false
    (sheet_detail_obj {| sheet_name := name; total_rows := max_row ws;
                         total_columns := max_column ws;
                         row_breakdown := breakdown_entry float_str ws <$> rows |})
  = true.
Proof.
  unfold sheet_detail_obj, field, str_obj, int_obj.
  cbn [serialisable forallb fst snd json_native negb andb orb
       sheet_name total_rows total_columns row_breakdown].
  rewrite <- list_fmap_compose, all_serialisable; [done|]. intros r.
  unfold compose, row_entry_obj, breakdown_entry, field, int_obj, row_obj.
  cbn [serialisable forallb fst snd json_native negb andb orb
       row non_empty_cols data_sample].
  by rewrite cells_serialisable, sample_is_native.
Qed.

Lemma summary_serialisable names ws_m ws_c n_m n_c :
  serialisable false (summary_obj names ws_m ws_c n_m n_c) = true.
Proof.
  unfold summary_obj, field, str_obj, int_obj.
  cbn [serialisable forallb fst snd json_native negb andb orb].
  by rewrite all_serialisable.
Qed.

Lemma analyze_sheet_detailed_missing wb name :
  name ∉ sheetnames wb →
  analyze_sheet_detailed float_str wb name
    = Raise (KeyError ("Worksheet " +:+ name +:+ " does not exist.")).
Proof.
  intros Hnin. unfold analyze_sheet_detailed.
  by rewrite (proj2 (get_sheet_spec wb name) Hnin).
Qed.

Lemma msme_lines_ok ws rows :
  Forall (λ r, 1 ≤ r) rows →
  ∃ lines, for_each (msme_row_line py_repr ws) rows = Ok lines.
Proof.
  intros Hrows. apply for_each_returns. eapply Forall_impl; [exact Hrows|].
  intros r Hr. unfold msme_row_line. rewrite row_data_ok by done. by eexists.
Qed.

Lemma charter_lines_ok ws rows :
  Forall (λ r, 1 ≤ r) rows →
  ∃ lines, for_each (charter_row_line py_repr ws) rows = Ok lines.
Proof.
  intros Hrows. apply for_each_returns. eapply Forall_impl; [exact Hrows|].
  intros r Hr. unfold charter_row_line.
  replace (min (max_column ws + 1) 5) with (min (max_column ws) 4 + 1) by lia.
  rewrite row_data_first by done. by eexists.
Qed.

(** The script runs to its end when both sheets are there. *)
Lemma detailed_main_ok wb ws_m ws_c :
  get_sheet wb "msme" = Ok ws_m →
  get_sheet wb "charter" = Ok ws_c →
  ∃ texts, main float_str float_repr py_repr wb = Ok texts.
Proof.
  intros Hm Hc. unfold main.
  rewrite (analyze_sheet_detailed_ok float_str wb "msme" ws_m Hm). cbn [bind].
  destruct (proj2 (dumps_returns float_repr false true _)
              (sheet_detail_serialisable "msme" ws_m (seq 1 (min 20 (max_row ws_m)))))
    as [t1 ->]. cbn [bind].
  rewrite (analyze_sheet_detailed_ok float_str wb "charter" ws_c Hc). cbn [bind].
  destruct (proj2 (dumps_returns float_repr false true _)
              (sheet_detail_serialisable "charter" ws_c (seq 1 (min 20 (max_row ws_c)))))
    as [t2 ->]. cbn [bind].
  rewrite Hm. cbn [bind]. rewrite row_data_ok by lia. cbn [bind]. cbv zeta.
  generalize (row_read ws_m 2). intros ws_g.
  destruct (msme_lines_ok ws_g (py_range 3 (min 8 (max_row ws_g + 1))))
    as [lm ->]; [apply py_range_pos; lia|]. cbn [bind].
  rewrite Hc. cbn [bind].
  destruct (charter_lines_ok ws_c (py_range 1 (min 11 (max_row ws_c + 1))))
    as [lc ->]; [apply py_range_pos; lia|]. cbn [bind].
  rewrite !column_count_ok. cbn [bind].
  match goal with
  | |- context [Json.dumps float_repr false true ?o] =>
      destruct (proj2 (dumps_returns float_repr false true o)
                  (summary_serialisable _ _ _ _ _)) as [t3 ->]
  end.
  cbn [bind]. by eexists.
Qed.

(** The summary printed last reports the "msme" sheet as the read of its
    header row (line 56) has left it: with at least two rows. *)
Lemma detailed_summary_after_header_read wb ws_m ws_c :
  get_sheet wb "msme" = Ok ws_m →
  get_sheet wb "charter" = Ok ws_c →
  ∃ texts summary_text n_m n_c,
    main float_str float_repr py_repr wb = Ok texts ∧
    last texts = Some summary_text ∧
    column_count_with_data (row_read ws_m 2) = Ok n_m ∧
    column_count_with_data ws_c = Ok n_c ∧
    Json.dumps float_repr false true
      (summary_obj (sheetnames wb) (row_read ws_m 2) ws_c n_m n_c) = Ok summary_text.
Proof.
  intros Hm Hc. unfold main.
  rewrite (analyze_sheet_detailed_ok float_str wb "msme" ws_m Hm). cbn [bind].
  destruct (proj2 (dumps_returns float_repr false true _)
              (sheet_detail_serialisable "msme" ws_m (seq 1 (min 20 (max_row ws_m)))))
    as [t1 ->]. cbn [bind].
  rewrite (analyze_sheet_detailed_ok float_str wb "charter" ws_c Hc). cbn [bind].
  destruct (proj2 (dumps_returns float_repr false true _)
              (sheet_detail_serialisable "charter" ws_c (seq 1 (min 20 (max_row ws_c)))))
    as [t2 ->]. cbn [bind].
  rewrite Hm. cbn [bind]. rewrite row_data_ok by lia. cbn [bind]. cbv zeta.
  set (ws_g := row_read ws_m 2).
  destruct (msme_lines_ok ws_g (py_range 3 (min 8 (max_row ws_g + 1))))
    as [lm ->]; [apply py_range_pos; lia|]. cbn [bind].
  rewrite Hc. cbn [bind].
  destruct (charter_lines_ok ws_c (py_range 1 (min 11 (max_row ws_c + 1))))
    as [lc ->]; [apply py_range_pos; lia|]. cbn [bind].
  rewrite !column_count_ok. cbn [bind].
  match goal with
  | |- context [Json.dumps float_repr false true ?o] =>
      destruct (proj2 (dumps_returns float_repr false true o)
                  (summary_serialisable _ _ _ _ _)) as [t3 Ht3]
  end.
  rewrite Ht3. cbn [bind]. eexists _, t3, _, _. split_and!; [reflexivity| |done..].
  rewrite !app_assoc.
  match goal with
  | |- last (?a ++ [?x1; ?x2; ?x3; ?y]) = _ =>
      change (a ++ [x1; x2; x3; y]) with (a ++ ([x1; x2; x3] ++ [y]));
      rewrite (app_assoc a); apply last_snoc
  end.
Qed.

Example one_row_sheet_has_two_rows_after_header_read :
  max_row (grid 1 [[VStr "Title"]]) = 1 ∧
  max_row (row_read (grid 1 [[VStr "Title"]]) 2) = 2.
Proof. split; reflexivity. Qed.

End DetailedMain.

(** X17. [analyze_excel_detailed.py] runs to its end exactly when the
    workbook has both a sheet "msme" and a sheet "charter", whatever
    their extents and cells: no cell index falls below 1, and what it
    dumps holds only texts, numbers and [None] (a date, a time or a
    duration is cut to text by [str] first). Without one of the sheets the first lookup of it
    raises [KeyError]. *)
Theorem detailed_script_completes_iff_both_sheets
    (float_str float_repr : float → string) (py_repr : pyobj → string)
    (wb : workbook) :
  ("msme" ∈ sheetnames wb ∧ "charter" ∈ sheetnames wb ↔
   ∃ texts, Detailed.main float_str float_repr py_repr wb = Ok texts) ∧
  ("msme" ∉ sheetnames wb →
   Detailed.main float_str float_repr py_repr wb
     = Raise (KeyError "Worksheet msme does not exist.")) ∧
  ("msme" ∈ sheetnames wb → "charter" ∉ sheetnames wb →
   Detailed.main float_str float_repr py_repr wb
     = Raise (KeyError "Worksheet charter does not exist.")).
Proof.
  assert ("msme" ∉ sheetnames wb →
          Detailed.main float_str float_repr py_repr wb
            = Raise (KeyError "Worksheet msme does not exist.")) as Hno_msme.
  { intros Hm. unfold Detailed.main.
    by rewrite (analyze_sheet_detailed_missing float_str wb "msme" Hm). }
  assert ("msme" ∈ sheetnames wb → "charter" ∉ sheetnames wb →
          Detailed.main float_str float_repr py_repr wb
            = Raise (KeyError "Worksheet charter does not exist.")) as Hno_charter.
  { intros Hm Hc. unfold Detailed.main.
    destruct (proj1 (get_sheet_spec wb "msme") Hm) as (ws_m & Hws & _).
    rewrite (analyze_sheet_detailed_ok float_str wb "msme" ws_m Hws). cbn [bind].
    destruct (proj2 (dumps_returns float_repr false true _)
                (sheet_detail_serialisable float_str "msme" ws_m
                   (seq 1 (min 20 (max_row ws_m))))) as [t1 ->]. cbn [bind].
    by rewrite (analyze_sheet_detailed_missing float_str wb "charter" Hc). }
  split_and!; [|done..]. split.
  - intros [Hm Hc].
    destruct (proj1 (get_sheet_spec wb "msme") Hm) as (ws_m & Hws_m & _).
    destruct (proj1 (get_sheet_spec wb "charter") Hc) as (ws_c & Hws_c & _).
    by apply (detailed_main_ok float_str float_repr py_repr wb ws_m ws_c).
  - intros (texts & Hmain).
    destruct (decide ("msme" ∈ sheetnames wb)) as [Hm|Hm];
      [|rewrite (Hno_msme Hm) in Hmain; discriminate].
    destruct (decide ("charter" ∈ sheetnames wb)) as [Hc|Hc];
      [done | rewrite (Hno_charter Hm Hc) in Hmain; discriminate].
Qed.

Lemma detailed_script_completes_iff_both_sheets_witness :
  ∃ texts, Detailed.main float_elided float_elided repr_elided five_row_workbook
             = Ok texts.
Proof.
  apply (detailed_script_completes_iff_both_sheets float_elided float_elided
           repr_elided five_row_workbook).
  split; [apply list_elem_of_here | apply list_elem_of_further, list_elem_of_here].
Defined.

(** ** [analyze_excel_final.py]: missing sheets *)
Section FinalSheets.

Import AnalyzeFinal.

Lemma gather_missing wb name lay :
  name ∉ sheetnames wb →
  gather wb name lay = Raise (KeyError ("Worksheet " +:+ name +:+ " does not exist.")).
Proof.
  intros Hnin. unfold gather. by rewrite (proj2 (get_sheet_spec wb name) Hnin).
Qed.

End FinalSheets.

(** X18. [analyze_excel_final.py] builds its response exactly when the
    workbook has both a sheet "msme" and a sheet "charter"; a sheet
    shorter than the rows the script names (header row 2 or 3, sample
    rows up to 10) is no error. Without "msme" the script raises
    [KeyError] for it before it looks at "charter". *)
Theorem final_response_built_iff_both_sheets (wb : workbook) :
  ("msme" ∈ sheetnames wb ∧ "charter" ∈ sheetnames wb ↔
   ∃ resp, AnalyzeFinal.build_response wb = Ok resp) ∧
  ("msme" ∉ sheetnames wb →
   AnalyzeFinal.build_response wb = Raise (KeyError "Worksheet msme does not exist.")) ∧
  ("msme" ∈ sheetnames wb → "charter" ∉ sheetnames wb →
   AnalyzeFinal.build_response wb
     = Raise (KeyError "Worksheet charter does not exist.")).
Proof.
  assert ("msme" ∉ sheetnames wb →
          AnalyzeFinal.build_response wb
            = Raise (KeyError "Worksheet msme does not exist.")) as Hno_msme.
  { intros Hm. unfold AnalyzeFinal.build_response. by rewrite gather_missing. }
  assert ("msme" ∈ sheetnames wb → "charter" ∉ sheetnames wb →
          AnalyzeFinal.build_response wb
            = Raise (KeyError "Worksheet charter does not exist.")) as Hno_charter.
  { intros Hm Hc. unfold AnalyzeFinal.build_response.
    destruct (proj1 (get_sheet_spec wb "msme") Hm) as (ws_m & Hws & _).
    rewrite (gather_exact wb "msme" _ ws_m msme_layout_ok Hws). cbn [bind].
    by rewrite gather_missing. }
  split_and!; [|done..]. split.
  - intros [Hm Hc].
    destruct (proj1 (get_sheet_spec wb "msme") Hm) as (ws_m & Hws_m & _).
    destruct (proj1 (get_sheet_spec wb "charter") Hc) as (ws_c & Hws_c & _).
    destruct (build_response_ok wb ws_m ws_c Hws_m Hws_c) as (resp & Hresp & _).
    by exists resp.
  - intros (resp & Hresp).
    destruct (decide ("msme" ∈ sheetnames wb)) as [Hm|Hm];
      [|rewrite (Hno_msme Hm) in Hresp; discriminate].
    destruct (decide ("charter" ∈ sheetnames wb)) as [Hc|Hc];
      [done | rewrite (Hno_charter Hm Hc) in Hresp; discriminate].
Qed.

(** X19. Whenever the first row of a sheet has a value, the header search
    of [analyze_excel.py] stops there: [analyze_sheet] takes row 1 for
    the header row, whatever the rows below hold, so a title above the
    real headers is reported as the headers. *)
Theorem first_row_with_a_value_is_taken_as_header
    (set_iter : PySet.t → list string) (wb : workbook) (name : string)
    (max_data_rows : nat) (ws : worksheet) :
  get_sheet wb name = Ok ws →
  1 ≤ max_row ws →
  row_nonempty ws 1 →
  AnalyzeExcel.locate_header ws 10 = Ok (row_cells ws 1, 1) ∧
  ∃ info, AnalyzeExcel.analyze_sheet set_iter wb name max_data_rows = Ok info ∧
          AnalyzeExcel.headers info = row_cells ws 1 ∧
          ∀ sample, sample ∈ AnalyzeExcel.sample_rows info →
            ∃ r, 2 ≤ r ∧ sample = row_cells ws r.
Proof.
  intros Hws Hmax Hrow.
  assert (AnalyzeExcel.locate_header ws 10 = Ok (row_cells ws 1, 1)) as Hloc.
  { destruct (locate_header_spec ws 9) as [(r & (Hr & _ & _ & Hfirst) & Heq)|[Hnone _]].
    - destruct (decide (r = 1)) as [->|Hne]; [exact Heq|].
      exfalso. apply (Hfirst 1); [lia | done].
    - exfalso. apply (Hnone 1); [lia | done | done]. }
  split; [done|]. eexists. split; [by eapply analyze_sheet_ok|].
  split; [done|]. cbn [sheet_info_of AnalyzeExcel.sample_rows]. unfold rows_with_value.
  intros sample [_ Hin]%list_elem_of_filter.
  apply list_elem_of_fmap in Hin as (r & -> & Hr%elem_of_seq). exists r.
  split; [lia | done].
Qed.

Lemma first_row_with_a_value_is_taken_as_header_witness :
  AnalyzeExcel.locate_header msme_five_rows 10 = Ok (row_cells msme_five_rows 1, 1) ∧
  ∃ info, AnalyzeExcel.analyze_sheet insertion_order five_row_workbook "msme" 3 = Ok info ∧
          AnalyzeExcel.headers info = row_cells msme_five_rows 1 ∧
          ∀ sample, sample ∈ AnalyzeExcel.sample_rows info →
            ∃ r, 2 ≤ r ∧ sample = row_cells msme_five_rows r.
Proof.
  apply (first_row_with_a_value_is_taken_as_header insertion_order five_row_workbook
           "msme" 3 msme_five_rows eq_refl).
  - cbn. lia.
  - exists 1. split; [cbn; lia | discriminate].
Defined.

(** ** [analyze_excel_comprehensive.py]: what the loop prints *)
Section Printed.

Import Comprehensive.

Variable py_repr : pyobj → string.

Lemma sheet_step_printed w name st :
  ∃ more, printed (sheet_step py_repr w name st) =
            printed st ++ [Json.newline +:+ "Analyzing sheet: " +:+ name;
                           Json.repeat_str "-" 80] ++ more ∧
          ∀ e, sheet_raises w name e →
               last more = Some ("  Error analyzing sheet: " +:+ exn_str e).
Proof.
  unfold sheet_step, sheet_raises.
  destruct (read_excel w name) as [df|e0] eqn:Hread.
  - destruct (analyze_df df) as [a|e0] eqn:Ha.
    + eexists. split.
      * cbn [print printed on_error]. rewrite <- !app_assoc. reflexivity.
      * intros e [Hr|(df' & [= <-] & Ha')]; congruence.
    + eexists. split.
      * cbn [print printed on_error]. rewrite <- !app_assoc. reflexivity.
      * intros e [Hr|(df' & [= <-] & Ha')]; [discriminate|].
        rewrite Ha in Ha'. injection Ha' as <-. by rewrite last_app.
  - exists ["  Error analyzing sheet: " +:+ exn_str e0]. split.
    + cbn [print printed on_error]. by rewrite <- !app_assoc.
    + intros e [[= <-]|(df' & Hr & _)]; [done | discriminate].
Qed.

Lemma sheets_loop_printed_prefix w names : ∀ st,
  printed st `prefix_of` printed (sheets_loop py_repr w names st).
Proof.
  induction names as [|n names IH]; intros st; [done|].
  cbn [sheets_loop]. etrans; [|apply IH].
  destruct (sheet_step_printed w n st) as (more & -> & _). by apply prefix_app_r.
Qed.

End Printed.

(** X20. The loop over the sheets of the comprehensive script only adds
    to what is printed. For every sheet of the workbook it prints the
    heading of the sheet, and for every sheet whose analysis raises it
    prints the error line with the text of the exception, the same text
    that it records under the sheet's name. *)
Theorem sheets_loop_prints_heading_and_error
    (py_repr : pyobj → string) (w : Comprehensive.world)
    (sheet_names : list string) (name : string) :
  name ∈ sheet_names →
  let run := Comprehensive.run_sheets py_repr w sheet_names in
  (Json.newline +:+ "Analyzing sheet: " +:+ name) ∈ Comprehensive.printed run ∧
  ∀ e, sheet_raises w name e →
       ("  Error analyzing sheet: " +:+ exn_str e) ∈ Comprehensive.printed run ∧
       Comprehensive.dict_get name (Comprehensive.sheets run)
         = Some (Comprehensive.Failed (exn_str e)).
Proof.
  intros Hname run. subst run. unfold Comprehensive.run_sheets.
  match goal with
  | |- context [Comprehensive.sheets_loop py_repr w sheet_names ?st0] =>
      generalize st0
  end.
  intros st0.
  assert (∀ st, (Json.newline +:+ "Analyzing sheet: " +:+ name)
                  ∈ Comprehensive.printed (Comprehensive.sheets_loop py_repr w sheet_names st) ∧
                ∀ e, sheet_raises w name e →
                  ("  Error analyzing sheet: " +:+ exn_str e)
                    ∈ Comprehensive.printed (Comprehensive.sheets_loop py_repr w sheet_names st))
    as Hprinted.
  { induction sheet_names as [|n names IH]; [by apply elem_of_nil in Hname|].
    intros st. cbn [Comprehensive.sheets_loop].
    apply elem_of_cons in Hname as [->|Hname]; [|by apply IH].
    pose proof (sheets_loop_printed_prefix py_repr w names
                  (Comprehensive.sheet_step py_repr w n st)) as [rest ->].
    destruct (sheet_step_printed py_repr w n st) as (more & -> & Herr).
    split.
    - rewrite !elem_of_app. left. right. left. left.
    - intros e He. specialize (Herr e He).
      rewrite !elem_of_app. left. right. right.
      destruct more as [|m more _] using rev_ind; [discriminate|].
      rewrite last_snoc in Herr. injection Herr as ->.
      rewrite elem_of_app. right. left. }
  split; [apply Hprinted|]. intros e He. split; [by apply Hprinted|].
  rewrite sheets_loop_get, decide_True by done. f_equal.
  destruct He as [Hr|(df & Hr & Ha)]; unfold entry_of; rewrite Hr; [done|].
  by rewrite Ha.
Qed.

Lemma sheets_loop_prints_heading_and_error_witness :
  let run := Comprehensive.run_sheets repr_elided three_sheet_world
               ["Stock"; "Dates"; "Totals"] in
  (Json.newline +:+ "Analyzing sheet: " +:+ "Dates") ∈ Comprehensive.printed run ∧
  ∀ e, sheet_raises three_sheet_world "Dates" e →
       ("  Error analyzing sheet: " +:+ exn_str e) ∈ Comprehensive.printed run ∧
       Comprehensive.dict_get "Dates" (Comprehensive.sheets run)
         = Some (Comprehensive.Failed (exn_str e)).
Proof.
  apply (sheets_loop_prints_heading_and_error repr_elided three_sheet_world
           ["Stock"; "Dates"; "Totals"] "Dates").
  apply list_elem_of_further, list_elem_of_here.
Defined.

(** ** Rows created by reading a header row

    [analyze_excel_final.py] reads its header row over all columns, which
    leaves a sheet that ended above that row with the header row as its
    last one. The rows it samples and counts afterwards lie below the
    header row: what it gathers is the same with and without that
    growth. *)
Section HeaderRead.

Import AnalyzeFinal.

Lemma row_read_cells ws hr : cells (row_read ws hr) = cells ws.
Proof. unfold row_read. by destruct (max_column ws =? 0). Qed.

Lemma row_read_max_column ws hr : max_column (row_read ws hr) = max_column ws.
Proof. unfold row_read. by destruct (max_column ws =? 0). Qed.

Lemma row_read_max_row ws hr :
  max_row (row_read ws hr) =
  if max_column ws =? 0 then max_row ws else max (max_row ws) hr.
Proof. unfold row_read. by destruct (max_column ws =? 0). Qed.

Lemma row_read_row_data ws hr r stop :
  row_data (row_read ws hr) r stop = row_data ws r stop.
Proof. unfold row_data, cell_value. by rewrite row_read_cells. Qed.

Lemma row_read_samples_loop ws hr n rows : ∀ samples,
  Forall (λ r, hr < r) rows →
  samples_loop (row_read ws hr) n rows samples = samples_loop ws n rows samples.
Proof.
  induction rows as [|r rows IH]; intros samples Hrows; [done|].
  apply Forall_cons in Hrows as [Hr Hrows]. cbn [samples_loop].
  rewrite row_read_row_data.
  replace (r <=? max_row (row_read ws hr)) with (r <=? max_row ws).
  - destruct (r <=? max_row ws); [|by apply IH].
    destruct (row_data ws r (n + 1)) as [rd|e]; cbn [bind]; [by apply IH | done].
  - rewrite row_read_max_row. destruct (max_column ws =? 0); [done|].
    destruct (Nat.leb_spec r (max_row ws)), (Nat.leb_spec r (max (max_row ws) hr));
      lia || done.
Qed.

Lemma row_read_count_loop ws hr rows : ∀ count,
  count_loop (row_read ws hr) rows count = count_loop ws rows count.
Proof.
  induction rows as [|r rows IH]; intros count; [done|]. cbn [count_loop].
  rewrite row_read_row_data, row_read_max_column.
  destruct (row_data ws r (max_column ws + 1)) as [rd|e]; cbn [bind]; [apply IH | done].
Qed.

Lemma row_read_data_range ws hr ds :
  hr < ds →
  py_range ds (max_row (row_read ws hr) + 1) = py_range ds (max_row ws + 1).
Proof.
  intros Hds. rewrite row_read_max_row. destruct (max_column ws =? 0); [done|].
  unfold py_range. f_equal. lia.
Qed.

(** The samples and the count of data rows of both sheets are those of
    the sheet as it was loaded. *)
Lemma header_read_is_not_observed ws lay n :
  lay = msme_layout ∨ lay = charter_layout →
  let ws' := row_read ws (header_row lay) in
  samples_loop ws' n (sample_idx lay) [] = samples_loop ws n (sample_idx lay) [] ∧
  count_loop ws' (py_range (data_start lay) (max_row ws' + 1)) 0
    = count_loop ws (py_range (data_start lay) (max_row ws + 1)) 0.
Proof.
  intros Hlay ws'. subst ws'. split.
  - apply row_read_samples_loop.
    destruct Hlay as [-> | ->]; cbn; repeat constructor; lia.
  - rewrite row_read_count_loop, row_read_data_range; [done|].
    destruct Hlay as [-> | ->]; cbn; lia.
Qed.

End HeaderRead.
